(** * LangtraceFileGenerator: a shallow embedding of [generate_file.py]

    The development follows the source file top to bottom:

    - [PyStr]: the Python string built-ins the generator calls
      ([str] on integers, [str.zfill], [str.endswith]);
    - [Fs]: the part of [pathlib] and of the file system the generator
      touches (joining a name to a path, directories, text files, refusals
      by the operating system), together with the process-wide logger;
    - [Gen]: the class [LangtraceFileGenerator], method by method, in a
      state-and-exception monad over the object and the world;
    - the properties of naming, writing, batching and cleanup. *)

From Stdlib Require Import ZArith Lia Ascii String.
From stdpp Require Import base gmap strings list.

Local Open Scope string_scope.
Set Warnings "-clear-no-such-hyp".

(** ** Python string built-ins *)

Module PyStr.

(** The character of a decimal digit [0 <= d < 10]. *)
Definition digit_char (d : Z) : ascii := ascii_of_nat (48 + Z.to_nat d).

(** Decimal digits of a non-negative integer, most significant first,
    pushed in front of [acc]. [fuel] bounds the number of digits. *)
Fixpoint str_digits (fuel : nat) (n : Z) (acc : string) : string :=
  match fuel with
  | O => acc
  | S fuel' =>
      let acc' := String (digit_char (n mod 10)) acc in
      if (n <? 10)%Z then acc' else str_digits fuel' (n / 10) acc'
  end.

Definition str_nonneg (n : Z) : string :=
  str_digits (S (Z.to_nat n)) n "".

(** [str(n)] for a Python [int]. *)
Definition str (n : Z) : string :=
  if (n <? 0)%Z then String "-" (str_nonneg (- n)) else str_nonneg n.

(** [len(s)]. *)
Definition len (s : string) : nat := String.length s.

Fixpoint zeros (k : nat) : string :=
  match k with
  | O => ""
  | S k' => String "0" (zeros k')
  end.

Definition is_sign (c : ascii) : bool :=
  Ascii.eqb c "+" || Ascii.eqb c "-".

(** [s.zfill(width)]: left-fill with ["0"] up to [width]; a leading sign
    stays in front of the fill. *)
Definition zfill (width : nat) (s : string) : string :=
  if (width <=? len s)%nat then s
  else
    let fill := zeros (width - len s) in
    match s with
    | String c rest =>
        if is_sign c then String c (fill +:+ rest) else fill +:+ s
    | EmptyString => fill
    end.

(** [s.endswith(suffix)]. *)
Definition endswith (s suffix : string) : bool :=
  (len suffix <=? len s)%nat
  && String.eqb (substring (len s - len suffix) (len suffix) s) suffix.

(** Reading a digit string back, used only to state and prove facts
    about [str]. *)
Fixpoint value_from (acc : Z) (s : string) : Z :=
  match s with
  | EmptyString => acc
  | String c rest =>
      value_from (10 * acc + (Z.of_nat (nat_of_ascii c) - 48))%Z rest
  end.

Definition value (s : string) : Z := value_from 0 s.

(** The last character of a string, if any. *)
Fixpoint last_char (s : string) : option ascii :=
  match s with
  | EmptyString => None
  | String c EmptyString => Some c
  | String _ rest => last_char rest
  end.

Definition is_digit (c : ascii) : bool :=
  (48 <=? nat_of_ascii c)%nat && (nat_of_ascii c <=? 57)%nat.

Fixpoint all_digits (s : string) : bool :=
  match s with
  | EmptyString => true
  | String c rest => is_digit c && all_digits rest
  end.

End PyStr.

(** ** Paths, the file system and the logger *)

Module Fs.

(** A [pathlib.Path] of the POSIX flavour as its [parts]: the components
    in order, behind the root ["/"] (or ["//"]) when the path is absolute;
    the empty sequence is ["."], the current directory. *)
Abbreviation Path := (list string).

Definition is_sep (c : ascii) : bool := Ascii.eqb c "/".

(** [name.split('/')]. *)
Fixpoint split_sep (name : string) : list string :=
  match name with
  | EmptyString => [EmptyString]
  | String c rest =>
      if is_sep c then EmptyString :: split_sep rest
      else
        match split_sep rest with
        | seg :: segs => String c seg :: segs
        | [] => [String c EmptyString]
        end
  end.

(** The segments [pathlib] keeps as components: it drops the empty ones
    and ["."], and keeps [".."] as it stands. *)
Definition kept (seg : string) : bool :=
  negb (String.eqb seg "") && negb (String.eqb seg ".").

Definition components (name : string) : list string :=
  List.filter kept (split_sep name).

(** The number of slashes a name starts with. *)
Fixpoint leading_seps (name : string) : nat :=
  match name with
  | EmptyString => 0
  | String c rest => if is_sep c then S (leading_seps rest) else 0
  end.

(** The root of a name: none when it is relative, ["//"] behind exactly
    two leading slashes, ["/"] behind one or more than two. *)
Definition root_of (name : string) : option string :=
  match leading_seps name with
  | 0 => None
  | 2 => Some "//"
  | _ => Some "/"
  end.

(** [d / name]: an absolute name replaces [d]; a relative one adds its
    components to those of [d]. *)
Definition path_join (d : Path) (name : string) : Path :=
  match root_of name with
  | Some r => r :: components name
  | None => d ++ components name
  end.

Fixpoint all_chars (ok : ascii -> bool) (name : string) : bool :=
  match name with
  | EmptyString => true
  | String c rest => ok c && all_chars ok rest
  end.

(** A name without separator. *)
Definition no_sep (name : string) : bool :=
  all_chars (fun c => negb (is_sep c)) name.



(** [p.parent]. *)
Definition parent (p : Path) : Path := removelast p.

(** The system calls the generator makes, to name the one that failed. *)
Inductive OsOp := OpMkdir | OpOpen | OpWrite | OpUnlink | OpIterdir | OpRmdir.

(** The exceptions of the program: [ValueError] with its message, and
    [OSError] ([IOError] is the same class) with the failed call. *)
Inductive Exn :=
| ValueError (msg : string)
| OSError (op : OsOp) (p : Path).

Inductive Outcome (A : Type) :=
| Return (a : A)
| Raise (e : Exn).
Arguments Return {A} a.
Arguments Raise {A} e.

Inductive Level := INFO | ERROR.

(** The log messages of the module, one constructor per format string. *)
Inductive Msg :=
| CreatedTimestampedDirectory (p : Path)
| OutputDirectoryVerified (p : Path)
| FailedCreateOutputDirectory (e : Exn)
| GeneratedFile (p : Path)
| FailedCreateFile (p : Path) (e : Exn)
| GeneratingByCount (count : Z) (base_filename : string)
| GeneratingByNames (n : nat)
| RemovedFile (p : Path)
| FailedRemoveFile (p : Path) (e : Exn)
| RemovedEmptyDirectory (p : Path)
| RemovedEmptyBaseDirectory (p : Path)
| FailedRemoveDirectory (e : Exn).

(** The world outside the object: text files with their content,
    directories, the calls the operating system refuses (permissions, a
    full disk), and the records the logger has emitted, oldest first.
    Entries are told apart by their path: the disk has no links, and a
    path is not resolved any further than [pathlib] does.  What the
    system refuses is fixed for a run. *)
Record World := {
  files : gmap Path string;
  dirs : gset Path;
  refuses : OsOp -> Path -> bool;
  log : list (Level * Msg)
}.

Definition is_file (w : World) (p : Path) : bool :=
  bool_decide (is_Some (files w !! p)).

(** The current directory always exists. *)
Definition is_dir (w : World) (p : Path) : bool :=
  bool_decide (p = []) || bool_decide (p ∈ dirs w).

(** [p.exists()]. *)
Definition path_exists (w : World) (p : Path) : bool :=
  is_file w p || is_dir w p.

(** Whether [p] has an entry: a file or a directory whose parent it is. *)
Definition has_entry (w : World) (p : Path) : bool :=
  bool_decide (set_Exists (fun q => parent q = p ∧ q ≠ [])
                          (dom (files w) ∪ dirs w)).

Definition with_files (f : gmap Path string -> gmap Path string)
    (w : World) : World :=
  {| files := f (files w); dirs := dirs w;
     refuses := refuses w; log := log w |}.

Definition with_dirs (f : gset Path -> gset Path) (w : World) : World :=
  {| files := files w; dirs := f (dirs w);
     refuses := refuses w; log := log w |}.

Definition emit (lvl : Level) (m : Msg) (w : World) : World :=
  {| files := files w; dirs := dirs w;
     refuses := refuses w; log := log w ++ [(lvl, m)] |}.

(** The non-empty prefixes of a path, shortest first: the directories
    [mkdir(parents=True)] goes through. *)
Definition ancestors_and_self (p : Path) : list Path :=
  map (fun k => take k p) (seq 1 (length p)).

Fixpoint mkdir_chain (qs : list Path) (w : World) : Outcome unit * World :=
  match qs with
  | [] => (Return tt, w)
  | q :: qs' =>
      if is_dir w q then mkdir_chain qs' w
      else if is_file w q || refuses w OpMkdir q
      then (Raise (OSError OpMkdir q), w)
      else mkdir_chain qs' (with_dirs (fun d => {[q]} ∪ d) w)
  end.

(** [p.mkdir(parents=True, exist_ok=True)]. *)
Definition mkdir_parents_exist_ok (p : Path) (w : World)
    : Outcome unit * World :=
  mkdir_chain (ancestors_and_self p) w.

(** [with open(p, 'w', encoding='utf-8') as f: f.write(content)]: opening
    creates or truncates the file; the write may still fail.  The system
    is asked about the path as it stands; the properties that need it say
    that the name has no NUL character, which [open] rejects before it
    asks. *)
Definition open_write (p : Path) (content : string) (w : World)
    : Outcome unit * World :=
  if negb (is_dir w (parent p)) || is_dir w p || refuses w OpOpen p
  then (Raise (OSError OpOpen p), w)
  else
    let w1 := with_files (fun f => <[p := ""]> f) w in
    if refuses w OpWrite p then (Raise (OSError OpWrite p), w1)
    else (Return tt, with_files (fun f => <[p := content]> f) w1).

(** [p.unlink()]. *)
Definition unlink (p : Path) (w : World) : Outcome unit * World :=
  if is_file w p && negb (refuses w OpUnlink p)
  then (Return tt, with_files (fun f => delete p f) w)
  else (Raise (OSError OpUnlink p), w).

(** [any(p.iterdir())]. *)
Definition any_iterdir (p : Path) (w : World) : Outcome bool * World :=
  if is_dir w p && negb (refuses w OpIterdir p)
  then (Return (has_entry w p), w)
  else (Raise (OSError OpIterdir p), w).

(** [p.rmdir()]. *)
Definition rmdir (p : Path) (w : World) : Outcome unit * World :=
  if bool_decide (p ∈ dirs w) && negb (has_entry w p)
     && negb (refuses w OpRmdir p)
  then (Return tt, with_dirs (fun d => d ∖ {[p]}) w)
  else (Raise (OSError OpRmdir p), w).

End Fs.

(** ** The class [LangtraceFileGenerator] *)

Module Gen.
Import PyStr Fs.

(** The double quote, and the three that open and close a docstring. *)
Definition dq : string := String (ascii_of_nat 34) "".
Definition q3 : string := dq +:+ dq +:+ dq.

(** Template content for the LangtraceSampler class. *)
Definition LANGTRACE_SAMPLER_TEMPLATE : string :=
  "from typing import Optional, Sequence
from opentelemetry.sdk.trace.sampling import (
    Sampler,
    Decision,
    SamplingResult,
)
from opentelemetry.trace import SpanKind, Link, TraceState, TraceFlags
from opentelemetry.util.types import Attributes
from opentelemetry.context import Context
from opentelemetry import trace


class LangtraceSampler(Sampler):
    "
  +:+ q3
  +:+ "Custom sampler for Langtrace that filters spans based on disabled methods."
  +:+ q3
  +:+ "
    
    _disabled_methods_names: set
    
    def __init__(
        self,
        disabled_methods: dict,
    ):
        "
  +:+ q3
  +:+ "Initialize the sampler with disabled methods configuration.
        
        Args:
            disabled_methods: Dictionary mapping components to their disabled methods
        "
  +:+ q3
  +:+ "
        self._disabled_methods_names = set()
        if disabled_methods:
            for _, methods in disabled_methods.items():
                for method in methods:
                    self._disabled_methods_names.add(method)
    
    def should_sample(
        self,
        parent_context: Optional[Context],
        trace_id: int,
        name: str,
        kind: Optional[SpanKind] = None,
        attributes: Attributes = None,
        links: Optional[Sequence[Link]] = None,
        trace_state: Optional["
  +:+ dq
  +:+ "TraceState"
  +:+ dq
  +:+ "] = None,
    ) -> SamplingResult:
        "
  +:+ q3
  +:+ "Determine whether a span should be sampled.
        
        Args:
            parent_context: The parent context
            trace_id: The trace ID
            name: The span name
            kind: The span kind
            attributes: The span attributes
            links: The span links
            trace_state: The trace state
            
        Returns:
            SamplingResult indicating whether to sample the span
        "
  +:+ q3
  +:+ "
        parent_span = trace.get_current_span(parent_context)
        parent_span_context = parent_span.get_span_context()
        
        if not self._disabled_methods_names:
            return SamplingResult(decision=Decision.RECORD_AND_SAMPLE)
        
        if parent_context:
            if (
                parent_span_context.span_id != 0
                and parent_span_context.trace_flags != TraceFlags.SAMPLED
            ):
                return SamplingResult(decision=Decision.DROP)
        
        if name in self._disabled_methods_names:
            return SamplingResult(decision=Decision.DROP)
        
        return SamplingResult(decision=Decision.RECORD_AND_SAMPLE)
    
    def get_description(self) -> str:
        "
  +:+ q3
  +:+ "Get a description of this sampler.
        
        Returns:
            A string description of the sampler
        "
  +:+ q3
  +:+ "
        return "
  +:+ dq
  +:+ "Langtrace Sampler"
  +:+ dq
  +:+ "
".

(** The text put in front of the template in [__init__.py]. *)
Definition init_content : string :=
  q3
  +:+ "
Langtrace Sampler Module

This module provides the LangtraceSampler class for OpenTelemetry tracing.
"
  +:+ q3
  +:+ "

from .langtrace_sampler import LangtraceSampler

__all__ = ['LangtraceSampler']
__version__ = '1.0.0'
".

(** The fields of an instance. *)
Record Generator := {
  base_output_dir : Path;
  use_timestamp : bool;
  output_dir : Path;
  created_files : list Path
}.

(** [__init__]: [base] is [Path(base_output_dir)] and [timestamp] is what
    [datetime.now().strftime("%Y%m%d_%H%M%S")] returned. *)
Definition LangtraceFileGenerator (base : Path) (use_ts : bool)
    (timestamp : string) : Generator :=
  {| base_output_dir := base;
     use_timestamp := use_ts;
     output_dir :=
       if use_ts then path_join base ("langtrace_" +:+ timestamp) else base;
     created_files := [] |}.

(** The object and the world its methods act on. *)
Record State := { self : Generator; world : World }.

(** A method: it returns or raises, and leaves a state either way. *)
Definition M (A : Type) : Type := State -> Outcome A * State.

Definition ret {A : Type} (a : A) : M A := fun s => (Return a, s).

Definition bind {A B : Type} (m : M A) (f : A -> M B) : M B :=
  fun s =>
    match m s with
    | (Return a, s') => f a s'
    | (Raise e, s') => (Raise e, s')
    end.

Declare Scope py_scope.
Delimit Scope py_scope with py.
Bind Scope py_scope with M.
Notation "x <- m ;; k" := (bind m (fun x => k))
  (at level 100, m at next level, right associativity) : py_scope.
Notation "m ;; k" := (bind m (fun _ => k))
  (at level 100, right associativity) : py_scope.
Local Open Scope py_scope.

Definition raise {A : Type} (e : Exn) : M A := fun s => (Raise e, s).

Definition gets {A : Type} (f : Generator -> A) : M A :=
  fun s => (Return (f (self s)), s).

(** A call into the file system or the logger. *)
Definition sys {A : Type} (op : World -> Outcome A * World) : M A :=
  fun s => let (r, w') := op (world s) in (r, {| self := self s; world := w' |}).

Definition ask {A : Type} (q : World -> A) : M A :=
  fun s => (Return (q (world s)), s).

Definition logger_info (m : Msg) : M unit :=
  sys (fun w => (Return tt, emit INFO m w)).

Definition logger_error (m : Msg) : M unit :=
  sys (fun w => (Return tt, emit ERROR m w)).

(** [try: body  except OSError as e: handler e]. *)
Definition try_except_OSError {A : Type} (body : M A) (handler : Exn -> M A)
    : M A :=
  fun s =>
    match body s with
    | (Raise (OSError op p), s') => handler (OSError op p) s'
    | r => r
    end.

(** [for x in l: body x]. *)
Fixpoint for_each {A : Type} (l : list A) (body : A -> M unit) : M unit :=
  match l with
  | [] => ret tt
  | x :: l' => body x ;; for_each l' body
  end.

(** [range(lo, hi)]. *)
Definition range (lo hi : Z) : list Z :=
  map (fun k => (lo + Z.of_nat k)%Z) (seq 0 (Z.to_nat (hi - lo))).

(** [self.created_files.append(p)]. *)
Definition created_files_append (p : Path) : M unit :=
  fun s =>
    (Return tt,
     {| self := {| base_output_dir := base_output_dir (self s);
                   use_timestamp := use_timestamp (self s);
                   output_dir := output_dir (self s);
                   created_files := created_files (self s) ++ [p] |};
        world := world s |}).

(** [self.created_files.clear()]. *)
Definition created_files_clear : M unit :=
  fun s =>
    (Return tt,
     {| self := {| base_output_dir := base_output_dir (self s);
                   use_timestamp := use_timestamp (self s);
                   output_dir := output_dir (self s);
                   created_files := [] |};
        world := world s |}).

Definition create_output_directory : M unit :=
  out <- gets output_dir ;;
  ts <- gets use_timestamp ;;
  try_except_OSError
    (sys (mkdir_parents_exist_ok out) ;;
     if ts then logger_info (CreatedTimestampedDirectory out)
     else logger_info (OutputDirectoryVerified out))
    (fun e => logger_error (FailedCreateOutputDirectory e) ;; raise e).

(** The first two lines of [generate_file]: the name with its extension. *)
Definition with_py (filename : string) : string :=
  if negb (endswith filename ".py") then filename +:+ ".py" else filename.

(** The payload [generate_file] selects for an already extended name. *)
Definition payload (filename : string) (add_init : bool) : string :=
  let content := LANGTRACE_SAMPLER_TEMPLATE in
  if add_init && String.eqb filename "__init__.py"
  then init_content +:+ content
  else content.

Definition generate_file (filename : string) (add_init : bool) : M Path :=
  let filename := with_py filename in
  out <- gets output_dir ;;
  let file_path := path_join out filename in
  try_except_OSError
    (let content := payload filename add_init in
     sys (open_write file_path content) ;;
     created_files_append file_path ;;
     logger_info (GeneratedFile file_path) ;;
     ret file_path)
    (fun e => logger_error (FailedCreateFile file_path e) ;; raise e).

(** A call [self.generate_file(filename)] as a statement: [add_init] takes
    its default and the returned path is dropped. *)
Definition generate_data_file (filename : string) : M unit :=
  generate_file filename false ;; ret tt.

(** The name the counting loop computes at index [i]. *)
Definition auto_filename (count : Z) (base_filename : string) (i : Z)
    : string :=
  if (count =? 1)%Z then base_filename
  else
    let padding := len (str count) in
    base_filename +:+ "_" +:+ zfill padding (str i).

Definition _generate_files_by_count (count : Z) (base_filename : string)
    : M unit :=
  if (count <=? 0)%Z
  then raise (ValueError "Count must be a positive integer")
  else
    logger_info (GeneratingByCount count base_filename) ;;
    for_each (range 1 (count + 1)) (fun i =>
      let filename := auto_filename count base_filename i in
      generate_data_file filename).

Definition _generate_files_by_names (filenames : list string) : M unit :=
  logger_info (GeneratingByNames (length filenames)) ;;
  for_each filenames generate_data_file.

Definition generate_multiple_files (filenames : option (list string))
    (count : option Z) (create_init : bool) (base_filename : string)
    : M (list Path) :=
  if bool_decide (filenames = None) && bool_decide (count = None)
  then raise (ValueError "Either 'filenames' or 'count' must be provided")
  else if negb (bool_decide (filenames = None))
          && negb (bool_decide (count = None))
  then raise
    (ValueError "Cannot specify both 'filenames' and 'count'. Choose one.")
  else
    create_output_directory ;;
    (if create_init then generate_file "__init__.py" true ;; ret tt
     else ret tt) ;;
    match count with
    | Some c => _generate_files_by_count c base_filename
    | None => _generate_files_by_names (default [] filenames)
    end ;;
    gets created_files.

(** [a and b] on calls that may raise: [b] runs only when [a] is true. *)
Definition and_then (a b : M bool) : M bool :=
  x <- a ;; if x then b else ret false.

Definition dir_exists_and_empty (p : Path) : M bool :=
  and_then (ask (fun w => path_exists w p))
           (any <- sys (any_iterdir p) ;; ret (negb any)).

(** The body of the loop of [cleanup] over the recorded paths. *)
Definition remove_created_file (file_path : Path) : M unit :=
  try_except_OSError
    (there <- ask (fun w => path_exists w file_path) ;;
     if there
     then sys (unlink file_path) ;; logger_info (RemovedFile file_path)
     else ret tt)
    (fun e => logger_error (FailedRemoveFile file_path e)).

(** The second half of [cleanup]: remove the directory if empty, then the
    base directory if it is empty too and timestamps are in use. *)
Definition remove_empty_directories : M unit :=
  out <- gets output_dir ;;
  base <- gets base_output_dir ;;
  ts <- gets use_timestamp ;;
  try_except_OSError
    (empty <- dir_exists_and_empty out ;;
     if empty
     then
       sys (rmdir out) ;;
       logger_info (RemovedEmptyDirectory out) ;;
       base_empty <- and_then (ret ts) (dir_exists_and_empty base) ;;
       if base_empty
       then sys (rmdir base) ;; logger_info (RemovedEmptyBaseDirectory base)
       else ret tt
     else ret tt)
    (fun e => logger_error (FailedRemoveDirectory e)).

Definition cleanup : M unit :=
  recorded <- gets created_files ;;
  for_each recorded remove_created_file ;;
  remove_empty_directories ;;
  created_files_clear.

Definition get_output_dir : M Path := gets output_dir.

(** A world with nothing on disk, nothing refused and an empty log. *)
Definition empty_world : World :=
  {| files := ∅; dirs := ∅; refuses := fun _ _ => false; log := [] |}.

Definition fresh (base : Path) (use_ts : bool) (timestamp : string)
    (w : World) : State :=
  {| self := LangtraceFileGenerator base use_ts timestamp; world := w |}.

End Gen.

Import PyStr Fs Gen.
Local Open Scope py_scope.
Local Open Scope list_scope.

(** ** Effects in closed form

    What a call leaves behind, written without the monad, to state the
    lemmas about the methods. *)

Module Effect.
Import PyStr Fs Gen.

Definition set_world (s : State) (w : World) : State :=
  {| self := self s; world := w |}.

(** The object after [created_files.append(p)]. *)
Definition recorded (p : Path) (s : State) : State :=
  {| self := {| base_output_dir := base_output_dir (self s);
                use_timestamp := use_timestamp (self s);
                output_dir := output_dir (self s);
                created_files := created_files (self s) ++ [p] |};
     world := world s |}.

(** Whether [open(p, 'w')] followed by the write goes through. *)
Definition writable (w : World) (p : Path) : bool :=
  is_dir w (parent p) && negb (is_dir w p)
  && negb (refuses w OpOpen p) && negb (refuses w OpWrite p).

(** The path [generate_file] writes for a file name. *)
Definition target (out : Path) (filename : string) : Path :=
  path_join out (with_py filename).

(** What is behind the last slash of a name. *)
Definition last_segment (name : string) : string :=
  List.last (split_sep name) "".

(** The directory a name points into when it is joined to [d]: the
    components before its last segment, behind its root or behind [d]. *)
Definition dir_part (d : Path) (name : string) : Path :=
  match root_of name with
  | Some r => [r]
  | None => d
  end ++ List.filter kept (removelast (split_sep name)).

(** What one turn of the loop of [cleanup] does to the world. *)
Definition unlink_effect (p : Path) (w : World) : World :=
  if path_exists w p then
    if is_file w p && negb (refuses w OpUnlink p)
    then emit INFO (RemovedFile p) (with_files (fun f => delete p f) w)
    else emit ERROR (FailedRemoveFile p (OSError OpUnlink p)) w
  else w.

Definition unlink_all (l : list Path) (w : World) : World :=
  foldl (fun w p => unlink_effect p w) w l.

(** Whether [cleanup] gets to remove the directory [d]: it is one, it can
    be listed, it has no entry, and [rmdir] is not refused. *)
Definition removable (w : World) (d : Path) : bool :=
  bool_decide (d ∈ dirs w) && negb (refuses w OpIterdir d)
  && negb (has_entry w d) && negb (refuses w OpRmdir d).

Definition without_dir (d : Path) (w : World) : World :=
  with_dirs (fun ds => ds ∖ {[d]}) w.

(** The directories [cleanup] leaves, from the world [w1] it finds after
    its loop over the record. *)
Definition dirs_after_cleanup (g : Generator) (w1 : World) : gset Path :=
  let out := output_dir g in
  let base := base_output_dir g in
  if removable w1 out then
    if use_timestamp g && removable (without_dir out w1) base
    then dirs w1 ∖ {[out]} ∖ {[base]}
    else dirs w1 ∖ {[out]}
  else dirs w1.

(** The log records of the second half of [cleanup]. *)
Definition about_directories (x : Level * Msg) : Prop :=
  match x.2 with
  | RemovedEmptyDirectory _ | RemovedEmptyBaseDirectory _
  | FailedRemoveDirectory _ => True
  | _ => False
  end.

(** A computation that only ever appends to [created_files]. *)
Definition appends {A : Type} (m : M A) : Prop :=
  forall s, created_files (self s) `prefix_of` created_files (self (m s).2).

(** The number of data files a batch asks for. *)
Definition batch_size (filenames : option (list string)) (count : option Z)
    : nat :=
  match count with
  | Some c => Z.to_nat c
  | None => length (default [] filenames)
  end.

(** What no method changes: the three settings of the object and what the
    operating system refuses. *)
Definition same_settings (s s' : State) : Prop :=
  base_output_dir (self s') = base_output_dir (self s)
  /\ use_timestamp (self s') = use_timestamp (self s)
  /\ output_dir (self s') = output_dir (self s)
  /\ refuses (world s') = refuses (world s).

(** The file names a batch asks for, in order. *)
Definition batch_names (filenames : option (list string)) (count : option Z)
    (base_filename : string) : list string :=
  match count with
  | Some c => map (auto_filename c base_filename) (range 1 (c + 1))
  | None => default [] filenames
  end.

(** The path of the package file of a batch, when it is asked for. *)
Definition init_paths (out : Path) (create_init : bool) : list Path :=
  if create_init then [target out "__init__.py"] else [].

End Effect.

Import Effect.

(** ** The wording of the specification

    The naming policy and two of the testable properties, written from the
    specification's sentences, to be compared with the code. *)

Module Wording.
Import PyStr Fs Gen Effect.

(** "[i] zero-padded to width [width]": the decimal digits of [i] behind
    as many zeros as the width asks for. *)
Definition zero_padded (width : nat) (i : Z) : string :=
  zeros (width - len (str i)) +:+ str i.

(** NamingPolicy: the base name for a count of one, else the base name, an
    underscore and the index padded to the digit count of the count. *)
Definition policy_name (count : Z) (base : string) (i : Z) : string :=
  if (count =? 1)%Z then base
  else base +:+ "_" +:+ zero_padded (len (str count)) i.

(** "For count=N, WriteBatch produces exactly N data files (plus one init
    file if requested) whose filenames are unique", read over all the
    files of the batch. *)
Definition unique_batch (n : Z) (create_init : bool) (base : string)
    (s : State) : Prop :=
  forall l s',
    generate_multiple_files None (Some n) create_init base s = (Return l, s') ->
    length l = Z.to_nat n + (if create_init then 1 else 0) /\ NoDup l.

(** The world [cleanup] finds once its loop over the record is done. *)
Definition after_file_removal (s : State) : World :=
  unlink_all (created_files (self s)) (world s).

(** "The output directory is removed iff it is empty after file removal;
    a non-empty directory is never removed; the base directory is removed
    only when it differs from the output directory (timestamp mode) and
    is itself empty, never when it equals the output directory": the last
    part is about a second removal, of the base directory as a distinct
    ancestor; where the two are one directory it goes under the first
    part and nothing else is removed. *)
Definition removal_as_worded (s : State) : Prop :=
  let out := output_dir (self s) in
  let base := base_output_dir (self s) in
  let w1 := after_file_removal s in
  let w' := world (cleanup s).2 in
  (out ∈ dirs w1 -> (out ∉ dirs w' <-> has_entry w1 out = false))
  /\ (forall d, d ∈ dirs w1 -> d ∉ dirs w' -> has_entry w' d = false)
  /\ (base <> out -> base ∈ dirs w1 -> base ∉ dirs w' ->
      use_timestamp (self s) = true /\ has_entry w' base = false)
  /\ (use_timestamp (self s) = false ->
      forall d, d ∈ dirs w1 -> d ∉ dirs w' -> d = out).

End Wording.

Import Wording.

(** ** Sample states *)

Module Sample.
Import PyStr Fs Gen Effect.

(** A generator in timestamp mode over an empty disk. *)
Definition stamped : State :=
  fresh ["out"] true "20250703_115949" empty_world.

(** A generator without timestamp over an empty disk. *)
Definition plain : State := fresh ["out"] false "" empty_world.

(** The outcome of a batch of three with the package file on [stamped]. *)
Definition stamped_batch : Outcome (list Path) * State :=
  generate_multiple_files None (Some 3%Z) true "langtrace_sampler" stamped.

(** The paths that batch records. *)
Definition stamped_paths : list Path :=
  [["out"; "langtrace_20250703_115949"; "__init__.py"];
   ["out"; "langtrace_20250703_115949"; "langtrace_sampler_1.py"];
   ["out"; "langtrace_20250703_115949"; "langtrace_sampler_2.py"];
   ["out"; "langtrace_20250703_115949"; "langtrace_sampler_3.py"]].

(** A second batch, of one named file, on the object the first left. *)
Definition extended_batch : Outcome (list Path) * State :=
  generate_multiple_files (Some ["extra"]) None false "langtrace_sampler"
    stamped_batch.2.

(** The paths the second batch returns. *)
Definition extended_paths : list Path :=
  stamped_paths ++ [["out"; "langtrace_20250703_115949"; "extra.py"]].

(** The outcome of a batch with a count of zero on [stamped]. *)
Definition stamped_zero : Outcome (list Path) * State :=
  generate_multiple_files None (Some 0%Z) true "langtrace_sampler" stamped.

(** The state that batch leaves, on a system that then refuses to unlink
    the second data file. *)
Definition stubborn : State :=
  set_world stamped_batch.2
    {| files := files (world stamped_batch.2);
       dirs := dirs (world stamped_batch.2);
       refuses := fun op p =>
         match op with
         | OpUnlink =>
             bool_decide
               (p = ["out"; "langtrace_20250703_115949";
                     "langtrace_sampler_2.py"])
         | _ => false
         end;
       log := [] |}.

(** A generator without timestamp whose directory is there and empty. *)
Definition plain_ready : State :=
  fresh ["out"] false ""
    {| files := ∅; dirs := {[ ["out"] ]};
       refuses := fun _ _ => false; log := [] |}.

(** The same, on a system that refuses to remove the directory. *)
Definition locked : State :=
  fresh ["out"] false ""
    {| files := ∅; dirs := {[ ["out"] ]};
       refuses := fun op p =>
         match op with
         | OpRmdir => bool_decide (p = ["out"])
         | _ => false
         end;
       log := [] |}.

(** The same, on a system that refuses to list the directory. *)
Definition unlistable : State :=
  fresh ["out"] false ""
    {| files := ∅; dirs := {[ ["out"] ]};
       refuses := fun op p =>
         match op with
         | OpIterdir => bool_decide (p = ["out"])
         | _ => false
         end;
       log := [] |}.

End Sample.

(** ** Relations between the state before and after a call *)

Module Invariant.
Import PyStr Fs Gen Effect.

(** A computation whose final state is always related to its initial one. *)
Definition respects (R : State -> State -> Prop) {A : Type} (m : M A) : Prop :=
  forall s, R s (m s).2.

(** The three settings of the object are the same. *)
Definition same_object (s s' : State) : Prop :=
  base_output_dir (self s') = base_output_dir (self s)
  /\ use_timestamp (self s') = use_timestamp (self s)
  /\ output_dir (self s') = output_dir (self s).

(** Nothing went away: every directory is still one, every file is still
    there (with whatever content), and the system refuses what it did. *)
Definition nothing_lost (s s' : State) : Prop :=
  dirs (world s) ⊆ dirs (world s')
  /\ dom (files (world s)) ⊆ dom (files (world s'))
  /\ refuses (world s') = refuses (world s).

(** A computation that raises nothing but [OSError]. *)
Definition os_errors_only {A : Type} (m : M A) : Prop :=
  forall s e, (m s).1 = Raise e -> exists op q, e = OSError op q.

(** The same, for a call into the file system. *)
Definition os_errors_only_sys {A : Type} (op : World -> Outcome A * World)
    : Prop :=
  forall w e, (op w).1 = Raise e -> exists o q, e = OSError o q.

(** The order of Python on strings: by code point, left to right. *)
Definition str_lt (s t : string) : Prop := String.compare s t = Lt.

End Invariant.

Import Invariant.

(** ** The command line: [main] *)

Module Cli.
Import PyStr Fs Gen.

(** What [parser.parse_args()] returns. *)
Record Args := {
  arg_count : option Z;
  arg_filenames : option (list string);
  arg_output_dir : Path;
  arg_base_name : string;
  arg_no_init : bool;
  arg_no_timestamp : bool
}.

(** Truth of an optional integer: [None] and [0] are false. *)
Definition truthy_int (o : option Z) : bool :=
  match o with
  | Some c => negb (c =? 0)%Z
  | None => false
  end.

(** Truth of an optional list: [None] and the empty list are false. *)
Definition truthy_list {A : Type} (o : option (list A)) : bool :=
  match o with
  | Some (_ :: _) => true
  | _ => false
  end.

(** The log messages of [main]. *)
Inductive MainMsg :=
| NoCountOrFilenames
| StartingFileGeneration
| SuccessfullyGenerated (n : nat)
| ListedFile (p : Path)
| AllFilesCreatedIn (p : Path)
| FileGenerationFailed (e : Exn).

(** A line of the log of a run: from the class or from [main]. *)
Inductive LogLine :=
| ClassLine (r : Level * Msg)
| MainLine (lvl : Level) (m : MainMsg).

(** [args.count] after the default is applied. *)
Definition effective_count (args : Args) : option Z :=
  if negb (truthy_int (arg_count args))
     && negb (truthy_list (arg_filenames args))
  then Some 5%Z
  else arg_count args.

(** [main], after the arguments are parsed: the outcome, the generator and
    the world it leaves, and the log lines of the run in order.
    [timestamp] is the clock reading of the constructor. *)
Definition main (args : Args) (timestamp : string) (w : World)
    : Outcome unit * State * list LogLine :=
  let defaulted :=
    negb (truthy_int (arg_count args))
    && negb (truthy_list (arg_filenames args)) in
  let before :=
    (if defaulted then [MainLine INFO NoCountOrFilenames] else [])
    ++ [MainLine INFO StartingFileGeneration] in
  let count := effective_count args in
  let generator :=
    LangtraceFileGenerator (arg_output_dir args)
      (negb (arg_no_timestamp args)) timestamp in
  let s0 := {| self := generator; world := w |} in
  let run :=
    if truthy_int count
    then generate_multiple_files None count (negb (arg_no_init args))
           (arg_base_name args) s0
    else generate_multiple_files (arg_filenames args) None
           (negb (arg_no_init args)) "langtrace_sampler" s0 in
  let during :=
    map ClassLine (drop (length (log w)) (log (world run.2))) in
  match run.1 with
  | Return created =>
      (Return tt, run.2,
       before ++ during
       ++ [MainLine INFO (SuccessfullyGenerated (length created))]
       ++ map (fun file_path => MainLine INFO (ListedFile file_path)) created
       ++ [MainLine INFO (AllFilesCreatedIn (output_dir generator))])
  | Raise e =>
      (Raise e, run.2,
       before ++ during ++ [MainLine ERROR (FileGenerationFailed e)])
  end.

End Cli.

Import Cli.

(** ** The generated class: [LangtraceSampler] *)

Module Sampler.

(** [opentelemetry.sdk.trace.sampling.Decision]. *)
Inductive Decision := DROP | RECORD_ONLY | RECORD_AND_SAMPLE.

(** The two fields of a span context the sampler reads. *)
Record SpanContext := { span_id : Z; trace_flags : Z }.

(** [TraceFlags.SAMPLED]. *)
Definition SAMPLED : Z := 1.

(** The one field of an instance: the set of disabled method names. *)
Record LangtraceSampler := { _disabled_methods_names : gset string }.

(** [__init__]: [disabled_methods] is [None] or a dict from components to
    lists of method names, given by its items in order. *)
Definition new (disabled_methods : option (list (string * list string)))
    : LangtraceSampler :=
  let names : gset string := ∅ in
  let names :=
    match disabled_methods with
    | Some (item :: items) =>
        foldl (fun acc kv =>
                 foldl (fun acc' method => acc' ∪ {[method]}) acc kv.2)
              names (item :: items)
    | _ => names
    end in
  {| _disabled_methods_names := names |}.

(** [should_sample]: [parent_context] is the truth of the argument, and
    [parent_span_context] what
    [trace.get_current_span(parent_context).get_span_context()] returned. *)
Definition should_sample (self : LangtraceSampler) (parent_context : bool)
    (parent_span_context : SpanContext) (name : string) : Decision :=
  if bool_decide (_disabled_methods_names self = ∅) then RECORD_AND_SAMPLE
  else if parent_context
          && negb (span_id parent_span_context =? 0)%Z
          && negb (trace_flags parent_span_context =? SAMPLED)%Z
  then DROP
  else if bool_decide (name ∈ _disabled_methods_names self) then DROP
  else RECORD_AND_SAMPLE.

(** [get_description]. *)
Definition get_description (self : LangtraceSampler) : string :=
  "Langtrace Sampler".

End Sampler.

(** ** More sample states *)

Module Scenario.
Import PyStr Fs Gen Effect.



(** The state after the directory of [Sample.stamped] is made. *)
Definition stamped_ready : State := (create_output_directory Sample.stamped).2.


End Scenario.

(** ** Tactics *)

(** A record of a log that grew by appending is an old record or one of
    the appended ones, which are about directories. *)
Ltac log_cases :=
  cbn; intros x Hx;
  repeat (apply elem_of_app in Hx as [Hx|Hx]);
  try (now left);
  apply list_elem_of_singleton in Hx as ->; right; exact I.

(** * Properties *)

(** ** The string built-ins *)

Example str_ten : str 10 = "10".
Proof. reflexivity. Qed.

Example str_negative : str (-42) = "-42".
Proof. reflexivity. Qed.

Example str_zero : str 0 = "0".
Proof. reflexivity. Qed.

Example zfill_pads : zfill 3 (str 7) = "007".
Proof. reflexivity. Qed.

Example zfill_keeps_sign : zfill 5 "-42" = "-0042".
Proof. reflexivity. Qed.

Example zfill_long : zfill 2 "1234" = "1234".
Proof. reflexivity. Qed.

Example endswith_py : endswith "sampler.py" ".py" = true.
Proof. reflexivity. Qed.

Example endswith_short : endswith "py" ".py" = false.
Proof. reflexivity. Qed.

Lemma app_String (c : ascii) (s t : string) :
  String c s +:+ t = String c (s +:+ t).
Proof. reflexivity. Qed.

Lemma app_empty_l (s : string) : "" +:+ s = s.
Proof. reflexivity. Qed.

Lemma app_empty_r (s : string) : s +:+ "" = s.
Proof. induction s as [|c s IH]; [reflexivity|]. now rewrite app_String, IH. Qed.

Lemma app_assoc_str (s t u : string) : (s +:+ t) +:+ u = s +:+ (t +:+ u).
Proof.
  induction s as [|c s IH]; [reflexivity|].
  now rewrite !app_String, IH.
Qed.

Lemma len_app (s t : string) : len (s +:+ t) = len s + len t.
Proof.
  unfold len. induction s as [|c s IH]; [reflexivity|].
  rewrite app_String. simpl. now rewrite IH.
Qed.

Lemma app_inj_r (t s s' : string) : s +:+ t = s' +:+ t -> s = s'.
Proof.
  revert s'. induction s as [|c s IH]; intros [|c' s'] H.
  - reflexivity.
  - apply (f_equal len) in H. rewrite app_empty_l, app_String in H.
    unfold len in H. simpl in H. fold (len (s' +:+ t)) in H.
    rewrite len_app in H. unfold len in H. lia.
  - apply (f_equal len) in H. rewrite app_empty_l, app_String in H.
    unfold len in H. simpl in H. fold (len (s +:+ t)) in H.
    rewrite len_app in H. unfold len in H. lia.
  - rewrite !app_String in H. injection H as -> H. f_equal. now apply IH.
Qed.

Lemma len_zeros (k : nat) : len (zeros k) = k.
Proof. unfold len. induction k as [|k IH]; simpl; congruence. Qed.

(** *** [last_char] and [endswith] *)

Lemma last_char_app (s : string) (c : ascii) (t : string) :
  last_char (s +:+ String c t) = last_char (String c t).
Proof.
  induction s as [|a s IH]; [reflexivity|].
  rewrite app_String.
  change (last_char (String a (s +:+ String c t)))
    with (match s +:+ String c t with
          | EmptyString => Some a
          | String _ _ => last_char (s +:+ String c t)
          end).
  destruct (s +:+ String c t) eqn:E; [|exact IH].
  destruct s; discriminate.
Qed.

Lemma substring_all (s : string) : substring 0 (String.length s) s = s.
Proof. induction s as [|c s IH]; simpl; congruence. Qed.

Lemma substring_skip (s t : string) (m : nat) :
  substring (String.length s) m (s +:+ t) = substring 0 m t.
Proof.
  induction s as [|c s IH]; [reflexivity|].
  rewrite app_String. simpl. exact IH.
Qed.

Lemma substring_split (s : string) (k : nat) :
  k <= String.length s ->
  s = substring 0 k s +:+ substring k (String.length s - k) s.
Proof.
  revert k. induction s as [|c s IH]; intros k Hk.
  - destruct k; reflexivity.
  - destruct k as [|k].
    + change (substring 0 0 (String c s)) with "".
      rewrite app_empty_l, Nat.sub_0_r. now rewrite substring_all.
    + simpl in Hk. simpl. rewrite app_String. f_equal. apply IH. lia.
Qed.

Lemma endswith_app (s suffix : string) : endswith (s +:+ suffix) suffix = true.
Proof.
  unfold endswith. rewrite len_app.
  apply andb_true_iff. split.
  - apply Nat.leb_le. lia.
  - replace (len s + len suffix - len suffix) with (String.length s)
      by (unfold len; lia).
    rewrite substring_skip. unfold len. rewrite substring_all.
    apply String.eqb_refl.
Qed.

Lemma endswith_inv (s suffix : string) :
  endswith s suffix = true -> exists p, s = p +:+ suffix.
Proof.
  unfold endswith, len. intros [Hle Heq]%andb_true_iff.
  apply Nat.leb_le in Hle. apply String.eqb_eq in Heq.
  exists (substring 0 (String.length s - String.length suffix) s).
  pose proof (substring_split s (String.length s - String.length suffix)) as H.
  replace (String.length s - (String.length s - String.length suffix))
    with (String.length suffix) in H by lia.
  rewrite Heq in H. apply H. lia.
Qed.

Lemma endswith_last_char (s : string) (c : ascii) (t : string) :
  endswith s (String c t) = true -> last_char s = last_char (String c t).
Proof. intros [p ->]%endswith_inv. apply last_char_app. Qed.

(** *** [str] on integers *)

Lemma nonneg_div10_ind (P : Z -> Prop) :
  (forall n, (0 <= n < 10)%Z -> P n) ->
  (forall n, (10 <= n)%Z -> P (n / 10)%Z -> P n) ->
  forall n, (0 <= n)%Z -> P n.
Proof.
  intros Hsmall Hbig n Hn.
  assert (Hk : forall k n, (0 <= n)%Z -> Z.to_nat n < k -> P n).
  { clear n Hn. induction k as [|k IH]; intros n Hn Hlt; [lia|].
    destruct (Z_lt_le_dec n 10) as [Hs|Hb]; [apply Hsmall; lia|].
    apply Hbig; [exact Hb|]. apply IH.
    - apply Z.div_pos; lia.
    - assert (n / 10 < n)%Z by (apply Z.div_lt; lia). lia. }
  apply (Hk (S (Z.to_nat n))); [exact Hn|lia].
Qed.

Lemma str_digits_acc (fuel : nat) (n : Z) (acc : string) :
  str_digits fuel n acc = str_digits fuel n "" +:+ acc.
Proof.
  revert n acc. induction fuel as [|fuel IH]; intros n acc; [reflexivity|].
  cbn [str_digits]. destruct (n <? 10)%Z; [reflexivity|].
  rewrite IH, (IH _ (String _ "")), app_assoc_str. reflexivity.
Qed.

Lemma str_digits_fuel (f1 f2 : nat) (n : Z) (acc : string) :
  (0 <= n)%Z -> Z.to_nat n < f1 -> Z.to_nat n < f2 ->
  str_digits f1 n acc = str_digits f2 n acc.
Proof.
  revert f2 n acc. induction f1 as [|f1 IH]; intros f2 n acc Hn H1 H2; [lia|].
  destruct f2 as [|f2]; [lia|]. cbn [str_digits].
  destruct (n <? 10)%Z eqn:E; [reflexivity|].
  apply Z.ltb_ge in E.
  assert (n / 10 < n)%Z by (apply Z.div_lt; lia).
  assert (0 <= n / 10)%Z by (apply Z.div_pos; lia).
  apply IH; lia.
Qed.

Lemma str_nonneg_eq (n : Z) :
  (0 <= n)%Z ->
  str_nonneg n =
    if (n <? 10)%Z then String (digit_char n) ""
    else str_nonneg (n / 10) +:+ String (digit_char (n mod 10)) "".
Proof.
  intros Hn. unfold str_nonneg at 1. cbn [str_digits].
  destruct (n <? 10)%Z eqn:E.
  - apply Z.ltb_lt in E. now rewrite Z.mod_small by lia.
  - apply Z.ltb_ge in E. rewrite str_digits_acc. f_equal.
    assert (n / 10 < n)%Z by (apply Z.div_lt; lia).
    assert (0 <= n / 10)%Z by (apply Z.div_pos; lia).
    unfold str_nonneg. apply str_digits_fuel; lia.
Qed.

Lemma str_nonneg_pos (n : Z) : (0 <= n)%Z -> str n = str_nonneg n.
Proof.
  intros Hn. unfold str. destruct (n <? 0)%Z eqn:E; [|reflexivity].
  apply Z.ltb_lt in E. lia.
Qed.

Lemma nat_of_digit_char (d : Z) :
  (0 <= d < 10)%Z -> nat_of_ascii (digit_char d) = 48 + Z.to_nat d.
Proof. intros Hd. unfold digit_char. apply nat_ascii_embedding. lia. Qed.

Lemma is_digit_digit_char (d : Z) :
  (0 <= d < 10)%Z -> is_digit (digit_char d) = true.
Proof.
  intros Hd. unfold is_digit. rewrite nat_of_digit_char by exact Hd.
  apply andb_true_iff. split; apply Nat.leb_le; lia.
Qed.

Lemma is_digit_not_sign (c : ascii) : is_digit c = true -> is_sign c = false.
Proof.
  intros Hc. unfold is_sign.
  destruct (Ascii.eqb_spec c "+") as [->|_]; [discriminate Hc|].
  destruct (Ascii.eqb_spec c "-") as [->|_]; [discriminate Hc|].
  reflexivity.
Qed.

Lemma value_from_app (a : Z) (s t : string) :
  value_from a (s +:+ t) = value_from (value_from a s) t.
Proof.
  revert a. induction s as [|c s IH]; intros a; [reflexivity|].
  rewrite app_String. cbn [value_from]. apply IH.
Qed.

Lemma value_from_digit (a d : Z) :
  (0 <= d < 10)%Z -> value_from a (String (digit_char d) "") = (10 * a + d)%Z.
Proof.
  intros Hd. cbn [value_from]. rewrite nat_of_digit_char by exact Hd. lia.
Qed.

(** Reading back what [str] printed gives the number. *)
Lemma value_str_nonneg (n : Z) : (0 <= n)%Z -> value (str_nonneg n) = n.
Proof.
  revert n. apply nonneg_div10_ind; intros n Hn.
  - rewrite str_nonneg_eq by lia.
    destruct (n <? 10)%Z eqn:E; [|apply Z.ltb_ge in E; lia].
    unfold value. rewrite value_from_digit by lia. lia.
  - intros IH. rewrite str_nonneg_eq by lia.
    destruct (n <? 10)%Z eqn:E; [apply Z.ltb_lt in E; lia|].
    unfold value in *. rewrite value_from_app, IH.
    rewrite value_from_digit by (apply Z.mod_pos_bound; lia).
    pose proof (Z.div_mod n 10). lia.
Qed.

Lemma value_from_zeros (k : nat) : value_from 0 (zeros k) = 0%Z.
Proof. induction k as [|k IH]; [reflexivity|]. cbn. exact IH. Qed.

Lemma all_digits_app (s t : string) :
  all_digits (s +:+ t) = all_digits s && all_digits t.
Proof.
  induction s as [|c s IH]; [reflexivity|].
  rewrite app_String. cbn [all_digits]. now rewrite IH, andb_assoc.
Qed.

Lemma all_digits_str_nonneg (n : Z) :
  (0 <= n)%Z -> all_digits (str_nonneg n) = true.
Proof.
  revert n. apply nonneg_div10_ind; intros n Hn.
  - rewrite str_nonneg_eq by lia.
    destruct (n <? 10)%Z eqn:E; [|apply Z.ltb_ge in E; lia].
    cbn [all_digits]. now rewrite is_digit_digit_char by lia.
  - intros IH. rewrite str_nonneg_eq by lia.
    destruct (n <? 10)%Z eqn:E; [apply Z.ltb_lt in E; lia|].
    rewrite all_digits_app, IH. cbn [all_digits].
    now rewrite is_digit_digit_char by (apply Z.mod_pos_bound; lia).
Qed.

Lemma len_str_nonneg_pos (n : Z) : (0 <= n)%Z -> 1 <= len (str_nonneg n).
Proof.
  intros Hn. rewrite str_nonneg_eq by exact Hn.
  destruct (n <? 10)%Z; [unfold len; simpl; lia|].
  rewrite len_app. unfold len at 2. simpl. lia.
Qed.

(** A smaller number does not print longer. *)
Lemma len_str_nonneg_mono (i n : Z) :
  (0 <= i <= n)%Z -> len (str_nonneg i) <= len (str_nonneg n).
Proof.
  intros [Hi Hin]. assert (Hn : (0 <= n)%Z) by lia.
  revert n Hn i Hi Hin. apply (nonneg_div10_ind
    (fun n => forall i, (0 <= i)%Z -> (i <= n)%Z ->
                        len (str_nonneg i) <= len (str_nonneg n))).
  - intros n Hn i Hi Hin.
    rewrite (str_nonneg_eq n), (str_nonneg_eq i) by lia.
    destruct (n <? 10)%Z eqn:E; [|apply Z.ltb_ge in E; lia].
    destruct (i <? 10)%Z eqn:E'; [|apply Z.ltb_ge in E'; lia].
    unfold len. simpl. lia.
  - intros n Hn IH i Hi Hin. rewrite (str_nonneg_eq n) by lia.
    destruct (n <? 10)%Z eqn:E; [apply Z.ltb_lt in E; lia|].
    rewrite len_app. rewrite (str_nonneg_eq i) by lia.
    destruct (i <? 10)%Z eqn:E'.
    + unfold len at 1 3. simpl. lia.
    + apply Z.ltb_ge in E'. rewrite len_app.
      specialize (IH (i / 10)%Z).
      assert (0 <= i / 10)%Z by (apply Z.div_pos; lia).
      assert (i / 10 <= n / 10)%Z by (apply Z.div_le_mono; lia).
      unfold len at 2 4. simpl. specialize (IH ltac:(lia) ltac:(lia)). lia.
Qed.

Lemma last_char_str_nonneg (n : Z) :
  (0 <= n)%Z -> last_char (str_nonneg n) = Some (digit_char (n mod 10)).
Proof.
  intros Hn. rewrite str_nonneg_eq by exact Hn.
  destruct (n <? 10)%Z eqn:E.
  - apply Z.ltb_lt in E. now rewrite Z.mod_small by lia.
  - now rewrite last_char_app.
Qed.

(** *** [zfill] on what [str] prints *)

Lemma zfill_no_sign (width : nat) (s : string) :
  match s with String c _ => is_sign c = false | EmptyString => True end ->
  zfill width s = zeros (width - len s) +:+ s.
Proof.
  intros Hs. unfold zfill. destruct (width <=? len s)%nat eqn:E.
  - apply Nat.leb_le in E. replace (width - len s) with 0 by lia.
    reflexivity.
  - destruct s as [|c rest]; [now rewrite app_empty_r|]. now rewrite Hs.
Qed.

Lemma zfill_str (width : nat) (i : Z) :
  (0 <= i)%Z -> zfill width (str i) = zeros (width - len (str i)) +:+ str i.
Proof.
  intros Hi. apply zfill_no_sign. rewrite str_nonneg_pos by exact Hi.
  pose proof (all_digits_str_nonneg i Hi) as Hd.
  destruct (str_nonneg i) as [|c rest]; [exact I|].
  cbn [all_digits] in Hd. apply andb_true_iff in Hd as [Hc _].
  now apply is_digit_not_sign.
Qed.

Lemma value_zfill_str (width : nat) (i : Z) :
  (0 <= i)%Z -> value (zfill width (str i)) = i.
Proof.
  intros Hi. rewrite zfill_str by exact Hi. unfold value.
  rewrite value_from_app, value_from_zeros, str_nonneg_pos by exact Hi.
  now apply value_str_nonneg.
Qed.

Lemma len_zfill_str (i n : Z) :
  (0 <= i <= n)%Z -> len (zfill (len (str n)) (str i)) = len (str n).
Proof.
  intros Hin. rewrite zfill_str by lia. rewrite len_app, len_zeros.
  rewrite !str_nonneg_pos by lia.
  pose proof (len_str_nonneg_mono i n Hin). lia.
Qed.

Lemma last_char_zfill_str (width : nat) (i : Z) :
  (0 <= i)%Z ->
  last_char (zfill width (str i)) = Some (digit_char (i mod 10)).
Proof.
  intros Hi. rewrite zfill_str by exact Hi.
  rewrite str_nonneg_pos by exact Hi.
  pose proof (len_str_nonneg_pos i Hi) as Hl.
  pose proof (last_char_str_nonneg i Hi) as Hc.
  destruct (str_nonneg i) as [|c rest]; [unfold len in Hl; simpl in Hl; lia|].
  now rewrite last_char_app.
Qed.

Lemma all_digits_zeros (k : nat) : all_digits (zeros k) = true.
Proof. induction k as [|k IH]; [reflexivity|]. cbn. exact IH. Qed.

Lemma all_digits_zfill_str (width : nat) (i : Z) :
  (0 <= i)%Z -> all_digits (zfill width (str i)) = true.
Proof.
  intros Hi. rewrite zfill_str by exact Hi.
  rewrite all_digits_app, all_digits_zeros, str_nonneg_pos by exact Hi.
  now apply all_digits_str_nonneg.
Qed.

(** ** Joining a name to a path *)

Example path_join_plain_name :
  path_join ["out"] "sampler.py" = ["out"; "sampler.py"].
Proof. reflexivity. Qed.

Example path_join_dot : path_join ["out"] "./__init__.py" = ["out"; "__init__.py"].
Proof. reflexivity. Qed.

Example path_join_nested :
  path_join ["out"] "sub//x/./y.py" = ["out"; "sub"; "x"; "y.py"].
Proof. reflexivity. Qed.

Example path_join_up : path_join ["out"] "../x.py" = ["out"; ".."; "x.py"].
Proof. reflexivity. Qed.

Example path_join_absolute : path_join ["out"] "/tmp/x.py" = ["/"; "tmp"; "x.py"].
Proof. reflexivity. Qed.

Example path_join_two_slashes : path_join ["out"] "//tmp/x.py" = ["//"; "tmp"; "x.py"].
Proof. reflexivity. Qed.

Example path_join_three_slashes :
  path_join ["out"] "///tmp/x.py" = ["/"; "tmp"; "x.py"].
Proof. reflexivity. Qed.

Example path_join_empty : path_join ["out"] "" = ["out"].
Proof. reflexivity. Qed.

Lemma all_chars_app (ok : ascii -> bool) (s t : string) :
  all_chars ok (s +:+ t) = all_chars ok s && all_chars ok t.
Proof.
  induction s as [|c s IH]; [reflexivity|].
  rewrite app_String. cbn [all_chars]. now rewrite IH, andb_assoc.
Qed.

Lemma no_sep_app (s t : string) : no_sep (s +:+ t) = no_sep s && no_sep t.
Proof. apply all_chars_app. Qed.


Lemma all_digits_no_sep (s : string) : all_digits s = true -> no_sep s = true.
Proof.
  induction s as [|c s IH]; [reflexivity|].
  cbn [all_digits]. intros [Hc Hs]%andb_true_iff.
  unfold no_sep. cbn [all_chars]. fold (no_sep s). rewrite (IH Hs), andb_true_r.
  unfold is_sep. destruct (Ascii.eqb_spec c "/") as [->|_]; [discriminate Hc|].
  reflexivity.
Qed.

Lemma split_sep_not_nil (s : string) : split_sep s <> [].
Proof.
  induction s as [|c s IH]; cbn [split_sep]; [done|].
  destruct (is_sep c); [done|]. now destruct (split_sep s).
Qed.

Lemma split_sep_no_sep (s : string) : no_sep s = true -> split_sep s = [s].
Proof.
  induction s as [|c s IH]; [reflexivity|].
  unfold no_sep. cbn [all_chars split_sep]. fold (no_sep s).
  intros [Hc Hs]%andb_true_iff. apply negb_true_iff in Hc.
  now rewrite Hc, (IH Hs).
Qed.

(** Text without separator behind a name goes to its last segment. *)
Lemma split_sep_app (s t : string) :
  no_sep t = true ->
  split_sep (s +:+ t)
  = removelast (split_sep s) ++ [last_segment s +:+ t].
Proof.
  intros Ht. unfold last_segment. induction s as [|c s IH].
  - rewrite app_empty_l. now apply split_sep_no_sep.
  - rewrite app_String. cbn [split_sep]. rewrite IH.
    pose proof (split_sep_not_nil s) as Hne.
    destruct (is_sep c).
    + destruct (split_sep s) as [|a l]; [done|]. reflexivity.
    + destruct (split_sep s) as [|a [|b l]]; [done|reflexivity|].
      reflexivity.
Qed.

Lemma leading_seps_no_sep (t : string) : no_sep t = true -> leading_seps t = 0.
Proof.
  destruct t as [|c t]; [reflexivity|].
  unfold no_sep. cbn [all_chars leading_seps].
  intros [Hc _]%andb_true_iff. apply negb_true_iff in Hc. now rewrite Hc.
Qed.

Lemma leading_seps_app (s t : string) :
  no_sep t = true -> leading_seps (s +:+ t) = leading_seps s.
Proof.
  intros Ht. induction s as [|c s IH].
  - rewrite app_empty_l. now apply leading_seps_no_sep.
  - rewrite app_String. cbn [leading_seps]. now rewrite IH.
Qed.

Lemma root_of_app (s t : string) :
  no_sep t = true -> root_of (s +:+ t) = root_of s.
Proof. intros Ht. unfold root_of. now rewrite leading_seps_app. Qed.

Lemma kept_long (s : string) : 2 <= len s -> kept s = true.
Proof.
  destruct s as [|a [|b s]]; unfold len; cbn [String.length]; [lia..|].
  intros _. unfold kept. cbn. now destruct (Ascii.eqb a ".").
Qed.

(** Joining a name that ends in text without separator: the text stays
    in the last component, the rest of the name gives the directory. *)
Lemma path_join_app (d : Path) (s t : string) :
  no_sep t = true -> kept (last_segment s +:+ t) = true ->
  path_join d (s +:+ t) = dir_part d s ++ [last_segment s +:+ t].
Proof.
  intros Ht Hk. unfold path_join, dir_part, components.
  rewrite root_of_app, split_sep_app by exact Ht.
  rewrite List.filter_app. cbn [List.filter]. rewrite Hk.
  destruct (root_of s); [reflexivity|]. now rewrite app_assoc.
Qed.

(** A name without separator is one component. *)
Lemma path_join_no_sep (d : Path) (name : string) :
  no_sep name = true -> kept name = true -> path_join d name = d ++ [name].
Proof.
  intros Hn Hk. unfold path_join, components, root_of.
  rewrite leading_seps_no_sep, split_sep_no_sep by exact Hn.
  cbn [List.filter]. now rewrite Hk.
Qed.

(** ** File names *)

Lemma with_py_eq (f : string) :
  with_py f = if endswith f ".py" then f else f +:+ ".py".
Proof. unfold with_py. now destruct (endswith f ".py"). Qed.

Lemma with_py_endswith (f : string) : endswith (with_py f) ".py" = true.
Proof.
  rewrite with_py_eq. destruct (endswith f ".py") eqn:E; [exact E|].
  apply endswith_app.
Qed.

Lemma with_py_idem (f : string) : with_py (with_py f) = with_py f.
Proof. now rewrite (with_py_eq (with_py f)), with_py_endswith. Qed.

Lemma with_py_init_iff (base : string) :
  with_py base = "__init__.py" <-> base = "__init__" \/ base = "__init__.py".
Proof.
  split.
  - rewrite with_py_eq. destruct (endswith base ".py"); [now right|].
    intros H. left. apply (app_inj_r ".py"). exact H.
  - now intros [-> | ->].
Qed.

Lemma digit_char_not (c : ascii) (d : Z) :
  (0 <= d < 10)%Z -> is_digit c = false -> digit_char d <> c.
Proof.
  intros Hd Hc <-. now rewrite is_digit_digit_char in Hc.
Qed.

Lemma last_char_auto_filename (count : Z) (base : string) (i : Z) :
  count <> 1%Z -> (0 <= i)%Z ->
  last_char (auto_filename count base i) = Some (digit_char (i mod 10)).
Proof.
  intros Hc Hi. unfold auto_filename.
  destruct (count =? 1)%Z eqn:E; [apply Z.eqb_eq in E; contradiction|].
  pose proof (last_char_zfill_str (len (str count)) i Hi) as Hl.
  destruct (zfill (len (str count)) (str i)) as [|c r]; [discriminate|].
  change ("_" +:+ String c r) with (String "_" (String c r)).
  rewrite last_char_app. exact Hl.
Qed.

Lemma with_py_auto_filename (count : Z) (base : string) (i : Z) :
  count <> 1%Z -> (0 <= i)%Z ->
  with_py (auto_filename count base i) = auto_filename count base i +:+ ".py".
Proof.
  intros Hc Hi. rewrite with_py_eq.
  destruct (endswith (auto_filename count base i) ".py") eqn:E; [|reflexivity].
  apply endswith_last_char in E.
  rewrite last_char_auto_filename in E by assumption.
  injection E as E. exfalso. revert E.
  apply digit_char_not; [apply Z.mod_pos_bound; lia|reflexivity].
Qed.

Lemma auto_filename_inj (count : Z) (base : string) (i j : Z) :
  count <> 1%Z -> (0 <= i)%Z -> (0 <= j)%Z ->
  auto_filename count base i = auto_filename count base j -> i = j.
Proof.
  intros Hc Hi Hj. unfold auto_filename.
  destruct (count =? 1)%Z eqn:E; [apply Z.eqb_eq in E; contradiction|].
  intros H. apply (inj (String.append base)) in H.
  apply (inj (String.append "_")) in H.
  apply (f_equal value) in H. now rewrite !value_zfill_str in H.
Qed.

(** Within one batch the extended names are pairwise distinct. *)
Lemma with_py_auto_filename_inj (count : Z) (base : string) (i j : Z) :
  (1 <= i <= count)%Z -> (1 <= j <= count)%Z ->
  with_py (auto_filename count base i) = with_py (auto_filename count base j) ->
  i = j.
Proof.
  intros Hi Hj H. destruct (Z.eq_dec count 1%Z) as [->|Hc]; [lia|].
  rewrite !with_py_auto_filename in H by lia.
  apply app_inj_r in H.
  apply (auto_filename_inj count base); [assumption|lia|lia|exact H].
Qed.

Lemma with_py_auto_filename_not_init (count : Z) (base : string) (i : Z) :
  count <> 1%Z -> (0 <= i)%Z ->
  with_py (auto_filename count base i) <> "__init__.py".
Proof.
  intros Hc Hi H. rewrite with_py_auto_filename in H by assumption.
  apply (app_inj_r ".py" _ "__init__") in H.
  apply (f_equal last_char) in H.
  rewrite last_char_auto_filename in H by assumption.
  injection H as H. revert H.
  apply digit_char_not; [apply Z.mod_pos_bound; lia|reflexivity].
Qed.

(** *** [range] *)

Lemma length_range (lo hi : Z) : length (range lo hi) = Z.to_nat (hi - lo).
Proof. unfold range. now rewrite length_map, length_seq. Qed.

Lemma elem_of_range (lo hi i : Z) : i ∈ range lo hi <-> (lo <= i < hi)%Z.
Proof.
  unfold range. rewrite list_elem_of_In, in_map_iff. split.
  - intros (k & <- & Hk%in_seq). lia.
  - intros Hi. exists (Z.to_nat (i - lo)). split; [lia|].
    apply in_seq. lia.
Qed.

Lemma NoDup_range (lo hi : Z) : NoDup (range lo hi).
Proof.
  unfold range. apply (NoDup_fmap_2_strong (fun k => (lo + Z.of_nat k)%Z)).
  - intros x y _ _ H. lia.
  - apply NoDup_ListNoDup, seq_NoDup.
Qed.

Lemma lookup_range (lo hi : Z) (k : nat) :
  k < Z.to_nat (hi - lo) -> range lo hi !! k = Some (lo + Z.of_nat k)%Z.
Proof.
  intros Hk. unfold range.
  change (map ?f ?l) with (f <$> l).
  rewrite list_lookup_fmap, lookup_seq_lt by exact Hk. reflexivity.
Qed.

(** ** The monad *)

Lemma bind_return {A B : Type} (m : M A) (f : A -> M B) (s s' : State) (a : A) :
  m s = (Return a, s') -> bind m f s = f a s'.
Proof. intros H. unfold bind. now rewrite H. Qed.

Lemma bind_inv_return {A B : Type} (m : M A) (f : A -> M B)
    (s s' : State) (b : B) :
  bind m f s = (Return b, s') ->
  exists a s1, m s = (Return a, s1) /\ f a s1 = (Return b, s').
Proof.
  unfold bind. destruct (m s) as [[a|e] s1]; [|discriminate].
  intros H. now exists a, s1.
Qed.

Lemma bind_inv_raise {A B : Type} (m : M A) (f : A -> M B)
    (s s' : State) (e : Exn) :
  bind m f s = (Raise e, s') ->
  m s = (Raise e, s')
  \/ exists a s1, m s = (Return a, s1) /\ f a s1 = (Raise e, s').
Proof.
  unfold bind. destruct (m s) as [[a|e0] s1]; intros H.
  - right. now exists a, s1.
  - left. injection H as -> ->. reflexivity.
Qed.

Lemma for_each_map {A B : Type} (f : A -> B) (l : list A) (body : B -> M unit)
    (s : State) :
  for_each (map f l) body s = for_each l (fun x => body (f x)) s.
Proof.
  revert s. induction l as [|x l IH]; intros s; [reflexivity|].
  cbn [for_each map]. unfold bind.
  destruct (body (f x) s) as [[[]|e] s1]; [apply IH|reflexivity].
Qed.

(** ** The output directory *)

(** With timestamps the output directory is a child of the base
    directory, named after the time of construction (a reading of the
    clock has no separator); without, it is the base directory. *)
Lemma output_dir_resolved (base : Path) (use_ts : bool) (stamp : string) :
  output_dir (LangtraceFileGenerator base use_ts stamp)
  = (if use_ts then path_join base ("langtrace_" +:+ stamp) else base)
  /\ (use_ts = true -> no_sep stamp = true ->
      output_dir (LangtraceFileGenerator base use_ts stamp)
      = base ++ ["langtrace_" +:+ stamp]
      /\ parent (output_dir (LangtraceFileGenerator base use_ts stamp)) = base
      /\ output_dir (LangtraceFileGenerator base use_ts stamp) <> base).
Proof.
  split; [reflexivity|]. intros -> Hs. cbn [output_dir LangtraceFileGenerator].
  rewrite path_join_no_sep by (now rewrite ?no_sep_app, ?Hs).
  split; [reflexivity|]. unfold parent. split.
  - apply removelast_last.
  - intros H. apply (f_equal length) in H. rewrite length_app in H.
    cbn in H. lia.
Qed.

(** ** Writing one file *)

Lemma open_write_eq (p : Path) (content : string) (w : World) :
  open_write p content w =
    if writable w p
    then (Return tt, with_files (fun f => <[p := content]> f) w)
    else if negb (is_dir w (parent p)) || is_dir w p || refuses w OpOpen p
    then (Raise (OSError OpOpen p), w)
    else (Raise (OSError OpWrite p), with_files (fun f => <[p := ""]> f) w).
Proof.
  unfold open_write, writable.
  destruct (is_dir w (parent p)), (is_dir w p), (refuses w OpOpen p);
    cbn; try reflexivity.
  destruct (refuses w OpWrite p); cbn; [reflexivity|].
  unfold with_files; cbn. now rewrite insert_insert_eq.
Qed.

(** [generate_file] in closed form: the outcome of the write decides
    between recording the path and logging the error. *)
Lemma generate_file_eq (filename : string) (add_init : bool) (s : State) :
  generate_file filename add_init s =
    let p := target (output_dir (self s)) filename in
    match open_write p (payload (with_py filename) add_init) (world s) with
    | (Return _, w') =>
        (Return p, recorded p (set_world s (emit INFO (GeneratedFile p) w')))
    | (Raise e, w') =>
        (Raise e, set_world s (emit ERROR (FailedCreateFile p e) w'))
    end.
Proof.
  unfold generate_file, target, try_except_OSError, bind, gets, sys,
    created_files_append, logger_info, logger_error, raise, ret,
    recorded, set_world.
  cbn. rewrite open_write_eq.
  destruct (writable (world s) _); [reflexivity|].
  destruct (negb _ || _ || _); reflexivity.
Qed.

Lemma generate_file_return (filename : string) (add_init : bool) (s : State) :
  let p := target (output_dir (self s)) filename in
  writable (world s) p = true ->
  generate_file filename add_init s =
    (Return p,
     recorded p (set_world s (emit INFO (GeneratedFile p)
       (with_files (fun f => <[p := payload (with_py filename) add_init]> f)
                   (world s))))).
Proof.
  intros p Hw. rewrite generate_file_eq. cbv zeta. fold p.
  rewrite open_write_eq, Hw. reflexivity.
Qed.

Lemma generate_file_raise (filename : string) (add_init : bool) (s : State) :
  let p := target (output_dir (self s)) filename in
  writable (world s) p = false ->
  exists op w',
    generate_file filename add_init s = (Raise (OSError op p), set_world s w')
    /\ dirs w' = dirs (world s) /\ refuses w' = refuses (world s).
Proof.
  intros p Hw. rewrite generate_file_eq. cbv zeta. fold p.
  rewrite open_write_eq, Hw.
  destruct (negb _ || _ || _); eexists _, _; (split; [reflexivity|]); done.
Qed.

(** A call returns exactly when the write goes through. *)
Lemma generate_file_return_iff (filename : string) (add_init : bool) (s : State) :
  (exists p s', generate_file filename add_init s = (Return p, s'))
  <-> writable (world s) (target (output_dir (self s)) filename) = true.
Proof.
  split.
  - intros (p & s' & H).
    destruct (writable (world s) (target (output_dir (self s)) filename)) eqn:E;
      [reflexivity|].
    destruct (generate_file_raise filename add_init s E) as (op & w' & H' & _).
    congruence.
  - intros Hw. eexists _, _. now apply generate_file_return.
Qed.

(** ** Creating the directory *)

Lemma mkdir_chain_frame (qs : list Path) (w : World) :
  files (mkdir_chain qs w).2 = files w
  /\ refuses (mkdir_chain qs w).2 = refuses w
  /\ log (mkdir_chain qs w).2 = log w
  /\ dirs w ⊆ dirs (mkdir_chain qs w).2.
Proof.
  revert w. induction qs as [|q qs IH]; intros w; [done|].
  cbn [mkdir_chain]. destruct (is_dir w q); [apply IH|].
  destruct (is_file w q || refuses w OpMkdir q); [done|].
  destruct (IH (with_dirs (fun d => {[q]} ∪ d) w)) as (Hf & Hr & Hl & Hd).
  rewrite Hf, Hr, Hl. repeat split; try done.
  etrans; [|exact Hd]. cbn. apply union_subseteq_r.
Qed.

Lemma is_dir_mono (w w' : World) (p : Path) :
  dirs w ⊆ dirs w' -> is_dir w p = true -> is_dir w' p = true.
Proof.
  unfold is_dir. intros Hd [H|H]%orb_true_iff; apply orb_true_iff.
  - now left.
  - right. apply bool_decide_eq_true in H. apply bool_decide_eq_true.
    set_solver.
Qed.

Lemma mkdir_chain_return (qs : list Path) (w w' : World) :
  mkdir_chain qs w = (Return tt, w') -> forall q, q ∈ qs -> is_dir w' q = true.
Proof.
  revert w. induction qs as [|q0 qs IH]; intros w H q Hq; [set_solver|].
  cbn [mkdir_chain] in H.
  pose proof (mkdir_chain_frame qs w) as (_ & _ & _ & Hm).
  pose proof (mkdir_chain_frame qs (with_dirs (fun d => {[q0]} ∪ d) w))
    as (_ & _ & _ & Hm').
  apply elem_of_cons in Hq as [->|Hq].
  - destruct (is_dir w q0) eqn:E.
    + rewrite H in Hm. now apply (is_dir_mono w).
    + destruct (is_file w q0 || refuses w OpMkdir q0); [discriminate|].
      rewrite H in Hm'. apply (is_dir_mono (with_dirs (fun d => {[q0]} ∪ d) w));
        [exact Hm'|].
      unfold is_dir. apply orb_true_iff. right.
      apply bool_decide_eq_true. cbn. set_solver.
  - destruct (is_dir w q0); [now apply (IH w)|].
    destruct (is_file w q0 || refuses w OpMkdir q0); [discriminate|].
    now apply (IH _ H).
Qed.

Lemma mkdir_chain_raise (qs : list Path) (w w' : World) (e : Exn) :
  mkdir_chain qs w = (Raise e, w') -> exists q, e = OSError OpMkdir q.
Proof.
  revert w. induction qs as [|q0 qs IH]; intros w H; [discriminate|].
  cbn [mkdir_chain] in H. destruct (is_dir w q0); [now apply (IH w)|].
  destruct (is_file w q0 || refuses w OpMkdir q0); [|now apply (IH _ H)].
  injection H as <- _. now exists q0.
Qed.

Lemma elem_of_ancestors_and_self (p : Path) :
  p <> [] -> p ∈ ancestors_and_self p.
Proof.
  intros Hp. unfold ancestors_and_self.
  apply list_elem_of_In, in_map_iff. exists (length p). split.
  - apply firstn_all.
  - apply in_seq. destruct p; [done|]. cbn. lia.
Qed.

Lemma mkdir_parents_exist_ok_return (p : Path) (w w' : World) :
  mkdir_parents_exist_ok p w = (Return tt, w') -> is_dir w' p = true.
Proof.
  intros H. destruct p as [|c p]; [reflexivity|].
  apply (mkdir_chain_return _ _ _ H). now apply elem_of_ancestors_and_self.
Qed.

Lemma create_output_directory_eq (s : State) :
  create_output_directory s =
    let out := output_dir (self s) in
    match mkdir_parents_exist_ok out (world s) with
    | (Return _, w') =>
        (Return tt,
         set_world s (emit INFO
           (if use_timestamp (self s) then CreatedTimestampedDirectory out
            else OutputDirectoryVerified out) w'))
    | (Raise e, w') =>
        (Raise e, set_world s (emit ERROR (FailedCreateOutputDirectory e) w'))
    end.
Proof.
  unfold create_output_directory, try_except_OSError, bind, gets, sys,
    logger_info, logger_error, raise, ret, set_world.
  cbn. destruct (mkdir_parents_exist_ok _ _) as [[[]|e] w'] eqn:E; cbn.
  - now destruct (use_timestamp (self s)).
  - apply mkdir_chain_raise in E as [q ->]. reflexivity.
Qed.

(** ** Writing a batch *)

Lemma same_settings_trans (s1 s2 s3 : State) :
  same_settings s1 s2 -> same_settings s2 s3 -> same_settings s1 s3.
Proof. unfold same_settings. intuition congruence. Qed.

Lemma generate_data_file_eq (filename : string) (s : State) :
  generate_data_file filename s =
    match generate_file filename false s with
    | (Return _, s') => (Return tt, s')
    | (Raise e, s') => (Raise e, s')
    end.
Proof.
  unfold generate_data_file, bind, ret.
  now destruct (generate_file filename false s) as [[?|?] ?].
Qed.

(** One data file: either the write goes through and the path is recorded,
    or the call raises and the record stays as it was. *)
Lemma generate_data_file_cases (filename : string) (s : State) :
  let p := target (output_dir (self s)) filename in
  (writable (world s) p = true /\
   generate_data_file filename s =
     (Return tt,
      recorded p (set_world s (emit INFO (GeneratedFile p)
        (with_files (fun f => <[p := LANGTRACE_SAMPLER_TEMPLATE]> f)
                    (world s))))))
  \/ (writable (world s) p = false /\
      exists op w',
        generate_data_file filename s = (Raise (OSError op p), set_world s w')
        /\ dirs w' = dirs (world s) /\ refuses w' = refuses (world s)).
Proof.
  intros p. rewrite generate_data_file_eq.
  destruct (writable (world s) p) eqn:E; [left|right]; (split; [reflexivity|]).
  - now rewrite (generate_file_return filename false s E).
  - destruct (generate_file_raise filename false s E) as (op & w' & -> & Hd & Hr).
    now exists op, w'.
Qed.

Lemma for_each_data_return (names : list string) (s s' : State) :
  for_each names generate_data_file s = (Return tt, s') ->
  let out := output_dir (self s) in
  created_files (self s') = created_files (self s) ++ map (target out) names
  /\ same_settings s s'
  /\ dirs (world s') = dirs (world s)
  /\ (forall q, files (world s') !! q =
        if bool_decide (q ∈ map (target out) names)
        then Some LANGTRACE_SAMPLER_TEMPLATE
        else files (world s) !! q).
Proof.
  revert s. induction names as [|n names IH]; intros s H out.
  - injection H as <-. rewrite app_nil_r.
    repeat split; try done.
  - cbn [for_each] in H. unfold bind in H.
    destruct (generate_data_file_cases n s) as [[Hw E]|[Hw (op & w' & E & _)]];
      rewrite E in H; [|discriminate].
    apply IH in H as (Hc & Hs & Hd & Hf). cbn in Hc, Hs, Hd, Hf.
    fold out in Hc, Hf. split; [|split; [|split]].
    + rewrite Hc. cbn [map]. now rewrite <- app_assoc.
    + exact Hs.
    + exact Hd.
    + intros q. rewrite Hf. cbn [map].
      destruct (decide (q ∈ map (target out) names)) as [Hin|Hin].
      * rewrite !bool_decide_eq_true_2; [done|set_solver|done].
      * rewrite (bool_decide_eq_false_2 _ Hin).
        destruct (decide (q = target out n)) as [->|Hne].
        -- rewrite bool_decide_eq_true_2 by set_solver.
           apply lookup_insert_eq.
        -- rewrite bool_decide_eq_false_2 by set_solver.
           now apply lookup_insert_ne.
Qed.

Lemma create_output_directory_frame (s : State) :
  self (create_output_directory s).2 = self s
  /\ files (world (create_output_directory s).2) = files (world s)
  /\ refuses (world (create_output_directory s).2) = refuses (world s)
  /\ dirs (world s) ⊆ dirs (world (create_output_directory s).2).
Proof.
  rewrite create_output_directory_eq. cbv zeta.
  unfold mkdir_parents_exist_ok.
  pose proof (mkdir_chain_frame (ancestors_and_self (output_dir (self s)))
                (world s)) as (Hf & Hr & _ & Hd).
  destruct (mkdir_chain _ _) as [[[]|e] w']; cbn in *; done.
Qed.

Lemma create_output_directory_return (s s' : State) :
  create_output_directory s = (Return tt, s') ->
  is_dir (world s') (output_dir (self s)) = true.
Proof.
  rewrite create_output_directory_eq. cbv zeta.
  destruct (mkdir_parents_exist_ok _ _) as [[[]|e] w'] eqn:E; [|discriminate].
  intros H. injection H as <-. cbn.
  apply mkdir_parents_exist_ok_return in E. exact E.
Qed.

Lemma _generate_files_by_count_eq (count : Z) (base_filename : string)
    (s : State) :
  _generate_files_by_count count base_filename s =
    if (count <=? 0)%Z
    then (Raise (ValueError "Count must be a positive integer"), s)
    else for_each (map (auto_filename count base_filename)
                       (range 1 (count + 1)))
           generate_data_file
           (set_world s (emit INFO (GeneratingByCount count base_filename)
                              (world s))).
Proof.
  unfold _generate_files_by_count. destruct (count <=? 0)%Z; [reflexivity|].
  rewrite for_each_map. reflexivity.
Qed.

Lemma _generate_files_by_names_eq (filenames : list string) (s : State) :
  _generate_files_by_names filenames s =
    for_each filenames generate_data_file
      (set_world s (emit INFO (GeneratingByNames (length filenames))
                         (world s))).
Proof. reflexivity. Qed.

Lemma length_batch_names (filenames : option (list string))
    (count : option Z) (base_filename : string) :
  length (batch_names filenames count base_filename)
  = batch_size filenames count.
Proof.
  unfold batch_names, batch_size. destruct count as [c|]; [|reflexivity].
  rewrite length_map, length_range. f_equal. lia.
Qed.

(** The package file of a batch: written first, with the prefixed text. *)
Lemma init_stage_return (create_init : bool) (s s' : State) :
  (if create_init then generate_file "__init__.py" true ;; ret tt
   else ret tt) s = (Return tt, s') ->
  let out := output_dir (self s) in
  created_files (self s') = created_files (self s) ++ init_paths out create_init
  /\ same_settings s s'
  /\ dirs (world s') = dirs (world s)
  /\ (forall q, files (world s') !! q =
        if create_init && bool_decide (q = target out "__init__.py")
        then Some (init_content +:+ LANGTRACE_SAMPLER_TEMPLATE)
        else files (world s) !! q).
Proof.
  intros H out. destruct create_init.
  - apply bind_inv_return in H as (p & s1 & H & H1).
    injection H1 as <-.
    destruct (writable (world s) (target out "__init__.py")) eqn:E.
    + rewrite (generate_file_return "__init__.py" true s E) in H.
      injection H as _ <-. cbn. repeat split; try done.
      intros q. destruct (decide (q = target out "__init__.py")) as [->|Hne].
      * rewrite bool_decide_eq_true_2 by done. apply lookup_insert_eq.
      * rewrite bool_decide_eq_false_2 by done. now apply lookup_insert_ne.
    + destruct (generate_file_raise "__init__.py" true s E)
        as (op & w' & H' & _). congruence.
  - injection H as <-. cbn. rewrite app_nil_r. repeat split; done.
Qed.

(** The stage of a batch that writes the data files. *)
Lemma names_stage_return (filenames : option (list string)) (count : option Z)
    (base_filename : string) (s s' : State) :
  match count with
  | Some c => _generate_files_by_count c base_filename
  | None => _generate_files_by_names (default [] filenames)
  end s = (Return tt, s') ->
  let out := output_dir (self s) in
  let names := batch_names filenames count base_filename in
  created_files (self s') = created_files (self s) ++ map (target out) names
  /\ same_settings s s'
  /\ dirs (world s') = dirs (world s)
  /\ (forall q, files (world s') !! q =
        if bool_decide (q ∈ map (target out) names)
        then Some LANGTRACE_SAMPLER_TEMPLATE
        else files (world s) !! q)
  /\ match count with Some c => (1 <= c)%Z | None => True end.
Proof.
  intros H out names. destruct count as [c|].
  - rewrite _generate_files_by_count_eq in H.
    destruct (c <=? 0)%Z eqn:E; [discriminate|]. apply Z.leb_gt in E.
    apply for_each_data_return in H as (Hc & Hs & Hd & Hf).
    split; [exact Hc|]. split; [exact Hs|]. split; [exact Hd|].
    split; [exact Hf|lia].
  - rewrite _generate_files_by_names_eq in H.
    apply for_each_data_return in H as (Hc & Hs & Hd & Hf).
    split; [exact Hc|]. split; [exact Hs|]. split; [exact Hd|].
    split; [exact Hf|exact I].
Qed.

(** A batch that returns: what it recorded and what it left on disk. *)
Lemma generate_multiple_files_return (filenames : option (list string))
    (count : option Z) (create_init : bool) (base_filename : string)
    (s s' : State) (l : list Path) :
  generate_multiple_files filenames count create_init base_filename s
    = (Return l, s') ->
  let out := output_dir (self s) in
  let names := batch_names filenames count base_filename in
  l = created_files (self s')
  /\ created_files (self s')
     = created_files (self s) ++ init_paths out create_init
         ++ map (target out) names
  /\ same_settings s s'
  /\ is_dir (world s') out = true
  /\ (forall q, q ∈ map (target out) names ->
        files (world s') !! q = Some LANGTRACE_SAMPLER_TEMPLATE)
  /\ (create_init = true ->
      target out "__init__.py" ∉ map (target out) names ->
      files (world s') !! target out "__init__.py"
      = Some (init_content +:+ LANGTRACE_SAMPLER_TEMPLATE))
  /\ match count with
     | Some c => (1 <= c)%Z /\ filenames = None
     | None => filenames <> None
     end.
Proof.
  intros H out names. unfold generate_multiple_files in H.
  assert (Hargs : match count with
                  | Some c => filenames = None
                  | None => filenames <> None
                  end).
  { destruct filenames, count; cbn in H; try done. }
  assert (Hrun : (create_output_directory ;;
           (if create_init then generate_file "__init__.py" true ;; ret tt
            else ret tt) ;;
           match count with
           | Some c => _generate_files_by_count c base_filename
           | None => _generate_files_by_names (default [] filenames)
           end ;;
           gets created_files) s = (Return l, s')).
  { destruct filenames, count; cbn in H; try done. }
  clear H.
  apply bind_inv_return in Hrun as ([] & s1 & H1 & Hrun).
  apply bind_inv_return in Hrun as ([] & s2 & H2 & Hrun).
  apply bind_inv_return in Hrun as ([] & s3 & H3 & Hrun).
  injection Hrun as <- <-.
  pose proof (create_output_directory_frame s) as (Hself & Hfiles & Href & Hdirs).
  pose proof (create_output_directory_return s s1 H1) as Hdir.
  rewrite H1 in Hself, Hfiles, Href, Hdirs. cbn in Hself, Hfiles, Href, Hdirs.
  apply init_stage_return in H2 as (Hc2 & Hs2 & Hd2 & Hf2).
  apply names_stage_return in H3 as (Hc3 & Hs3 & Hd3 & Hf3 & Hcount).
  assert (Hout2 : output_dir (self s2) = out).
  { destruct Hs2 as (_ & _ & -> & _). now rewrite Hself. }
  rewrite Hout2 in Hc3, Hf3. rewrite Hself in Hc2, Hf2. fold out in Hc2, Hf2.
  fold names in Hc3, Hf3.
  split; [reflexivity|]. split; [|split; [|split; [|split; [|split]]]].
  - rewrite Hc3, Hc2. now rewrite <- app_assoc.
  - eapply same_settings_trans; [|exact Hs3].
    eapply same_settings_trans; [|exact Hs2].
    unfold same_settings. now rewrite Hself, Href.
  - unfold is_dir in *. now rewrite Hd3, Hd2.
  - intros q Hq. rewrite Hf3. now rewrite bool_decide_eq_true_2.
  - intros -> Hnot. rewrite Hf3, bool_decide_eq_false_2 by exact Hnot.
    rewrite Hf2. now rewrite bool_decide_eq_true_2.
  - destruct count; [split|]; done.
Qed.

(** ** Naming and payload *)

(** C4: [generate_multiple_files] raises the configuration error
    ([ValueError]) when both [filenames] and [count] are given and when
    neither is; the state it leaves is the state it found, so no directory
    was created, no file written and nothing recorded or logged. *)
Theorem generate_multiple_files_both_or_neither
    (names : list string) (c : Z) (create_init : bool) (base : string)
    (s : State) :
  generate_multiple_files (Some names) (Some c) create_init base s
    = (Raise (ValueError
               "Cannot specify both 'filenames' and 'count'. Choose one."), s)
  /\ generate_multiple_files None None create_init base s
    = (Raise (ValueError "Either 'filenames' or 'count' must be provided"), s).
Proof. split; reflexivity. Qed.

Lemma prefixed_payload_differs :
  init_content +:+ LANGTRACE_SAMPLER_TEMPLATE <> LANGTRACE_SAMPLER_TEMPLATE.
Proof.
  intros H. apply (f_equal len) in H. rewrite len_app in H.
  assert (Hl : len init_content = 212) by (vm_compute; reflexivity).
  lia.
Qed.

Lemma payload_eq (filename : string) (add_init : bool) :
  payload filename add_init =
    if add_init && bool_decide (filename = "__init__.py")
    then init_content +:+ LANGTRACE_SAMPLER_TEMPLATE
    else LANGTRACE_SAMPLER_TEMPLATE.
Proof.
  unfold payload. destruct add_init; [|reflexivity]. cbn [andb].
  destruct (String.eqb_spec filename "__init__.py") as [->|Hne].
  - reflexivity.
  - now rewrite bool_decide_eq_false_2.
Qed.

Lemma generate_file_inv (filename : string) (add_init : bool)
    (s s' : State) (p : Path) :
  generate_file filename add_init s = (Return p, s') ->
  p = target (output_dir (self s)) filename
  /\ s' = recorded p (set_world s (emit INFO (GeneratedFile p)
            (with_files (fun f => <[p := payload (with_py filename) add_init]> f)
                        (world s))))
  /\ writable (world s) p = true.
Proof.
  intros H.
  destruct (writable (world s) (target (output_dir (self s)) filename)) eqn:E.
  - rewrite (generate_file_return filename add_init s E) in H.
    injection H as <- <-. done.
  - destruct (generate_file_raise filename add_init s E) as (op & w' & H' & _).
    congruence.
Qed.

(** C5: the text [generate_file] writes is the template with the package
    text in front exactly when [add_init] is set and the extended name is
    [__init__.py]; in every other call it is the template alone. *)
Theorem generate_file_payload (filename : string) (add_init : bool)
    (s s' : State) (p : Path) :
  generate_file filename add_init s = (Return p, s') ->
  exists content,
    files (world s') !! p = Some content
    /\ (content = init_content +:+ LANGTRACE_SAMPLER_TEMPLATE
        <-> add_init = true /\ with_py filename = "__init__.py")
    /\ (content = LANGTRACE_SAMPLER_TEMPLATE
        <-> ~ (add_init = true /\ with_py filename = "__init__.py")).
Proof.
  intros (-> & -> & _)%generate_file_inv.
  exists (payload (with_py filename) add_init). split.
  - cbn. apply lookup_insert_eq.
  - rewrite payload_eq. pose proof prefixed_payload_differs as Hd.
    destruct add_init; cbn [andb].
    + destruct (decide (with_py filename = "__init__.py")) as [E|E].
      * rewrite bool_decide_eq_true_2 by exact E. split; [tauto|].
        split; [intros H; now symmetry in H|tauto].
      * rewrite bool_decide_eq_false_2 by exact E. split; [|tauto].
        split; [intros H; now symmetry in H|tauto].
    + split; [|split; [intros _ [? _]; discriminate|tauto]].
      split; [intros H; now symmetry in H|intros [? _]; discriminate].
Qed.

Lemma generate_file_payload_witness :
  generate_file "__init__" true Sample.plain_ready
    = (Return ["out"; "__init__.py"],
       (generate_file "__init__" true Sample.plain_ready).2)
  /\ exists content,
       files (world (generate_file "__init__" true Sample.plain_ready).2)
         !! ["out"; "__init__.py"] = Some content
       /\ (content = init_content +:+ LANGTRACE_SAMPLER_TEMPLATE
           <-> true = true /\ with_py "__init__" = "__init__.py")
       /\ (content = LANGTRACE_SAMPLER_TEMPLATE
           <-> ~ (true = true /\ with_py "__init__" = "__init__.py")).
Proof.
  assert (H : generate_file "__init__" true Sample.plain_ready
              = (Return ["out"; "__init__.py"],
                 (generate_file "__init__" true Sample.plain_ready).2))
    by (vm_compute; reflexivity).
  split; [exact H|].
  exact (generate_file_payload "__init__" true Sample.plain_ready _ _ H).
Defined.

(** C6: the file [generate_file] creates is named after its argument with
    [.py] appended when the argument does not end in [.py], and after the
    argument unchanged when it does; either way the name ends in [.py]
    and extending it again changes nothing. *)
Theorem generate_file_extension (filename : string) (add_init : bool)
    (s s' : State) (p : Path) :
  generate_file filename add_init s = (Return p, s') ->
  exists name,
    p = path_join (output_dir (self s)) name
    /\ is_file (world s') p = true
    /\ name = (if endswith filename ".py" then filename
               else filename +:+ ".py")
    /\ endswith name ".py" = true
    /\ with_py name = name.
Proof.
  intros (-> & -> & _)%generate_file_inv. exists (with_py filename).
  split; [reflexivity|]. split; [|split; [|split]].
  - unfold is_file. cbn. apply bool_decide_eq_true.
    rewrite lookup_insert_eq. now eexists.
  - apply with_py_eq.
  - apply with_py_endswith.
  - apply with_py_idem.
Qed.

Lemma generate_file_extension_witness :
  generate_file "sampler" false Sample.plain_ready
    = (Return ["out"; "sampler.py"],
       (generate_file "sampler" false Sample.plain_ready).2)
  /\ exists name,
       ["out"; "sampler.py"]
         = path_join (output_dir (self Sample.plain_ready)) name
       /\ is_file (world (generate_file "sampler" false Sample.plain_ready).2)
            ["out"; "sampler.py"] = true
       /\ name = (if endswith "sampler" ".py" then "sampler"
                  else "sampler" +:+ ".py")
       /\ endswith name ".py" = true
       /\ with_py name = name.
Proof.
  assert (H : generate_file "sampler" false Sample.plain_ready
              = (Return ["out"; "sampler.py"],
                 (generate_file "sampler" false Sample.plain_ready).2))
    by (vm_compute; reflexivity).
  split; [exact H|].
  exact (generate_file_extension "sampler" false Sample.plain_ready _ _ H).
Defined.

Example generate_file_keeps_extension :
  (generate_file "sampler.py" false Sample.plain_ready).1
  = Return ["out"; "sampler.py"].
Proof. vm_compute. reflexivity. Qed.

Lemma zero_padded_zfill (width : nat) (i : Z) :
  (0 <= i)%Z -> zfill width (str i) = zero_padded width i.
Proof. apply zfill_str. Qed.

(** The name the loop computes is the one the naming policy words: with a
    count of one the base name alone; with a larger count the base name,
    an underscore and [i] left-filled with zeros to the number of digits
    of the count. *)
Lemma auto_filename_policy (count : Z) (base : string) (i : Z) :
  (1 <= i <= count)%Z ->
  auto_filename count base i = policy_name count base i
  /\ (count = 1%Z ->
      auto_filename count base i = base
      /\ batch_names None (Some count) base = [base])
  /\ ((1 < count)%Z ->
      auto_filename count base i
        = base +:+ "_" +:+ zero_padded (len (str count)) i
      /\ len (zero_padded (len (str count)) i) = len (str count))
  /\ batch_names None (Some count) base !! Z.to_nat (i - 1)
     = Some (policy_name count base i).
Proof.
  intros Hi.
  assert (E : auto_filename count base i = policy_name count base i).
  { unfold auto_filename, policy_name. destruct (count =? 1)%Z; [reflexivity|].
    now rewrite zero_padded_zfill by lia. }
  split; [exact E|]. split; [|split].
  - intros ->. split; reflexivity.
  - intros Hc. rewrite E. unfold policy_name.
    destruct (count =? 1)%Z eqn:E1; [apply Z.eqb_eq in E1; lia|].
    split; [reflexivity|].
    rewrite <- zero_padded_zfill by lia. apply len_zfill_str. lia.
  - unfold batch_names. change (map ?f ?l) with (f <$> l).
    rewrite list_lookup_fmap, lookup_range by lia. cbn.
    rewrite <- E. do 2 f_equal. lia.
Qed.

Example auto_filename_ten :
  map (auto_filename 10 "s") (range 1 11)
  = ["s_01"; "s_02"; "s_03"; "s_04"; "s_05";
     "s_06"; "s_07"; "s_08"; "s_09"; "s_10"].
Proof. reflexivity. Qed.

Example auto_filename_one : map (auto_filename 1 "s") (range 1 2) = ["s"].
Proof. reflexivity. Qed.

(** The number of characters [str] prints is the number of decimal digits. *)
Lemma len_str_digits (n : Z) :
  (1 <= n)%Z ->
  (10 ^ (Z.of_nat (len (str n)) - 1) <= n < 10 ^ Z.of_nat (len (str n)))%Z.
Proof.
  intros Hn. rewrite str_nonneg_pos by lia.
  assert (H0 : (0 <= n)%Z) by lia. revert n H0 Hn.
  apply (nonneg_div10_ind
    (fun n => (1 <= n)%Z ->
       (10 ^ (Z.of_nat (len (str_nonneg n)) - 1) <= n
          < 10 ^ Z.of_nat (len (str_nonneg n)))%Z)).
  - intros n Hn H1. rewrite str_nonneg_eq by lia.
    destruct (n <? 10)%Z eqn:E; [|apply Z.ltb_ge in E; lia].
    unfold len. cbn. lia.
  - intros n Hn IH _. rewrite str_nonneg_eq by lia.
    destruct (n <? 10)%Z eqn:E; [apply Z.ltb_lt in E; lia|].
    rewrite len_app. unfold len at 2 4. cbn [String.length].
    assert (Hq : (1 <= n / 10)%Z).
    { apply Z.div_le_lower_bound; lia. }
    specialize (IH Hq).
    pose proof (len_str_nonneg_pos (n / 10) ltac:(lia)) as Hl.
    set (k := len (str_nonneg (n / 10))) in *.
    replace (Z.of_nat (k + 1) - 1)%Z with (Z.succ (Z.of_nat k - 1)) by lia.
    replace (Z.of_nat (k + 1)) with (Z.succ (Z.of_nat k)) by lia.
    rewrite !Z.pow_succ_r by lia.
    pose proof (Z.div_mod n 10 ltac:(lia)) as Hdm.
    pose proof (Z.mod_pos_bound n 10 ltac:(lia)) as Hm.
    lia.
Qed.

(** C2: the names of a batch by count.  When [_generate_files_by_count]
    returns, the record has grown by one path per index from 1 to the
    count, in order, each the path [generate_file] writes for a name, and
    each of these files holds the template.  With a count of one the one
    name is the base name as it stands.  With a larger count the [i]-th
    name is the base name, an underscore and a block of decimal digits
    that reads [i] and is as long as [str(count)], which is the number of
    decimal digits of the count. *)
Theorem generate_files_by_count_names (count : Z) (base : string)
    (s s' : State) :
  _generate_files_by_count count base s = (Return tt, s') ->
  exists names,
    created_files (self s')
    = created_files (self s) ++ map (target (output_dir (self s))) names
    /\ Z.of_nat (length names) = count
    /\ (forall name, name ∈ names ->
          files (world s') !! target (output_dir (self s)) name
          = Some LANGTRACE_SAMPLER_TEMPLATE)
    /\ (count = 1%Z -> names = [base])
    /\ ((1 < count)%Z ->
        (10 ^ (Z.of_nat (len (str count)) - 1) <= count
           < 10 ^ Z.of_nat (len (str count)))%Z
        /\ forall i, (1 <= i <= count)%Z ->
             exists pad,
               names !! Z.to_nat (i - 1) = Some (base +:+ "_" +:+ pad)
               /\ len pad = len (str count)
               /\ all_digits pad = true
               /\ value pad = i).
Proof.
  intros H.
  pose proof (names_stage_return None (Some count) base s s' H)
    as (Hc & _ & _ & Hf & Hpos).
  cbn [batch_names] in Hc, Hf.
  exists (map (auto_filename count base) (range 1 (count + 1))).
  split; [exact Hc|]. split; [|split; [|split]].
  - rewrite length_map, length_range. lia.
  - intros name Hname. rewrite Hf.
    rewrite bool_decide_eq_true_2; [reflexivity|].
    now apply list_elem_of_In, in_map, list_elem_of_In.
  - intros ->. reflexivity.
  - intros Hgt. split; [apply len_str_digits; lia|].
    intros i Hi. exists (zfill (len (str count)) (str i)).
    split; [|split; [|split]].
    + change (map ?f ?l) with (f <$> l).
      rewrite list_lookup_fmap, lookup_range by lia. cbn [fmap option_fmap option_map].
      unfold auto_filename.
      destruct (count =? 1)%Z eqn:E; [apply Z.eqb_eq in E; lia|].
      replace (1 + Z.of_nat (Z.to_nat (i - 1)))%Z with i by lia.
      reflexivity.
    + apply len_zfill_str. lia.
    + apply all_digits_zfill_str. lia.
    + apply value_zfill_str. lia.
Qed.

Lemma generate_files_by_count_names_witness :
  _generate_files_by_count 10 "langtrace_sampler" Sample.plain_ready
  = (Return tt,
     (_generate_files_by_count 10 "langtrace_sampler" Sample.plain_ready).2)
  /\ created_files
       (self (_generate_files_by_count 10 "langtrace_sampler"
                Sample.plain_ready).2)
     = [["out"; "langtrace_sampler_01.py"]; ["out"; "langtrace_sampler_02.py"];
        ["out"; "langtrace_sampler_03.py"]; ["out"; "langtrace_sampler_04.py"];
        ["out"; "langtrace_sampler_05.py"]; ["out"; "langtrace_sampler_06.py"];
        ["out"; "langtrace_sampler_07.py"]; ["out"; "langtrace_sampler_08.py"];
        ["out"; "langtrace_sampler_09.py"]; ["out"; "langtrace_sampler_10.py"]]
  /\ exists names,
       created_files
         (self (_generate_files_by_count 10 "langtrace_sampler"
                  Sample.plain_ready).2)
       = created_files (self Sample.plain_ready)
           ++ map (target (output_dir (self Sample.plain_ready))) names
       /\ Z.of_nat (length names) = 10%Z
       /\ (forall name, name ∈ names ->
             files (world (_generate_files_by_count 10 "langtrace_sampler"
                             Sample.plain_ready).2)
               !! target (output_dir (self Sample.plain_ready)) name
             = Some LANGTRACE_SAMPLER_TEMPLATE)
       /\ (10%Z = 1%Z -> names = ["langtrace_sampler"])
       /\ ((1 < 10)%Z ->
           (10 ^ (Z.of_nat (len (str 10)) - 1) <= 10
              < 10 ^ Z.of_nat (len (str 10)))%Z
           /\ forall i, (1 <= i <= 10)%Z ->
                exists pad,
                  names !! Z.to_nat (i - 1)
                  = Some ("langtrace_sampler" +:+ "_" +:+ pad)
                  /\ len pad = len (str 10)
                  /\ all_digits pad = true
                  /\ value pad = i).
Proof.
  assert (H : _generate_files_by_count 10 "langtrace_sampler"
                Sample.plain_ready
              = (Return tt,
                 (_generate_files_by_count 10 "langtrace_sampler"
                    Sample.plain_ready).2))
    by (vm_compute; reflexivity).
  split; [exact H|]. split; [vm_compute; reflexivity|].
  exact (generate_files_by_count_names 10 "langtrace_sampler"
           Sample.plain_ready _ H).
Defined.

(** The same for a count of one: the base name alone, extended. *)
Example generate_files_by_count_one :
  created_files
    (self (_generate_files_by_count 1 "langtrace_sampler"
             Sample.plain_ready).2)
  = [["out"; "langtrace_sampler.py"]].
Proof. vm_compute. reflexivity. Qed.

(** ** Batches *)

Lemma with_py_kept (filename : string) : kept (with_py filename) = true.
Proof.
  pose proof (with_py_endswith filename) as [x Hx]%endswith_inv.
  rewrite Hx. apply kept_long. rewrite len_app. unfold len at 2. cbn. lia.
Qed.

(** A name without separator is written in the output directory itself. *)
Lemma target_no_sep (out : Path) (filename : string) :
  no_sep filename = true -> target out filename = out ++ [with_py filename].
Proof.
  intros Hn. unfold target. apply path_join_no_sep; [|apply with_py_kept].
  rewrite with_py_eq. destruct (endswith filename ".py"); [exact Hn|].
  now rewrite no_sep_app, Hn.
Qed.

Lemma target_init (out : Path) :
  target out "__init__.py" = path_join out "__init__.py"
  /\ path_join out "__init__.py" = out ++ ["__init__.py"].
Proof. split; [reflexivity|]. now apply path_join_no_sep. Qed.

(** The path of a numbered name: the directory the base name points
    into, then what is behind its last slash with the number and the
    extension. *)
Lemma target_auto_filename (out : Path) (count : Z) (base : string) (i : Z) :
  count <> 1%Z -> (0 <= i)%Z ->
  target out (auto_filename count base i)
  = dir_part out base
      ++ [last_segment base
          +:+ ("_" +:+ zfill (len (str count)) (str i) +:+ ".py")].
Proof.
  intros Hc Hi. unfold target. rewrite with_py_auto_filename by assumption.
  unfold auto_filename.
  destruct (count =? 1)%Z eqn:E; [apply Z.eqb_eq in E; contradiction|].
  rewrite !app_assoc_str.
  apply path_join_app.
  - rewrite !no_sep_app.
    rewrite (all_digits_no_sep (zfill (len (str count)) (str i)))
      by (apply all_digits_zfill_str; lia).
    reflexivity.
  - apply kept_long. rewrite !len_app. change (len ".py") with 3. lia.
Qed.

(** Within one batch by count the paths are pairwise distinct, whatever
    the base name. *)
Lemma target_auto_filename_inj (out : Path) (count : Z) (base : string)
    (i j : Z) :
  (1 <= i <= count)%Z -> (1 <= j <= count)%Z ->
  target out (auto_filename count base i)
  = target out (auto_filename count base j) ->
  i = j.
Proof.
  intros Hi Hj H. destruct (Z.eq_dec count 1%Z) as [->|Hc]; [lia|].
  rewrite !target_auto_filename in H by lia.
  apply app_inv_head in H. injection H as H.
  apply (inj (String.append (last_segment base))) in H.
  injection H as H. rewrite !app_empty_l in H. apply app_inj_r in H.
  apply (f_equal value) in H. now rewrite !value_zfill_str in H by lia.
Qed.

Lemma NoDup_count_targets (out : Path) (n : Z) (base : string) :
  NoDup (map (target out) (batch_names None (Some n) base)).
Proof.
  unfold batch_names. rewrite map_map.
  apply (NoDup_fmap_2_strong (fun i => target out (auto_filename n base i))).
  - intros i j Hi%elem_of_range Hj%elem_of_range H.
    apply (target_auto_filename_inj out n base); [lia|lia|exact H].
  - apply NoDup_range.
Qed.

(** A numbered name never lands on the package file. *)
Lemma target_auto_filename_not_init (out : Path) (count : Z) (base : string)
    (i : Z) :
  count <> 1%Z -> (0 <= i)%Z ->
  target out (auto_filename count base i) <> path_join out "__init__.py".
Proof.
  intros Hc Hi H. rewrite target_auto_filename in H by assumption.
  rewrite (proj2 (target_init out)) in H.
  apply app_inj_tail in H as [_ H].
  pose proof (last_char_zfill_str (len (str count)) i Hi) as Hl.
  destruct (zfill (len (str count)) (str i)) as [|c r] eqn:Ez; [discriminate|].
  change ("_" +:+ String c r +:+ ".py")
    with (String "_" (String c r) +:+ ".py") in H.
  rewrite <- app_assoc_str in H.
  apply (app_inj_r ".py" _ "__init__") in H.
  apply (f_equal last_char) in H. rewrite last_char_app in H.
  change (last_char (String "_" (String c r))) with (last_char (String c r)) in H.
  rewrite Hl in H. injection H as H. revert H.
  apply digit_char_not; [apply Z.mod_pos_bound; lia|reflexivity].
Qed.

Lemma init_in_count_targets (out : Path) (n : Z) (base : string) :
  path_join out "__init__.py"
    ∈ map (target out) (batch_names None (Some n) base)
  <-> n = 1%Z /\ path_join out (with_py base) = path_join out "__init__.py".
Proof.
  split.
  - intros Hin. unfold batch_names in Hin. rewrite map_map in Hin.
    apply list_elem_of_In, in_map_iff in Hin as (i & Hi & Hr).
    apply list_elem_of_In, elem_of_range in Hr.
    destruct (Z.eq_dec n 1%Z) as [->|Hn].
    + split; [reflexivity|]. exact Hi.
    + exfalso. revert Hi. apply target_auto_filename_not_init; [exact Hn|lia].
  - intros [-> H]. unfold batch_names.
    change (map (target out) (map (auto_filename 1 base) (range 1 (1 + 1))))
      with [path_join out (with_py base)].
    rewrite H. apply list_elem_of_here.
Qed.

(** C1, as amended: a batch by count [n >= 1] on a new generator that
    returns has recorded, in order, the package file when asked for and
    then [n] data files.  The paths of the [n] data files are pairwise
    distinct, whatever the base name, and each data file holds the
    template.  The package file is one of the data files exactly when
    [n = 1] and the base name, extended and joined to the output
    directory, is the path of [__init__.py]; the whole record is free of
    repetition exactly when the package file is not asked for or that is
    not the case.  For a base name without separator that case is the
    base name [__init__] or [__init__.py]; a base name such as
    [./__init__] lands on the package file as well, and the package file
    then holds the template alone, as every data file does.  Every
    recorded path is a file when the batch returns. *)
Theorem count_batch_files (n : Z) (create_init : bool) (base : string)
    (b : Path) (ts : bool) (stamp : string) (w : World)
    (l : list Path) (s' : State) :
  (1 <= n)%Z ->
  generate_multiple_files None (Some n) create_init base (fresh b ts stamp w)
    = (Return l, s') ->
  let out := output_dir (LangtraceFileGenerator b ts stamp) in
  let data := map (target out) (batch_names None (Some n) base) in
  let init := path_join out "__init__.py" in
  l = init_paths out create_init ++ data
  /\ length data = Z.to_nat n
  /\ length l = Z.to_nat n + (if create_init then 1 else 0)
  /\ NoDup data
  /\ (forall p, p ∈ data ->
        files (world s') !! p = Some LANGTRACE_SAMPLER_TEMPLATE)
  /\ (init ∈ data <-> n = 1%Z /\ path_join out (with_py base) = init)
  /\ (NoDup l <->
      ~ (create_init = true /\ n = 1%Z
         /\ path_join out (with_py base) = init))
  /\ (no_sep base = true ->
      (path_join out (with_py base) = init
       <-> base = "__init__" \/ base = "__init__.py"))
  /\ (forall p, p ∈ l -> is_file (world s') p = true).
Proof.
  intros Hn H out data init.
  apply generate_multiple_files_return in H
    as (-> & Hc & _ & _ & Hdata & Hinit & _).
  cbn [fresh self created_files LangtraceFileGenerator app] in Hc, Hdata, Hinit.
  fold out in Hc, Hdata, Hinit. fold data in Hc, Hdata, Hinit.
  change (target out "__init__.py") with init in Hinit.
  assert (Hnd : NoDup data) by apply NoDup_count_targets.
  assert (Hlen : length data = Z.to_nat n).
  { unfold data. now rewrite length_map, length_batch_names. }
  assert (Hin : init ∈ data <-> n = 1%Z /\ path_join out (with_py base) = init)
    by apply init_in_count_targets.
  split; [exact Hc|]. split; [exact Hlen|].
  split; [|split; [exact Hnd|split; [exact Hdata|split; [exact Hin|]]]].
  { rewrite Hc, length_app, Hlen. unfold init_paths.
    destruct create_init; cbn; lia. }
  split; [|split].
  - rewrite Hc. unfold init_paths. destruct create_init.
    + change ([target out "__init__.py"] ++ data) with (init :: data).
      rewrite NoDup_cons. split.
      * intros [Hni _] (_ & Hn1 & Hb). apply Hni, Hin. now split.
      * intros Hno. split; [|exact Hnd].
        intros [Hn1 Hb]%Hin. apply Hno. now split.
    + cbn [app]. split; [|intros _; exact Hnd].
      intros _ (Hci & _). discriminate Hci.
  - intros Hb. unfold init. rewrite (proj2 (target_init out)).
    fold (target out base). rewrite target_no_sep by exact Hb.
    rewrite <- with_py_init_iff. split; [|now intros ->].
    intros Heq. apply app_inv_head in Heq. now injection Heq.
  - assert (Hfile : forall p, p ∈ data -> is_file (world s') p = true).
    { intros p Hp. unfold is_file. apply bool_decide_eq_true.
      rewrite (Hdata p Hp). now eexists. }
    intros p Hp. rewrite Hc in Hp. apply elem_of_app in Hp as [Hp|Hp];
      [|now apply Hfile].
    unfold init_paths in Hp. destruct create_init eqn:Eci; [|set_solver].
    apply list_elem_of_singleton in Hp as ->.
    change (target out "__init__.py") with init.
    destruct (decide (init ∈ data)) as [Hi|Hi]; [now apply Hfile|].
    unfold is_file. apply bool_decide_eq_true.
    rewrite (Hinit eq_refl Hi). now eexists.
Qed.

Lemma count_batch_files_witness :
  (1 <= 3)%Z
  /\ generate_multiple_files None (Some 3%Z) true "langtrace_sampler"
       (fresh ["out"] true "20250703_115949" empty_world)
     = (Return Sample.stamped_paths, Sample.stamped_batch.2)
  /\ let out := output_dir (LangtraceFileGenerator ["out"] true
                              "20250703_115949") in
     let data :=
       map (target out) (batch_names None (Some 3%Z) "langtrace_sampler") in
     let init := path_join out "__init__.py" in
     Sample.stamped_paths = init_paths out true ++ data
     /\ length data = Z.to_nat 3
     /\ length Sample.stamped_paths = Z.to_nat 3 + 1
     /\ NoDup data
     /\ (forall p, p ∈ data ->
           files (world Sample.stamped_batch.2) !! p
           = Some LANGTRACE_SAMPLER_TEMPLATE)
     /\ (init ∈ data
         <-> 3%Z = 1%Z
             /\ path_join out (with_py "langtrace_sampler") = init)
     /\ (NoDup Sample.stamped_paths <->
         ~ (true = true /\ 3%Z = 1%Z
            /\ path_join out (with_py "langtrace_sampler") = init))
     /\ (no_sep "langtrace_sampler" = true ->
         (path_join out (with_py "langtrace_sampler") = init
          <-> "langtrace_sampler" = "__init__"
              \/ "langtrace_sampler" = "__init__.py"))
     /\ (forall p, p ∈ Sample.stamped_paths ->
           is_file (world Sample.stamped_batch.2) p = true).
Proof.
  assert (H : generate_multiple_files None (Some 3%Z) true "langtrace_sampler"
                (fresh ["out"] true "20250703_115949" empty_world)
              = (Return Sample.stamped_paths, Sample.stamped_batch.2))
    by (vm_compute; reflexivity).
  split; [lia|]. split; [exact H|].
  exact (count_batch_files 3 true "langtrace_sampler" ["out"] true
           "20250703_115949" empty_world _ _ ltac:(lia) H).
Defined.

(** C1 as worded fails: with a count of one and the base name [__init__],
    asking for the package file too records the same path twice. *)
Lemma unique_batch_counterexample :
  ~ unique_batch 1 true "__init__" Sample.plain.
Proof.
  intros H.
  destruct (H [["out"; "__init__.py"]; ["out"; "__init__.py"]]
              (generate_multiple_files None (Some 1%Z) true "__init__"
                 Sample.plain).2) as [_ Hnd].
  - vm_compute. reflexivity.
  - apply NoDup_cons in Hnd as [Hin _]. apply Hin. left.
Qed.

(** The same happens behind [./]: the base name [./__init__] lands on the
    package file, which ends up holding the template alone. *)
Example dot_init_batch :
  (generate_multiple_files None (Some 1%Z) true "./__init__" Sample.plain).1
  = Return [["out"; "__init__.py"]; ["out"; "__init__.py"]]
  /\ files (world (generate_multiple_files None (Some 1%Z) true "./__init__"
                     Sample.plain).2) !! ["out"; "__init__.py"]
     = Some LANGTRACE_SAMPLER_TEMPLATE.
Proof. vm_compute. split; reflexivity. Qed.

(** C10: [generate_multiple_files] returns the whole record of the
    object, not the files of the call: a second batch that returns on the
    object a first batch left gives the first list followed by its own
    paths, so its length is the first length plus the data files of the
    second batch plus one for its package file. *)
Theorem generate_multiple_files_cumulative
    (filenames1 filenames2 : option (list string)) (count1 count2 : option Z)
    (init1 init2 : bool) (base1 base2 : string)
    (s0 s1 s2 : State) (l1 l2 : list Path) :
  generate_multiple_files filenames1 count1 init1 base1 s0 = (Return l1, s1) ->
  generate_multiple_files filenames2 count2 init2 base2 s1 = (Return l2, s2) ->
  l1 = created_files (self s1)
  /\ l2 = created_files (self s2)
  /\ l2 = l1 ++ init_paths (output_dir (self s0)) init2
             ++ map (target (output_dir (self s0)))
                    (batch_names filenames2 count2 base2)
  /\ l1 `prefix_of` l2
  /\ length l2 = length l1 + batch_size filenames2 count2
                 + (if init2 then 1 else 0)
  /\ (created_files (self s0) = [] ->
      length l1 = batch_size filenames1 count1 + (if init1 then 1 else 0)).
Proof.
  intros H1 H2.
  apply generate_multiple_files_return in H1 as (E1 & Hc1 & Hs1 & _).
  apply generate_multiple_files_return in H2 as (E2 & Hc2 & _).
  destruct Hs1 as (_ & _ & Hout & _). rewrite Hout in Hc2.
  rewrite <- E1 in Hc2. rewrite <- E2 in Hc2.
  split; [exact E1|]. split; [exact E2|]. split; [exact Hc2|].
  split; [|split].
  - rewrite Hc2. now apply prefix_app_r.
  - rewrite Hc2, !length_app, length_map, length_batch_names.
    unfold init_paths. destruct init2; cbn; lia.
  - intros Hnil. rewrite E1, Hc1, Hnil. cbn [app].
    rewrite length_app, length_map, length_batch_names.
    unfold init_paths. destruct init1; cbn; lia.
Qed.

Lemma generate_multiple_files_cumulative_witness :
  generate_multiple_files None (Some 3%Z) true "langtrace_sampler"
    Sample.stamped
  = (Return Sample.stamped_paths, Sample.stamped_batch.2)
  /\ generate_multiple_files (Some ["extra"]) None false "langtrace_sampler"
       Sample.stamped_batch.2
     = (Return Sample.extended_paths, Sample.extended_batch.2)
  /\ Sample.stamped_paths = created_files (self Sample.stamped_batch.2)
  /\ Sample.extended_paths = created_files (self Sample.extended_batch.2)
  /\ Sample.extended_paths
     = Sample.stamped_paths
         ++ init_paths (output_dir (self Sample.stamped)) false
         ++ map (target (output_dir (self Sample.stamped)))
                (batch_names (Some ["extra"]) None "langtrace_sampler")
  /\ Sample.stamped_paths `prefix_of` Sample.extended_paths
  /\ length Sample.extended_paths
     = length Sample.stamped_paths + batch_size (Some ["extra"]) None
       + (if false then 1 else 0)
  /\ (created_files (self Sample.stamped) = [] ->
      length Sample.stamped_paths
      = batch_size None (Some 3%Z) + (if true then 1 else 0)).
Proof.
  assert (H1 : generate_multiple_files None (Some 3%Z) true "langtrace_sampler"
                 Sample.stamped
               = (Return Sample.stamped_paths, Sample.stamped_batch.2))
    by (vm_compute; reflexivity).
  assert (H2 : generate_multiple_files (Some ["extra"]) None false
                 "langtrace_sampler" Sample.stamped_batch.2
               = (Return Sample.extended_paths, Sample.extended_batch.2))
    by (vm_compute; reflexivity).
  split; [exact H1|]. split; [exact H2|].
  exact (generate_multiple_files_cumulative _ _ _ _ _ _ _ _ _ _ _ _ _ H1 H2).
Defined.

(** ** A count that is not positive *)

Lemma create_output_directory_raise (s s' : State) (e : Exn) :
  create_output_directory s = (Raise e, s') -> exists q, e = OSError OpMkdir q.
Proof.
  rewrite create_output_directory_eq. cbv zeta.
  destruct (mkdir_parents_exist_ok _ _) as [[[]|e0] w'] eqn:E; [discriminate|].
  intros H. injection H as <- _. now apply mkdir_chain_raise in E.
Qed.

(** Before the count is looked at, the directory is made and the package
    file written: a count that is not positive raises [ValueError] only
    after both, and raises [OSError] instead when either fails. *)
Lemma nonpositive_count_outcome (n : Z) (create_init : bool) (base : string)
    (s : State) :
  (n <= 0)%Z ->
  exists e s',
    generate_multiple_files None (Some n) create_init base s = (Raise e, s')
    /\ ((exists op q, e = OSError op q)
        \/ (e = ValueError "Count must be a positive integer"
            /\ is_dir (world s') (output_dir (self s)) = true
            /\ created_files (self s')
               = created_files (self s)
                   ++ init_paths (output_dir (self s)) create_init
            /\ (create_init = true ->
                files (world s') !! target (output_dir (self s)) "__init__.py"
                = Some (init_content +:+ LANGTRACE_SAMPLER_TEMPLATE)))).
Proof.
  intros Hn.
  change (generate_multiple_files None (Some n) create_init base s)
    with ((create_output_directory ;;
           (if create_init then generate_file "__init__.py" true ;; ret tt
            else ret tt) ;;
           _generate_files_by_count n base ;;
           gets created_files) s).
  unfold bind at 1.
  destruct (create_output_directory s) as [[[]|e] s1] eqn:E1.
  2:{ apply create_output_directory_raise in E1 as [q ->].
      eexists _, _. split; [reflexivity|]. left. now eexists _, _. }
  pose proof (create_output_directory_frame s) as (Hself & _ & _ & _).
  pose proof (create_output_directory_return s s1 E1) as Hdir.
  rewrite E1 in Hself. cbn in Hself.
  unfold bind at 1.
  destruct ((if create_init then generate_file "__init__.py" true ;; ret tt
             else ret tt) s1) as [[[]|e] s2] eqn:E2.
  - apply init_stage_return in E2 as (Hc & Hs & Hd & Hf).
    rewrite Hself in Hc, Hf.
    unfold bind at 1. rewrite _generate_files_by_count_eq.
    destruct (n <=? 0)%Z eqn:E; [|apply Z.leb_gt in E; lia].
    eexists _, _. split; [reflexivity|]. right.
    split; [reflexivity|]. split; [|split; [exact Hc|]].
    + unfold is_dir in *. now rewrite Hd.
    + intros ->. rewrite Hf. cbn [andb].
      now rewrite bool_decide_eq_true_2.
  - destruct create_init; [|discriminate].
    apply bind_inv_raise in E2 as [E2|(p & s1' & _ & E2)]; [|discriminate].
    destruct (writable (world s1) (target (output_dir (self s1)) "__init__.py"))
      eqn:Ew.
    + rewrite (generate_file_return "__init__.py" true s1 Ew) in E2.
      discriminate.
    + destruct (generate_file_raise "__init__.py" true s1 Ew)
        as (op & w' & E2' & _).
      rewrite E2' in E2. injection E2 as <- <-.
      eexists _, _. split; [reflexivity|]. left. now eexists _, _.
Qed.

(** C3, the failing input: with a count of zero on a new generator over
    an empty disk the call raises [ValueError], but by then the directory
    exists, [__init__.py] is written and its path is recorded. *)
Theorem nonpositive_count_after_writes :
  Sample.stamped_zero.1 = Raise (ValueError "Count must be a positive integer")
  /\ is_dir (world Sample.stamped_zero.2) ["out"; "langtrace_20250703_115949"]
     = true
  /\ files (world Sample.stamped_zero.2)
       !! ["out"; "langtrace_20250703_115949"; "__init__.py"]
     = Some (init_content +:+ LANGTRACE_SAMPLER_TEMPLATE)
  /\ created_files (self Sample.stamped_zero.2)
     = [["out"; "langtrace_20250703_115949"; "__init__.py"]]
  /\ dirs (world Sample.stamped) = ∅
  /\ files (world Sample.stamped) = ∅.
Proof.
  destruct (nonpositive_count_outcome 0 true "langtrace_sampler"
              Sample.stamped ltac:(lia)) as (e & s' & H & Hcase).
  assert (Hv : Sample.stamped_zero.1
               = Raise (ValueError "Count must be a positive integer"))
    by (vm_compute; reflexivity).
  unfold Sample.stamped_zero in *. rewrite H in *. cbn [fst snd] in *.
  injection Hv as ->.
  destruct Hcase as [(op & q & Hq)|(_ & Hdir & Hc & Hf)]; [discriminate|].
  split; [reflexivity|]. split; [exact Hdir|]. split; [now apply Hf|].
  split; [exact Hc|]. split; reflexivity.
Qed.

(** ** Cleanup: the recorded files *)

Lemma remove_created_file_eq (p : Path) (s : State) :
  remove_created_file p s = (Return tt, set_world s (unlink_effect p (world s))).
Proof.
  destruct s as [g w].
  unfold remove_created_file, try_except_OSError, bind, ask, sys, unlink,
    logger_info, logger_error, ret, unlink_effect, set_world.
  cbn [self world]. destruct (path_exists w p); [|reflexivity].
  cbn [self world].
  destruct (is_file w p && negb (refuses w OpUnlink p)); reflexivity.
Qed.

Lemma for_each_remove (l : list Path) (s : State) :
  for_each l remove_created_file s
  = (Return tt, set_world s (unlink_all l (world s))).
Proof.
  revert s. induction l as [|p l IH]; intros s.
  - now destruct s.
  - cbn [for_each]. unfold bind. rewrite remove_created_file_eq, IH.
    reflexivity.
Qed.

Lemma unlink_effect_frame (p : Path) (w : World) :
  dirs (unlink_effect p w) = dirs w
  /\ refuses (unlink_effect p w) = refuses w
  /\ log w `prefix_of` log (unlink_effect p w).
Proof.
  unfold unlink_effect. destruct (path_exists w p); [|done].
  destruct (is_file w p && negb (refuses w OpUnlink p)); cbn;
    (split; [done|split; [done|now apply prefix_app_r]]).
Qed.

Lemma unlink_all_frame (l : list Path) (w : World) :
  dirs (unlink_all l w) = dirs w
  /\ refuses (unlink_all l w) = refuses w
  /\ log w `prefix_of` log (unlink_all l w).
Proof.
  revert w. induction l as [|p l IH]; intros w; [done|].
  cbn [unlink_all foldl]. fold (unlink_all l (unlink_effect p w)).
  destruct (IH (unlink_effect p w)) as (Hd & Hr & Hl).
  destruct (unlink_effect_frame p w) as (Hd' & Hr' & Hl').
  split; [congruence|]. split; [congruence|].
  etrans; [exact Hl'|exact Hl].
Qed.

Lemma is_file_lookup (w : World) (p : Path) :
  is_file w p = false -> files w !! p = None.
Proof.
  unfold is_file. intros H%bool_decide_eq_false.
  destruct (files w !! p) eqn:E; [|reflexivity].
  exfalso. apply H. now eexists.
Qed.

Lemma files_unlink_effect (p : Path) (w : World) (q : Path) :
  files (unlink_effect p w) !! q =
    if bool_decide (q = p) && negb (refuses w OpUnlink q) then None
    else files w !! q.
Proof.
  unfold unlink_effect.
  destruct (decide (q = p)) as [->|Hne].
  - rewrite bool_decide_eq_true_2 by done. cbn [andb].
    destruct (path_exists w p) eqn:Ex.
    + destruct (is_file w p) eqn:Ef; cbn [andb].
      * destruct (refuses w OpUnlink p); cbn; [reflexivity|].
        apply lookup_delete_eq.
      * cbn. rewrite (is_file_lookup w p Ef).
        now destruct (negb (refuses w OpUnlink p)).
    + unfold path_exists in Ex. apply orb_false_iff in Ex as [Ef _].
      rewrite (is_file_lookup w p Ef).
      now destruct (negb (refuses w OpUnlink p)).
  - rewrite bool_decide_eq_false_2 by done. cbn [andb].
    destruct (path_exists w p); [|reflexivity].
    destruct (is_file w p && negb (refuses w OpUnlink p)); cbn;
      [|reflexivity].
    now apply lookup_delete_ne.
Qed.

(** After the loop a recorded path whose removal is not refused is no
    file any more, and every other path is as it was. *)
Lemma files_unlink_all (l : list Path) (w : World) (q : Path) :
  files (unlink_all l w) !! q =
    if bool_decide (q ∈ l) && negb (refuses w OpUnlink q) then None
    else files w !! q.
Proof.
  revert w. induction l as [|p l IH]; intros w.
  - cbn. now rewrite bool_decide_eq_false_2 by set_solver.
  - cbn [unlink_all foldl]. fold (unlink_all l (unlink_effect p w)).
    rewrite IH. destruct (unlink_effect_frame p w) as (_ & -> & _).
    rewrite files_unlink_effect.
    destruct (refuses w OpUnlink q); cbn [negb]; rewrite ?andb_false_r;
      [reflexivity|].
    rewrite !andb_true_r.
    destruct (decide (q ∈ l)) as [Hin|Hin].
    + now rewrite !bool_decide_eq_true_2 by set_solver.
    + rewrite (bool_decide_eq_false_2 _ Hin).
      destruct (decide (q = p)) as [->|Hne].
      * now rewrite !bool_decide_eq_true_2 by set_solver.
      * now rewrite !bool_decide_eq_false_2 by set_solver.
Qed.

Lemma is_file_unlink_effect_kept (q p : Path) (w : World) :
  is_file w p = false \/ refuses w OpUnlink p = true \/ p <> q ->
  is_file (unlink_effect q w) p = is_file w p.
Proof.
  intros H. unfold is_file at 1. rewrite files_unlink_effect.
  destruct (decide (p = q)) as [->|Hne].
  - rewrite (bool_decide_eq_true_2 (q = q)) by done. cbn [andb].
    destruct H as [H|[H|H]]; [|now rewrite H|done].
    rewrite (is_file_lookup w q H). rewrite H.
    destruct (negb (refuses w OpUnlink q)); apply bool_decide_eq_false_2;
      now intros [? ?].
  - now rewrite (bool_decide_eq_false_2 (p = q)) by done.
Qed.

Lemma is_dir_unlink_effect (q p : Path) (w : World) :
  is_dir (unlink_effect q w) p = is_dir w p.
Proof.
  unfold is_dir. now destruct (unlink_effect_frame q w) as (-> & _).
Qed.

Lemma path_exists_unlink_effect_mono (q p : Path) (w : World) :
  path_exists (unlink_effect q w) p = true -> path_exists w p = true.
Proof.
  unfold path_exists. rewrite is_dir_unlink_effect.
  intros [H|H]%orb_true_iff; apply orb_true_iff; [left|now right].
  unfold is_file in *. apply bool_decide_eq_true in H.
  apply bool_decide_eq_true. rewrite files_unlink_effect in H.
  destruct (_ && _); [now destruct H|exact H].
Qed.

(** A recorded path that is there and cannot be unlinked, because it is a
    directory or the removal is refused, leaves an error in the log. *)
Lemma unlink_all_logs_failure (l : list Path) (w : World) (p : Path) :
  p ∈ l -> path_exists w p = true ->
  is_file w p = false \/ refuses w OpUnlink p = true ->
  (ERROR, FailedRemoveFile p (OSError OpUnlink p)) ∈ log (unlink_all l w).
Proof.
  revert w. induction l as [|q l IH]; intros w Hin Hex Hfail; [set_solver|].
  cbn [unlink_all foldl]. fold (unlink_all l (unlink_effect q w)).
  destruct (decide (p = q)) as [->|Hne].
  - destruct (unlink_all_frame l (unlink_effect q w)) as (_ & _ & Hl).
    eapply elem_of_prefix; [|exact Hl].
    unfold unlink_effect. rewrite Hex.
    assert (E : is_file w q && negb (refuses w OpUnlink q) = false).
    { destruct Hfail as [->| ->]; [reflexivity|apply andb_false_r]. }
    rewrite E. cbn. set_solver.
  - apply elem_of_cons in Hin as [?|Hin]; [done|].
    destruct (unlink_effect_frame q w) as (_ & Hr & _).
    apply IH; [exact Hin| |].
    + unfold path_exists in *. rewrite is_dir_unlink_effect.
      rewrite is_file_unlink_effect_kept; [exact Hex|tauto].
    + rewrite Hr. rewrite is_file_unlink_effect_kept by tauto. exact Hfail.
Qed.

(** The loop logs about paths that were there when [cleanup] began, and
    about no other path. *)
Lemma unlink_all_log_inv (l : list Path) (w : World) (x : Level * Msg) :
  x ∈ log (unlink_all l w) ->
  x ∈ log w
  \/ exists q, q ∈ l /\ path_exists w q = true
       /\ (x = (INFO, RemovedFile q)
           \/ x = (ERROR, FailedRemoveFile q (OSError OpUnlink q))).
Proof.
  revert w. induction l as [|q0 l IH]; intros w Hx; [now left|].
  cbn [unlink_all foldl] in Hx. fold (unlink_all l (unlink_effect q0 w)) in Hx.
  apply IH in Hx as [Hx|(q & Hq & Hex & Hcase)].
  - unfold unlink_effect in Hx. destruct (path_exists w q0) eqn:E; [|now left].
    destruct (is_file w q0 && negb (refuses w OpUnlink q0)); cbn in Hx;
      apply elem_of_app in Hx as [Hx|Hx%list_elem_of_singleton];
      try (now left); right; exists q0; (split; [set_solver|]);
      (split; [exact E|]); [now left|now right].
  - right. exists q. split; [set_solver|]. split; [|exact Hcase].
    now apply (path_exists_unlink_effect_mono q0).
Qed.

(** ** Cleanup: the directories *)

Lemma dir_exists_and_empty_eq (d : Path) (s : State) :
  dir_exists_and_empty d s =
    if path_exists (world s) d then
      if is_dir (world s) d && negb (refuses (world s) OpIterdir d)
      then (Return (negb (has_entry (world s) d)), s)
      else (Raise (OSError OpIterdir d), s)
    else (Return false, s).
Proof.
  destruct s as [g w].
  unfold dir_exists_and_empty, and_then, bind, ask, sys, any_iterdir, ret.
  cbn [self world]. destruct (path_exists w d); [|reflexivity].
  cbn [self world].
  destruct (is_dir w d && negb (refuses w OpIterdir d)); reflexivity.
Qed.

Lemma removable_is_dir (w : World) (d : Path) :
  bool_decide (d ∈ dirs w) = true ->
  path_exists w d = true /\ is_dir w d = true.
Proof.
  intros H. unfold path_exists, is_dir. rewrite H.
  now rewrite !orb_true_r.
Qed.

(** The guard of [cleanup] around one directory: the rest runs, on the
    world without the directory, exactly when the directory is
    [removable]; otherwise nothing changes, and the guard returns or
    raises an [OSError]. *)
Lemma guarded_rmdir (d : Path) (k : M unit) (s : State) :
  (removable (world s) d = true
   /\ (empty <- dir_exists_and_empty d ;;
       if empty then sys (rmdir d) ;; k else ret tt) s
      = k (set_world s (without_dir d (world s))))
  \/ (removable (world s) d = false
      /\ ((empty <- dir_exists_and_empty d ;;
           if empty then sys (rmdir d) ;; k else ret tt) s = (Return tt, s)
          \/ exists op,
               (empty <- dir_exists_and_empty d ;;
                if empty then sys (rmdir d) ;; k else ret tt) s
               = (Raise (OSError op d), s))).
Proof.
  unfold bind at 1 3 5. rewrite dir_exists_and_empty_eq.
  unfold removable. destruct s as [g w]. cbn [self world].
  destruct (bool_decide (d ∈ dirs w)) eqn:Ed.
  - destruct (removable_is_dir w d Ed) as [-> ->]. cbn [andb].
    destruct (refuses w OpIterdir d); cbn [negb andb];
      [right; split; [reflexivity|right; now eexists]|].
    destruct (has_entry w d) eqn:Ee; cbn [negb andb];
      [right; split; [reflexivity|now left]|].
    unfold bind, sys, rmdir. cbn [self world]. rewrite Ed, Ee. cbn [negb andb].
    destruct (refuses w OpRmdir d); cbn [negb];
      [right; split; [reflexivity|right; now eexists]|].
    left. split; reflexivity.
  - right. split; [reflexivity|].
    destruct (path_exists w d); [|now left].
    destruct (is_dir w d && negb (refuses w OpIterdir d));
      [|right; now eexists].
    destruct (has_entry w d) eqn:Ee; cbn [negb]; [now left|].
    right. exists OpRmdir. unfold bind, sys, rmdir. cbn [self world].
    now rewrite Ed.
Qed.

(** The second half of [cleanup] in closed form: it returns, leaves the
    files alone, removes the directories [dirs_after_cleanup] says, and
    logs about directories only. *)
Lemma remove_empty_directories_eq (s : State) :
  exists w',
    remove_empty_directories s = (Return tt, set_world s w')
    /\ files w' = files (world s)
    /\ refuses w' = refuses (world s)
    /\ dirs w' = dirs_after_cleanup (self s) (world s)
    /\ log (world s) `prefix_of` log w'
    /\ (forall x, x ∈ log w' -> x ∈ log (world s) \/ about_directories x).
Proof.
  unfold remove_empty_directories.
  rewrite (bind_return (gets output_dir) _ s s _ eq_refl).
  rewrite (bind_return (gets base_output_dir) _ s s _ eq_refl).
  rewrite (bind_return (gets use_timestamp) _ s s _ eq_refl).
  unfold try_except_OSError, dirs_after_cleanup.
  match goal with
  | |- context [bind (dir_exists_and_empty ?d)
                  (fun empty => if empty then bind (sys (rmdir ?d)) (fun _ => ?k)
                                else ret tt) s] =>
      destruct (guarded_rmdir d k s) as [[Hr E]|[Hr [E|[op E]]]]
  end; rewrite E, Hr; clear E.
  - (* the directory goes *)
    unfold bind at 1. unfold logger_info at 1, sys at 1.
    cbn [self world set_world].
    set (s3 := {| self := self s;
                  world := emit INFO (RemovedEmptyDirectory (output_dir (self s)))
                             (without_dir (output_dir (self s)) (world s)) |}).
    destruct (use_timestamp (self s)); cbn [andb].
    + change (and_then (ret true) ?m) with m.
      match goal with
      | |- context [bind (dir_exists_and_empty ?d)
                      (fun empty => if empty then bind (sys (rmdir ?d)) (fun _ => ?k)
                                    else ret tt) s3] =>
          destruct (guarded_rmdir d k s3) as [[Hr2 E]|[Hr2 [E|[op E]]]]
      end; rewrite E; clear E;
        change (removable (world s3) (base_output_dir (self s)))
          with (removable (without_dir (output_dir (self s)) (world s))
                  (base_output_dir (self s))) in Hr2;
        rewrite Hr2.
      * eexists. split; [reflexivity|]. cbn.
        split; [done|]. split; [done|]. split; [done|]. split; [|log_cases].
        rewrite <- app_assoc. now apply prefix_app_r.
      * eexists. split; [reflexivity|]. cbn.
        split; [done|]. split; [done|]. split; [done|]. split; [|log_cases].
        now apply prefix_app_r.
      * eexists. split; [reflexivity|]. cbn.
        split; [done|]. split; [done|]. split; [done|]. split; [|log_cases].
        rewrite <- app_assoc. now apply prefix_app_r.
    + eexists. split; [reflexivity|]. cbn.
      split; [done|]. split; [done|]. split; [done|]. split; [|log_cases].
      now apply prefix_app_r.
  - exists (world s). destruct s as [g w].
    split; [done|]. split; [done|]. split; [done|]. split; [done|].
    split; [done|]. intros x Hx. now left.
  - eexists. split; [reflexivity|]. cbn.
    split; [done|]. split; [done|]. split; [done|]. split; [|log_cases].
    now apply prefix_app_r.
Qed.

(** [cleanup] in closed form: it always returns, the record is empty, the
    files are what the loop left, and the directories are what
    [dirs_after_cleanup] says. *)
Lemma cleanup_eq (s : State) :
  exists w',
    cleanup s
    = (Return tt,
       {| self := {| base_output_dir := base_output_dir (self s);
                     use_timestamp := use_timestamp (self s);
                     output_dir := output_dir (self s);
                     created_files := [] |};
          world := w' |})
    /\ files w' = files (after_file_removal s)
    /\ refuses w' = refuses (world s)
    /\ dirs w' = dirs_after_cleanup (self s) (after_file_removal s)
    /\ log (after_file_removal s) `prefix_of` log w'
    /\ (forall x, x ∈ log w' ->
          x ∈ log (after_file_removal s) \/ about_directories x).
Proof.
  unfold cleanup.
  rewrite (bind_return (gets created_files) _ s s _ eq_refl).
  unfold bind at 1. rewrite for_each_remove. fold (after_file_removal s).
  destruct (remove_empty_directories_eq (set_world s (after_file_removal s)))
    as (w' & E & Hf & Hr & Hd & Hl & Hx).
  unfold bind. rewrite E. exists w'. cbn in *.
  split; [reflexivity|]. split; [exact Hf|].
  split; [|split; [exact Hd|split; [exact Hl|exact Hx]]].
  rewrite Hr. unfold after_file_removal.
  now destruct (unlink_all_frame (created_files (self s)) (world s)) as (_ & -> & _).
Qed.

(** ** Cleanup as a whole *)

(** C7: [cleanup] always returns and leaves the record empty.  Every
    recorded path whose removal is not refused is no file afterwards,
    whatever happened to the other paths; a recorded path that is not
    there is passed over without a log record about it; a recorded path
    that is there and cannot be unlinked leaves an error record, and the
    loop goes on.  No file outside the record is touched. *)
Theorem cleanup_best_effort (s : State) :
  exists s',
    cleanup s = (Return tt, s')
    /\ created_files (self s') = []
    /\ (forall p, p ∈ created_files (self s) ->
          (refuses (world s) OpUnlink p = false ->
           is_file (world s') p = false)
          /\ (path_exists (world s) p = false ->
              files (world s') !! p = None
              /\ forall x, x ∈ log (world s') ->
                   x = (INFO, RemovedFile p)
                   \/ (exists e, x = (ERROR, FailedRemoveFile p e)) ->
                   x ∈ log (world s))
          /\ (path_exists (world s) p = true ->
              is_file (world s) p = false
              \/ refuses (world s) OpUnlink p = true ->
              (ERROR, FailedRemoveFile p (OSError OpUnlink p))
                ∈ log (world s')))
    /\ (forall q, files (world s') !! q =
          if bool_decide (q ∈ created_files (self s))
             && negb (refuses (world s) OpUnlink q)
          then None else files (world s) !! q)
    /\ log (world s) `prefix_of` log (world s').
Proof.
  destruct (cleanup_eq s) as (w' & E & Hf & Hr & Hd & Hl & Hx).
  eexists. split; [exact E|]. cbn [self world created_files].
  unfold after_file_removal in *.
  assert (Hfiles : forall q, files w' !! q =
            if bool_decide (q ∈ created_files (self s))
               && negb (refuses (world s) OpUnlink q)
            then None else files (world s) !! q).
  { intros q. rewrite Hf. apply files_unlink_all. }
  split; [reflexivity|]. split; [|split; [exact Hfiles|]].
  - intros p Hp. split; [|split].
    + intros Hok. unfold is_file. rewrite Hfiles, Hok.
      rewrite (bool_decide_eq_true_2 _ Hp). reflexivity.
    + intros Hmiss.
      assert (Hnf : is_file (world s) p = false).
      { unfold path_exists in Hmiss. now apply orb_false_iff in Hmiss. }
      split.
      * rewrite Hfiles, (is_file_lookup _ _ Hnf). now destruct (_ && _).
      * intros x Hin Hshape. apply Hx in Hin as [Hin|Hin].
        -- apply unlink_all_log_inv in Hin
             as [Hin|(q & _ & Hq & Hcase)]; [exact Hin|].
           exfalso.
           assert (q = p) as ->; [|congruence].
           destruct Hshape as [->|[e ->]], Hcase as [Hc|Hc]; congruence.
        -- exfalso. destruct Hshape as [->|[e ->]]; exact Hin.
    + intros Hex Hfail. eapply elem_of_prefix; [|exact Hl].
      now apply unlink_all_logs_failure.
  - etrans; [|exact Hl].
    now destruct (unlink_all_frame (created_files (self s)) (world s))
      as (_ & _ & ?).
Qed.

Example cleanup_goes_on_after_failure :
  (cleanup Sample.stubborn).1 = Return tt
  /\ created_files (self (cleanup Sample.stubborn).2) = []
  /\ map fst (map_to_list (files (world (cleanup Sample.stubborn).2)))
     = [["out"; "langtrace_20250703_115949"; "langtrace_sampler_2.py"]]
  /\ log (world (cleanup Sample.stubborn).2)
     = [(INFO, RemovedFile
                 ["out"; "langtrace_20250703_115949"; "__init__.py"]);
        (INFO, RemovedFile
                 ["out"; "langtrace_20250703_115949"; "langtrace_sampler_1.py"]);
        (ERROR, FailedRemoveFile
                  ["out"; "langtrace_20250703_115949"; "langtrace_sampler_2.py"]
                  (OSError OpUnlink
                     ["out"; "langtrace_20250703_115949";
                      "langtrace_sampler_2.py"]));
        (INFO, RemovedFile
                 ["out"; "langtrace_20250703_115949"; "langtrace_sampler_3.py"])].
Proof. vm_compute. repeat split; reflexivity. Qed.

Lemma removable_true (w : World) (d : Path) :
  removable w d = true <->
  d ∈ dirs w /\ refuses w OpIterdir d = false
  /\ has_entry w d = false /\ refuses w OpRmdir d = false.
Proof.
  unfold removable. rewrite !andb_true_iff, !negb_true_iff.
  rewrite bool_decide_eq_true. tauto.
Qed.

Lemma has_entry_mono (w w' : World) (d : Path) :
  files w' = files w -> dirs w' ⊆ dirs w ->
  has_entry w d = false -> has_entry w' d = false.
Proof.
  unfold has_entry. intros Hf Hd Hno%bool_decide_eq_false.
  apply bool_decide_eq_false. intros (q & Hq & HP). apply Hno.
  exists q. split; [|exact HP]. rewrite Hf in Hq. set_solver.
Qed.

(** C8, as amended: after the loop over the record, [cleanup] removes the
    output directory exactly when it is a directory with no entry left
    that the system lets it list and remove; a directory it removes has
    no entry; besides the output directory it removes at most the base
    directory, as a distinct ancestor: only with timestamps in use, only
    after the output directory went, and only when the base directory is
    then without entry and the system lets it be listed and removed;
    with timestamps off nothing but the output directory is removed.
    Where the system lets the output directory be listed and removed,
    the removal is as the specification words it. *)
Theorem cleanup_directories (s : State) :
  let out := output_dir (self s) in
  let base := base_output_dir (self s) in
  let w1 := after_file_removal s in
  let w' := world (cleanup s).2 in
  dirs w' = dirs_after_cleanup (self s) w1
  /\ dirs w1 = dirs (world s)
  /\ files w' = files w1
  /\ (out ∈ dirs w1 ->
      (out ∉ dirs w' <->
       has_entry w1 out = false /\ refuses w1 OpIterdir out = false
       /\ refuses w1 OpRmdir out = false))
  /\ (forall d, d ∈ dirs w1 -> d ∉ dirs w' ->
        has_entry w' d = false
        /\ (d = out
            \/ (d = base /\ use_timestamp (self s) = true /\ out ∉ dirs w')))
  /\ (base <> out -> base ∈ dirs w1 ->
      (base ∉ dirs w' <->
       use_timestamp (self s) = true /\ removable w1 out = true
       /\ removable (without_dir out w1) base = true))
  /\ (use_timestamp (self s) = false ->
      forall d, d ∈ dirs w1 -> d ∉ dirs w' -> d = out)
  /\ (refuses w1 OpIterdir out = false -> refuses w1 OpRmdir out = false ->
      removal_as_worded s).
Proof.
  intros out base w1 w'.
  enough (Hmain :
    dirs w' = dirs_after_cleanup (self s) w1
    /\ dirs w1 = dirs (world s)
    /\ files w' = files w1
    /\ (out ∈ dirs w1 ->
        (out ∉ dirs w' <->
         has_entry w1 out = false /\ refuses w1 OpIterdir out = false
         /\ refuses w1 OpRmdir out = false))
    /\ (forall d, d ∈ dirs w1 -> d ∉ dirs w' ->
          has_entry w' d = false
          /\ (d = out
              \/ (d = base /\ use_timestamp (self s) = true /\ out ∉ dirs w')))
    /\ (base <> out -> base ∈ dirs w1 ->
        (base ∉ dirs w' <->
         use_timestamp (self s) = true /\ removable w1 out = true
         /\ removable (without_dir out w1) base = true))
    /\ (use_timestamp (self s) = false ->
        forall d, d ∈ dirs w1 -> d ∉ dirs w' -> d = out)).
  { destruct Hmain as (H1 & H2 & H3 & H4 & H5 & H6 & H7).
    split; [exact H1|]. split; [exact H2|]. split; [exact H3|].
    split; [exact H4|]. split; [exact H5|]. split; [exact H6|].
    split; [exact H7|].
    intros Hi Hr. unfold removal_as_worded.
    fold out base w1 w'. split; [|split; [|split]].
    - intros Ho. rewrite (H4 Ho). split; [now intros (? & _)|].
      intros He. now split.
    - intros d Hd Hnd. now destruct (H5 d Hd Hnd).
    - intros Hne Hb Hnb. destruct (H5 base Hb Hnb) as [He [Heq|(_ & Hts & _)]];
        [contradiction|]. now split.
    - exact H7. }
  destruct (cleanup_eq s) as (w0 & E & Hf & _ & Hd & _).
  assert (Hw : w' = w0) by (unfold w'; now rewrite E).
  rewrite Hw. clear Hw w' E. fold w1 in Hf, Hd.
  split; [exact Hd|]. split.
  { unfold w1, after_file_removal.
    now destruct (unlink_all_frame (created_files (self s)) (world s)) as (? & _). }
  split; [exact Hf|].
  unfold dirs_after_cleanup in Hd. fold out base in Hd.
  destruct (removable w1 out) eqn:R1.
  - pose proof (proj1 (removable_true w1 out) R1) as (Ho & Hi & He & Hr).
    destruct (use_timestamp (self s)) eqn:Ets; cbn [andb] in Hd;
      [destruct (removable (without_dir out w1) base) eqn:R2|].
    + pose proof (proj1 (removable_true _ base) R2) as (Hb & _ & Heb & _).
      cbn in Hb.
      split; [intros _; split; [done|rewrite Hd; set_solver]|].
      split; [|split; [|discriminate]].
      * intros d Hin Hout. rewrite Hd in Hout.
        assert (d = out \/ d = base) as [->| ->].
        { destruct (decide (d = out)); [now left|right].
          destruct (decide (d = base)); [done|]. set_solver. }
        -- split; [|now left].
           apply (has_entry_mono w1); [exact Hf|rewrite Hd; set_solver|exact He].
        -- split; [|right; rewrite Hd; split; [done|split; [done|set_solver]]].
           apply (has_entry_mono (without_dir out w1));
             [exact Hf|rewrite Hd; cbn; set_solver|exact Heb].
      * intros _ _. split; [done|]. rewrite Hd. set_solver.
    + split; [intros _; split; [done|rewrite Hd; set_solver]|].
      split; [|split; [|discriminate]].
      * intros d Hin Hout. rewrite Hd in Hout.
        assert (d = out) as ->
          by (destruct (decide (d = out)); [done|set_solver]).
        split; [|now left].
        apply (has_entry_mono w1); [exact Hf|rewrite Hd; set_solver|exact He].
      * intros Hne Hb. split; [|now intros (_ & _ & ?)].
        rewrite Hd. set_solver.
    + split; [intros _; split; [done|rewrite Hd; set_solver]|].
      split; [|split].
      * intros d Hin Hout. rewrite Hd in Hout.
        assert (d = out) as ->
          by (destruct (decide (d = out)); [done|set_solver]).
        split; [|now left].
        apply (has_entry_mono w1); [exact Hf|rewrite Hd; set_solver|exact He].
      * intros Hne Hb. split; [|now intros (? & _)].
        rewrite Hd. set_solver.
      * intros _ d Hin Hout. rewrite Hd in Hout.
        destruct (decide (d = out)); [done|set_solver].
  - split.
    { intros Ho. rewrite Hd. split; [done|]. intros (He & Hi & Hr).
      exfalso. assert (removable w1 out = true); [|congruence].
      now apply removable_true. }
    split; [intros d Hin Hout; now rewrite Hd in Hout|].
    split; [|intros _ d Hin Hout; now rewrite Hd in Hout].
    intros Hne Hb. rewrite Hd. split; [done|]. now intros (_ & ? & _).
Qed.

(** C8 as worded fails where the system refuses: the output directory is
    a directory without entry after the files are gone, the system
    refuses to remove it (or to list it), [cleanup] logs the failure and
    returns, and the directory is still there. *)
Lemma removal_as_worded_counterexample :
  ~ removal_as_worded Sample.locked
  /\ ~ removal_as_worded Sample.unlistable
  /\ cleanup Sample.locked
     = (Return tt,
        set_world Sample.locked
          (emit ERROR (FailedRemoveDirectory (OSError OpRmdir ["out"]))
                (world Sample.locked)))
  /\ cleanup Sample.unlistable
     = (Return tt,
        set_world Sample.unlistable
          (emit ERROR (FailedRemoveDirectory (OSError OpIterdir ["out"]))
                (world Sample.unlistable))).
Proof.
  assert (Hin : ["out"] ∈ ({[ ["out"] ]} : gset Path)) by set_solver.
  split; [|split; [|split; vm_compute; reflexivity]].
  - intros (H & _). destruct (H Hin) as [_ Hgo].
    apply Hgo; [vm_compute; reflexivity|].
    apply (bool_decide_eq_true_1
             (["out"] ∈ dirs (world (cleanup Sample.locked).2))).
    vm_compute. reflexivity.
  - intros (H & _). destruct (H Hin) as [_ Hgo].
    apply Hgo; [vm_compute; reflexivity|].
    apply (bool_decide_eq_true_1
             (["out"] ∈ dirs (world (cleanup Sample.unlistable).2))).
    vm_compute. reflexivity.
Qed.

(** On a system that refuses nothing the same directory goes. *)
Example cleanup_removes_plain_directory :
  cleanup Sample.plain_ready
  = (Return tt,
     set_world Sample.plain_ready
       {| files := ∅; dirs := ∅; refuses := fun _ _ => false;
          log := [(INFO, RemovedEmptyDirectory ["out"])] |}).
Proof. vm_compute. reflexivity. Qed.

Example cleanup_round_trip :
  (cleanup Sample.stamped_batch.2).1 = Return tt
  /\ created_files (self (cleanup Sample.stamped_batch.2).2) = []
  /\ files (world (cleanup Sample.stamped_batch.2).2) = ∅
  /\ dirs (world (cleanup Sample.stamped_batch.2).2) = ∅.
Proof. vm_compute. repeat split; reflexivity. Qed.

(** ** The record of created files *)

Lemma appends_ret {A : Type} (a : A) : appends (ret a).
Proof. intros s. reflexivity. Qed.

Lemma appends_raise {A : Type} (e : Exn) : appends (@raise A e).
Proof. intros s. reflexivity. Qed.

Lemma appends_gets {A : Type} (f : Generator -> A) : appends (gets f).
Proof. intros s. reflexivity. Qed.

Lemma appends_ask {A : Type} (q : World -> A) : appends (ask q).
Proof. intros s. reflexivity. Qed.

Lemma appends_sys {A : Type} (op : World -> Outcome A * World) :
  appends (sys op).
Proof. intros s. unfold sys. now destruct (op (world s)). Qed.

Lemma appends_logger_info (m : Msg) : appends (logger_info m).
Proof. apply appends_sys. Qed.

Lemma appends_logger_error (m : Msg) : appends (logger_error m).
Proof. apply appends_sys. Qed.

Lemma appends_created_files_append (p : Path) :
  appends (created_files_append p).
Proof. intros s. cbn. now apply prefix_app_r. Qed.

Lemma appends_bind {A B : Type} (m : M A) (f : A -> M B) :
  appends m -> (forall a, appends (f a)) -> appends (bind m f).
Proof.
  intros Hm Hf s. unfold bind. specialize (Hm s).
  destruct (m s) as [[a|e] s1]; cbn in *; [|exact Hm].
  etrans; [exact Hm|apply Hf].
Qed.

Lemma appends_try {A : Type} (body : M A) (handler : Exn -> M A) :
  appends body -> (forall e, appends (handler e)) ->
  appends (try_except_OSError body handler).
Proof.
  intros Hb Hh s. unfold try_except_OSError. specialize (Hb s).
  destruct (body s) as [[a|[msg|op p]] s1]; cbn in *; try exact Hb.
  etrans; [exact Hb|apply Hh].
Qed.

Lemma appends_for_each {A : Type} (l : list A) (body : A -> M unit) :
  (forall x, appends (body x)) -> appends (for_each l body).
Proof.
  intros Hb. induction l as [|x l IH]; [apply appends_ret|].
  cbn [for_each]. apply appends_bind; [apply Hb|intros _; exact IH].
Qed.

Lemma appends_if {A : Type} (b : bool) (m1 m2 : M A) :
  appends m1 -> appends m2 -> appends (if b then m1 else m2).
Proof. now destruct b. Qed.

Create HintDb appends.
#[local] Hint Resolve appends_ret appends_raise appends_gets appends_ask
  appends_sys appends_logger_info appends_logger_error
  appends_created_files_append appends_bind appends_try appends_for_each
  appends_if : appends.

Lemma appends_create_output_directory : appends create_output_directory.
Proof. unfold create_output_directory. auto 20 with appends. Qed.

Lemma appends_generate_file (filename : string) (add_init : bool) :
  appends (generate_file filename add_init).
Proof. unfold generate_file. cbv zeta. auto 20 with appends. Qed.

#[local] Hint Resolve appends_create_output_directory appends_generate_file
  : appends.

Lemma appends_generate_data_file (filename : string) :
  appends (generate_data_file filename).
Proof. unfold generate_data_file. auto with appends. Qed.

#[local] Hint Resolve appends_generate_data_file : appends.

Lemma appends_generate_files_by_count (count : Z) (base_filename : string) :
  appends (_generate_files_by_count count base_filename).
Proof. unfold _generate_files_by_count. cbv zeta. auto 10 with appends. Qed.

Lemma appends_generate_files_by_names (filenames : list string) :
  appends (_generate_files_by_names filenames).
Proof. unfold _generate_files_by_names. auto 10 with appends. Qed.

#[local] Hint Resolve appends_generate_files_by_count
  appends_generate_files_by_names : appends.



(** * Further properties of the generator *)

(** ** Relations every call respects *)

Section Respects.
Context (R : State -> State -> Prop) `{!Reflexive R} `{!Transitive R}.

Lemma respects_ret {A : Type} (a : A) : respects R (ret a).
Proof. intros s. cbn. reflexivity. Qed.

Lemma respects_raise {A : Type} (e : Exn) : respects R (@raise A e).
Proof. intros s. cbn. reflexivity. Qed.

Lemma respects_gets {A : Type} (f : Generator -> A) : respects R (gets f).
Proof. intros s. cbn. reflexivity. Qed.

Lemma respects_ask {A : Type} (q : World -> A) : respects R (ask q).
Proof. intros s. cbn. reflexivity. Qed.

Lemma respects_bind {A B : Type} (m : M A) (f : A -> M B) :
  respects R m -> (forall a, respects R (f a)) -> respects R (bind m f).
Proof.
  intros Hm Hf s. unfold bind. specialize (Hm s).
  destruct (m s) as [[a|e] s1]; cbn in *; [|exact Hm].
  etrans; [exact Hm|apply Hf].
Qed.

Lemma respects_try {A : Type} (body : M A) (handler : Exn -> M A) :
  respects R body -> (forall e, respects R (handler e)) ->
  respects R (try_except_OSError body handler).
Proof.
  intros Hb Hh s. unfold try_except_OSError. specialize (Hb s).
  destruct (body s) as [[a|[msg|op p]] s1]; cbn in *; try exact Hb.
  etrans; [exact Hb|apply Hh].
Qed.

Lemma respects_for_each {A : Type} (l : list A) (body : A -> M unit) :
  (forall x, respects R (body x)) -> respects R (for_each l body).
Proof.
  intros Hb. induction l as [|x l IH]; [apply respects_ret|].
  cbn [for_each]. apply respects_bind; [apply Hb|intros _; exact IH].
Qed.

Lemma respects_if {A : Type} (b : bool) (m1 m2 : M A) :
  respects R m1 -> respects R m2 -> respects R (if b then m1 else m2).
Proof. now destruct b. Qed.

End Respects.

Create HintDb respects.
#[local] Hint Resolve respects_ret respects_raise respects_gets respects_ask
  respects_bind respects_try respects_for_each respects_if : respects.

(** *** The settings of the object *)

#[local] Instance same_object_refl : Reflexive same_object.
Proof. intros s. now unfold same_object. Qed.

#[local] Instance same_object_trans : Transitive same_object.
Proof. intros s1 s2 s3. unfold same_object. intuition congruence. Qed.

Lemma same_object_sys {A : Type} (op : World -> Outcome A * World) :
  respects same_object (sys op).
Proof. intros s. unfold sys. now destruct (op (world s)). Qed.

Lemma same_object_append (p : Path) :
  respects same_object (created_files_append p).
Proof. intros s. now unfold same_object. Qed.

Lemma same_object_clear : respects same_object created_files_clear.
Proof. intros s. now unfold same_object. Qed.

#[local] Hint Resolve same_object_sys same_object_append same_object_clear
  : respects.
#[local] Hint Unfold logger_info logger_error and_then dir_exists_and_empty
  generate_data_file : respects.

Lemma same_object_create_output_directory :
  respects same_object create_output_directory.
Proof.
  unfold create_output_directory.
  eauto 20 with respects typeclass_instances.
Qed.

Lemma same_object_generate_file (filename : string) (add_init : bool) :
  respects same_object (generate_file filename add_init).
Proof. unfold generate_file. cbv zeta. eauto 20 with respects typeclass_instances. Qed.

#[local] Hint Resolve same_object_create_output_directory
  same_object_generate_file : respects.

Lemma same_object_generate_multiple_files (filenames : option (list string))
    (count : option Z) (create_init : bool) (base_filename : string) :
  respects same_object
    (generate_multiple_files filenames count create_init base_filename).
Proof.
  unfold generate_multiple_files, _generate_files_by_count,
    _generate_files_by_names.
  destruct count; cbv zeta; eauto 30 with respects typeclass_instances.
Qed.

Lemma same_object_cleanup : respects same_object cleanup.
Proof.
  unfold cleanup, remove_created_file, remove_empty_directories.
  eauto 40 with respects typeclass_instances.
Qed.

(** X1: no method changes where the generator writes: after a batch
    (whatever its outcome), a single write, making the directory or
    cleanup, the base directory, the timestamp switch and the output
    directory are what they were, so [get_output_dir] returns the same
    path for the life of the object. *)
Theorem output_dir_immutable (s : State) :
  get_output_dir s = (Return (output_dir (self s)), s)
  /\ (forall filenames count create_init base,
        same_object s
          (generate_multiple_files filenames count create_init base s).2
        /\ (get_output_dir
              (generate_multiple_files filenames count create_init base s).2).1
           = (get_output_dir s).1)
  /\ (forall filename add_init,
        same_object s (generate_file filename add_init s).2
        /\ (get_output_dir (generate_file filename add_init s).2).1
           = (get_output_dir s).1)
  /\ (same_object s (create_output_directory s).2
      /\ (get_output_dir (create_output_directory s).2).1
         = (get_output_dir s).1)
  /\ (same_object s (cleanup s).2
      /\ (get_output_dir (cleanup s).2).1 = (get_output_dir s).1).
Proof.
  assert (Hget : forall s', same_object s s' ->
            same_object s s'
            /\ (get_output_dir s').1 = (get_output_dir s).1).
  { intros s' H. split; [exact H|]. destruct H as (_ & _ & H).
    cbn. now rewrite H. }
  split; [reflexivity|]. split; [|split; [|split]].
  - intros. apply Hget, same_object_generate_multiple_files.
  - intros. apply Hget, same_object_generate_file.
  - apply Hget, same_object_create_output_directory.
  - apply Hget, same_object_cleanup.
Qed.

(** *** Nothing is lost while generating *)

#[local] Instance nothing_lost_refl : Reflexive nothing_lost.
Proof. intros s. now unfold nothing_lost. Qed.

#[local] Instance nothing_lost_trans : Transitive nothing_lost.
Proof.
  intros s1 s2 s3 (Hd & Hf & Hr) (Hd' & Hf' & Hr'). unfold nothing_lost.
  split; [set_solver|]. split; [set_solver|congruence].
Qed.

Lemma nothing_lost_emit (lvl : Level) (m : Msg) :
  respects nothing_lost (sys (fun w => (Return tt, emit lvl m w))).
Proof. intros s. now unfold nothing_lost. Qed.

Lemma nothing_lost_mkdir (p : Path) :
  respects nothing_lost (sys (mkdir_parents_exist_ok p)).
Proof.
  intros s. unfold sys, mkdir_parents_exist_ok.
  pose proof (mkdir_chain_frame (ancestors_and_self p) (world s))
    as (Hf & Hr & _ & Hd).
  destruct (mkdir_chain _ _) as [r w']. cbn in *. unfold nothing_lost. cbn.
  split; [exact Hd|]. split; [now rewrite Hf|exact Hr].
Qed.

Lemma nothing_lost_open_write (p : Path) (content : string) :
  respects nothing_lost (sys (open_write p content)).
Proof.
  intros s. unfold sys. rewrite open_write_eq.
  destruct (writable (world s) p); [|destruct (negb _ || _ || _)];
    cbn; unfold nothing_lost; cbn;
    (split; [done|split; [|done]]); try done;
    rewrite dom_insert_L; set_solver.
Qed.

Lemma nothing_lost_append (p : Path) :
  respects nothing_lost (created_files_append p).
Proof. intros s. now unfold nothing_lost. Qed.

#[local] Hint Resolve nothing_lost_emit nothing_lost_mkdir
  nothing_lost_open_write nothing_lost_append : respects.

Lemma nothing_lost_generate_file (filename : string) (add_init : bool) :
  respects nothing_lost (generate_file filename add_init).
Proof.
  unfold generate_file, logger_info, logger_error. cbv zeta.
  eauto 20 with respects typeclass_instances.
Qed.

Lemma nothing_lost_create_output_directory :
  respects nothing_lost create_output_directory.
Proof.
  unfold create_output_directory, logger_info, logger_error.
  eauto 20 with respects typeclass_instances.
Qed.

#[local] Hint Resolve nothing_lost_generate_file
  nothing_lost_create_output_directory : respects.

Lemma nothing_lost_generate_multiple_files
    (filenames : option (list string)) (count : option Z)
    (create_init : bool) (base_filename : string) :
  respects nothing_lost
    (generate_multiple_files filenames count create_init base_filename).
Proof.
  unfold generate_multiple_files, _generate_files_by_count,
    _generate_files_by_names, generate_data_file, logger_info.
  destruct count; cbv zeta; eauto 30 with respects typeclass_instances.
Qed.

Lemma is_file_dom (w : World) (p : Path) :
  is_file w p = true <-> p ∈ dom (files w).
Proof. unfold is_file. now rewrite bool_decide_eq_true, elem_of_dom. Qed.

(** X2: generating never deletes.  Whatever a batch or a single write
    does, and whether it returns or raises, every directory that was
    there is still a directory and every file that was there is still a
    file (its content may have been overwritten). *)
Theorem generation_never_removes (s : State) :
  (forall filenames count create_init base d q,
     let s' :=
       (generate_multiple_files filenames count create_init base s).2 in
     (is_dir (world s) d = true -> is_dir (world s') d = true)
     /\ (is_file (world s) q = true -> is_file (world s') q = true))
  /\ (forall filename add_init q,
        let s' := (generate_file filename add_init s).2 in
        dirs (world s') = dirs (world s)
        /\ (is_file (world s) q = true -> is_file (world s') q = true)).
Proof.
  split.
  - intros filenames count create_init base d q s'.
    destruct (nothing_lost_generate_multiple_files filenames count
                create_init base s) as (Hd & Hf & _).
    fold s' in Hd, Hf. split.
    + now apply is_dir_mono.
    + rewrite !is_file_dom. set_solver.
  - intros filename add_init q s'.
    destruct (nothing_lost_generate_file filename add_init s) as (_ & Hf & _).
    fold s' in Hf. split.
    + unfold s'. rewrite generate_file_eq. cbv zeta. rewrite open_write_eq.
      destruct (writable (world s) _); [|destruct (negb _ || _ || _)];
        reflexivity.
    + rewrite !is_file_dom. set_solver.
Qed.

(** ** Which errors a call can raise *)

Lemma os_errors_only_ret {A : Type} (a : A) : os_errors_only (ret a).
Proof. intros s e H. discriminate. Qed.

Lemma os_errors_only_gets {A : Type} (f : Generator -> A) :
  os_errors_only (gets f).
Proof. intros s e H. discriminate. Qed.

Lemma os_errors_only_ask {A : Type} (q : World -> A) : os_errors_only (ask q).
Proof. intros s e H. discriminate. Qed.

Lemma os_errors_only_raise {A : Type} (op : OsOp) (p : Path) :
  os_errors_only (@raise A (OSError op p)).
Proof. intros s e H. injection H as <-. now eexists _, _. Qed.

Lemma os_errors_only_append (p : Path) : os_errors_only (created_files_append p).
Proof. intros s e H. discriminate. Qed.

Lemma os_errors_only_call {A : Type} (op : World -> Outcome A * World) :
  os_errors_only_sys op -> os_errors_only (sys op).
Proof.
  intros Hop s e H. apply (Hop (world s)). unfold sys in H.
  now destruct (op (world s)).
Qed.

Lemma os_errors_only_bind {A B : Type} (m : M A) (f : A -> M B) :
  os_errors_only m -> (forall a, os_errors_only (f a)) ->
  os_errors_only (bind m f).
Proof.
  intros Hm Hf s e H. unfold bind in H. specialize (Hm s).
  destruct (m s) as [[a|e0] s1]; cbn in *.
  - now apply (Hf a s1).
  - injection H as <-. now apply Hm.
Qed.

Lemma os_errors_only_try {A : Type} (body : M A) (handler : Exn -> M A) :
  os_errors_only body -> (forall op p, os_errors_only (handler (OSError op p))) ->
  os_errors_only (try_except_OSError body handler).
Proof.
  intros Hb Hh s e H. unfold try_except_OSError in H. specialize (Hb s).
  destruct (body s) as [[a|[msg|op p]] s1]; cbn in *.
  - discriminate.
  - destruct (Hb _ eq_refl) as (? & ? & ?). discriminate.
  - now apply (Hh op p s1).
Qed.

Lemma os_errors_only_for_each {A : Type} (l : list A) (body : A -> M unit) :
  (forall x, os_errors_only (body x)) -> os_errors_only (for_each l body).
Proof.
  intros Hb. induction l as [|x l IH]; [apply os_errors_only_ret|].
  cbn [for_each]. apply os_errors_only_bind; [apply Hb|intros _; exact IH].
Qed.

Lemma os_errors_only_if {A : Type} (b : bool) (m1 m2 : M A) :
  os_errors_only m1 -> os_errors_only m2 ->
  os_errors_only (if b then m1 else m2).
Proof. now destruct b. Qed.

Lemma os_errors_only_emit (lvl : Level) (m : Msg) :
  os_errors_only_sys (fun w => (Return tt, emit lvl m w)).
Proof. intros w e H. discriminate. Qed.

Lemma os_errors_only_mkdir (p : Path) :
  os_errors_only_sys (mkdir_parents_exist_ok p).
Proof.
  intros w e H. unfold mkdir_parents_exist_ok in H.
  destruct (mkdir_chain _ _) as [r w'] eqn:E. cbn in H. subst r.
  apply mkdir_chain_raise in E as [q ->]. now eexists _, _.
Qed.

Lemma os_errors_only_open_write (p : Path) (content : string) :
  os_errors_only_sys (open_write p content).
Proof.
  intros w e H. rewrite open_write_eq in H.
  destruct (writable w p); [discriminate|].
  destruct (negb _ || _ || _); injection H as <-; now eexists _, _.
Qed.

Create HintDb os_errors.
#[local] Hint Resolve os_errors_only_ret os_errors_only_gets
  os_errors_only_ask os_errors_only_raise os_errors_only_append
  os_errors_only_call os_errors_only_bind os_errors_only_try
  os_errors_only_for_each os_errors_only_if os_errors_only_emit
  os_errors_only_mkdir os_errors_only_open_write : os_errors.

Lemma os_errors_only_create_output_directory :
  os_errors_only create_output_directory.
Proof.
  unfold create_output_directory, logger_info, logger_error.
  auto 20 with os_errors.
Qed.

Lemma os_errors_only_generate_file (filename : string) (add_init : bool) :
  os_errors_only (generate_file filename add_init).
Proof.
  unfold generate_file, logger_info, logger_error. cbv zeta.
  auto 20 with os_errors.
Qed.

#[local] Hint Resolve os_errors_only_create_output_directory
  os_errors_only_generate_file : os_errors.

Lemma os_errors_only_generate_files_by_names (filenames : list string) :
  os_errors_only (_generate_files_by_names filenames).
Proof.
  unfold _generate_files_by_names, generate_data_file, logger_info.
  auto 20 with os_errors.
Qed.

(** Past the two checks on the arguments, a batch raises [ValueError]
    only from the check on the count. *)
Lemma batch_body_errors (filenames : option (list string)) (count : option Z)
    (create_init : bool) (base_filename : string) (s : State) (e : Exn) :
  ((create_output_directory ;;
    (if create_init then generate_file "__init__.py" true ;; ret tt
     else ret tt) ;;
    match count with
    | Some c => _generate_files_by_count c base_filename
    | None => _generate_files_by_names (default [] filenames)
    end ;;
    gets created_files) s).1 = Raise e ->
  (exists op q, e = OSError op q)
  \/ (e = ValueError "Count must be a positive integer"
      /\ exists c, count = Some c /\ (c <= 0)%Z).
Proof.
  intros H.
  destruct count as [c|].
  - destruct (c <=? 0)%Z eqn:Ec.
    + destruct ((create_output_directory ;;
                 (if create_init then generate_file "__init__.py" true ;; ret tt
                  else ret tt)) s) as [[[]|e0] s1] eqn:E1.
      * right. pose proof (proj1 (Z.leb_le _ _) Ec) as Hle.
        apply bind_inv_return in E1 as ([] & s0 & E0 & E1).
        unfold bind at 1 in H. rewrite E0 in H.
        unfold bind at 1 in H. rewrite E1 in H.
        unfold bind at 1 in H. rewrite _generate_files_by_count_eq, Ec in H.
        injection H as <-. split; [reflexivity|]. now exists c.
      * left.
        assert (Hos : os_errors_only
                  (create_output_directory ;;
                   (if create_init
                    then generate_file "__init__.py" true ;; ret tt
                    else ret tt))) by auto 20 with os_errors.
        assert (e = e0) as ->.
        { apply bind_inv_raise in E1 as [E0|([] & s0 & E0 & E1)].
          - unfold bind at 1 in H. rewrite E0 in H. now injection H.
          - unfold bind at 1 in H. rewrite E0 in H.
            unfold bind at 1 in H. rewrite E1 in H. now injection H. }
        apply (Hos s). now rewrite E1.
    + left. revert H. generalize s e.
      change (os_errors_only
        (create_output_directory ;;
         (if create_init then generate_file "__init__.py" true ;; ret tt
          else ret tt) ;;
         _generate_files_by_count c base_filename ;;
         gets created_files)).
      unfold _generate_files_by_count. rewrite Ec.
      unfold generate_data_file, logger_info. cbv zeta.
      auto 30 with os_errors.
  - left. revert H. generalize s e.
    change (os_errors_only
      (create_output_directory ;;
       (if create_init then generate_file "__init__.py" true ;; ret tt
        else ret tt) ;;
       _generate_files_by_names (default [] filenames) ;;
       gets created_files)).
    pose proof os_errors_only_generate_files_by_names.
    auto 30 with os_errors.
Qed.



(** ** Making the directory *)

Lemma mkdir_chain_all_dirs (qs : list Path) (w : World) :
  (forall q, q ∈ qs -> is_dir w q = true) ->
  mkdir_chain qs w = (Return tt, w).
Proof.
  induction qs as [|q qs IH]; intros H; [reflexivity|].
  cbn [mkdir_chain]. rewrite (H q) by set_solver.
  apply IH. intros q' Hq'. apply H. set_solver.
Qed.

Lemma mkdir_chain_new_dirs (qs : list Path) (w : World) (d : Path) :
  d ∈ dirs (mkdir_chain qs w).2 -> d ∈ dirs w \/ d ∈ qs.
Proof.
  revert w. induction qs as [|q qs IH]; intros w H; [now left|].
  cbn [mkdir_chain] in H. destruct (is_dir w q).
  - apply IH in H as [H|H]; [now left|right; set_solver].
  - destruct (is_file w q || refuses w OpMkdir q); [now left|].
    apply IH in H as [H|H]; [|right; set_solver].
    cbn in H. apply elem_of_union in H as [H|H]; [|now left].
    right. set_solver.
Qed.


(** X4: [create_output_directory] makes the directory with its parents
    and nothing else, and is idempotent: when it returns, the output
    directory and each of its ancestors is a directory, every new
    directory is one of those, no file and no record entry changed, and a
    second call returns too, leaving directories and files as they are. *)
Theorem create_output_directory_idempotent (s s1 : State) :
  create_output_directory s = (Return tt, s1) ->
  is_dir (world s1) (output_dir (self s)) = true
  /\ (forall q, q ∈ ancestors_and_self (output_dir (self s)) ->
        is_dir (world s1) q = true)
  /\ (forall d, d ∈ dirs (world s1) ->
        d ∈ dirs (world s) \/ d ∈ ancestors_and_self (output_dir (self s)))
  /\ files (world s1) = files (world s)
  /\ self s1 = self s
  /\ exists s2,
       create_output_directory s1 = (Return tt, s2)
       /\ dirs (world s2) = dirs (world s1)
       /\ files (world s2) = files (world s1)
       /\ self s2 = self s1.
Proof.
  intros H. pose proof (create_output_directory_return s s1 H) as Hdir.
  pose proof (create_output_directory_frame s) as (Hself & Hfiles & _ & _).
  rewrite H in Hself, Hfiles. cbn in Hself, Hfiles.
  rewrite create_output_directory_eq in H. cbv zeta in H.
  unfold mkdir_parents_exist_ok in H.
  destruct (mkdir_chain _ _) as [[[]|e] w'] eqn:E; [|discriminate].
  injection H as <-. cbn [world set_world self] in *.
  assert (Hall : forall q, q ∈ ancestors_and_self (output_dir (self s)) ->
            is_dir w' q = true)
    by (intros q Hq; exact (mkdir_chain_return _ _ _ E q Hq)).
  split; [exact Hdir|]. split; [exact Hall|]. split.
  { intros d Hd. apply (mkdir_chain_new_dirs _ (world s)). now rewrite E. }
  split; [exact Hfiles|]. split; [reflexivity|].
  rewrite create_output_directory_eq. cbv zeta. cbn [world set_world self].
  unfold mkdir_parents_exist_ok.
  rewrite mkdir_chain_all_dirs by exact Hall.
  eexists. split; [reflexivity|]. cbn. done.
Qed.

Lemma create_output_directory_idempotent_witness :
  create_output_directory Sample.stamped = (Return tt, Scenario.stamped_ready)
  /\ is_dir (world Scenario.stamped_ready) (output_dir (self Sample.stamped))
     = true
  /\ (forall q, q ∈ ancestors_and_self (output_dir (self Sample.stamped)) ->
        is_dir (world Scenario.stamped_ready) q = true)
  /\ (forall d, d ∈ dirs (world Scenario.stamped_ready) ->
        d ∈ dirs (world Sample.stamped)
        \/ d ∈ ancestors_and_self (output_dir (self Sample.stamped)))
  /\ files (world Scenario.stamped_ready) = files (world Sample.stamped)
  /\ self Scenario.stamped_ready = self Sample.stamped
  /\ exists s2,
       create_output_directory Scenario.stamped_ready = (Return tt, s2)
       /\ dirs (world s2) = dirs (world Scenario.stamped_ready)
       /\ files (world s2) = files (world Scenario.stamped_ready)
       /\ self s2 = self Scenario.stamped_ready.
Proof.
  assert (H : create_output_directory Sample.stamped
              = (Return tt, Scenario.stamped_ready))
    by (vm_compute; reflexivity).
  split; [exact H|].
  exact (create_output_directory_idempotent _ _ H).
Defined.



(** ** Single writes and the loop of a batch *)




(** A name with a separator is another matter: the file goes where the
    name points, here outside the output directory, which is still
    missing. *)
Example generate_file_absolute_name :
  (generate_file "/tmp/x" false
     (fresh ["out"] false ""
        {| files := ∅; dirs := {[ ["/"]; ["/"; "tmp"] ]};
           refuses := fun _ _ => false; log := [] |})).1
  = Return ["/"; "tmp"; "x.py"].
Proof. vm_compute. reflexivity. Qed.

(** X7: writing to the same path twice.  When two writes in a row both
    return and the second name lands on the path of the first (the same
    name with or without its extension, or behind [./]), both return
    that path, it stands twice in the record, the file holds the text of
    the second call, and no other file changed. *)
Theorem generate_file_twice (filename filename' : string)
    (add_init add_init' : bool) (s s1 s2 : State) (p p' : Path) :
  generate_file filename add_init s = (Return p, s1) ->
  generate_file filename' add_init' s1 = (Return p', s2) ->
  target (output_dir (self s)) filename'
  = target (output_dir (self s)) filename ->
  p' = p
  /\ created_files (self s2) = created_files (self s) ++ [p; p]
  /\ files (world s2) !! p = Some (payload (with_py filename') add_init')
  /\ (forall q, q <> p -> files (world s2) !! q = files (world s) !! q).
Proof.
  intros (-> & -> & _)%generate_file_inv H2 Hname.
  apply generate_file_inv in H2 as (-> & -> & _).
  cbn [self recorded set_world output_dir]. rewrite Hname.
  set (p := target (output_dir (self s)) filename).
  split; [reflexivity|]. cbn. split; [|split].
  - now rewrite <- app_assoc.
  - apply lookup_insert_eq.
  - intros q Hq. now rewrite !lookup_insert_ne by done.
Qed.

Lemma generate_file_twice_witness :
  generate_file "a" false Sample.plain_ready
  = (Return ["out"; "a.py"], (generate_file "a" false Sample.plain_ready).2)
  /\ generate_file "./a.py" true
       (generate_file "a" false Sample.plain_ready).2
     = (Return ["out"; "a.py"],
        (generate_file "./a.py" true
           (generate_file "a" false Sample.plain_ready).2).2)
  /\ target (output_dir (self Sample.plain_ready)) "./a.py"
     = target (output_dir (self Sample.plain_ready)) "a"
  /\ ["out"; "a.py"] = ["out"; "a.py"]
  /\ created_files
       (self (generate_file "./a.py" true
                (generate_file "a" false Sample.plain_ready).2).2)
     = created_files (self Sample.plain_ready)
         ++ [["out"; "a.py"]; ["out"; "a.py"]]
  /\ files (world (generate_file "./a.py" true
                     (generate_file "a" false Sample.plain_ready).2).2)
       !! ["out"; "a.py"]
     = Some (payload (with_py "./a.py") true)
  /\ (forall q, q <> ["out"; "a.py"] ->
        files (world (generate_file "./a.py" true
                        (generate_file "a" false Sample.plain_ready).2).2)
          !! q
        = files (world Sample.plain_ready) !! q).
Proof.
  assert (H1 : generate_file "a" false Sample.plain_ready
               = (Return ["out"; "a.py"],
                  (generate_file "a" false Sample.plain_ready).2))
    by (vm_compute; reflexivity).
  assert (H2 : generate_file "./a.py" true
                 (generate_file "a" false Sample.plain_ready).2
               = (Return ["out"; "a.py"],
                  (generate_file "./a.py" true
                     (generate_file "a" false Sample.plain_ready).2).2))
    by (vm_compute; reflexivity).
  assert (H3 : target (output_dir (self Sample.plain_ready)) "./a.py"
               = target (output_dir (self Sample.plain_ready)) "a")
    by reflexivity.
  split; [exact H1|]. split; [exact H2|]. split; [exact H3|].
  exact (generate_file_twice "a" "./a.py" false true _ _ _ _ _ H1 H2 H3).
Defined.




(** ** A batch followed by cleanup *)

Lemma create_output_directory_new_dirs (s s1 : State) :
  create_output_directory s = (Return tt, s1) ->
  forall d, d ∈ dirs (world s1) ->
    d ∈ dirs (world s) \/ d ∈ ancestors_and_self (output_dir (self s)).
Proof.
  rewrite create_output_directory_eq. cbv zeta.
  unfold mkdir_parents_exist_ok.
  destruct (mkdir_chain _ _) as [[[]|e] w'] eqn:E; [|discriminate].
  intros H d Hd. injection H as <-. cbn in Hd.
  apply (mkdir_chain_new_dirs _ (world s)). now rewrite E.
Qed.

Lemma create_output_directory_ancestors (s s1 : State) :
  create_output_directory s = (Return tt, s1) ->
  forall d, d ∈ ancestors_and_self (output_dir (self s)) ->
    is_dir (world s1) d = true.
Proof.
  rewrite create_output_directory_eq. cbv zeta.
  unfold mkdir_parents_exist_ok.
  destruct (mkdir_chain _ _) as [[[]|e] w'] eqn:E; [|discriminate].
  intros H d Hd. injection H as <-.
  exact (mkdir_chain_return _ _ _ E d Hd).
Qed.

(** What a batch that returns leaves of the world it found: the files it
    did not write, the refusals, and the directories up to the ancestors
    of the output directory. *)
Lemma generate_multiple_files_frame (filenames : option (list string))
    (count : option Z) (create_init : bool) (base_filename : string)
    (s s' : State) (l : list Path) :
  generate_multiple_files filenames count create_init base_filename s
    = (Return l, s') ->
  (forall q, q ∉ l -> files (world s') !! q = files (world s) !! q)
  /\ refuses (world s') = refuses (world s)
  /\ (forall d, d ∈ dirs (world s') ->
        d ∈ dirs (world s) \/ d ∈ ancestors_and_self (output_dir (self s)))
  /\ (forall d, d ∈ ancestors_and_self (output_dir (self s)) ->
        is_dir (world s') d = true).
Proof.
  intros H.
  pose proof (generate_multiple_files_return _ _ _ _ _ _ _ H)
    as (-> & Hrec & (_ & _ & _ & Href) & _).
  unfold generate_multiple_files in H.
  assert (Hrun : (create_output_directory ;;
           (if create_init then generate_file "__init__.py" true ;; ret tt
            else ret tt) ;;
           match count with
           | Some c => _generate_files_by_count c base_filename
           | None => _generate_files_by_names (default [] filenames)
           end ;;
           gets created_files) s = (Return (created_files (self s')), s')).
  { destruct filenames, count; cbn in H; try done. }
  clear H.
  apply bind_inv_return in Hrun as ([] & s1 & H1 & Hrun).
  apply bind_inv_return in Hrun as ([] & s2 & H2 & Hrun).
  apply bind_inv_return in Hrun as ([] & s3 & H3 & Hrun).
  injection Hrun as _ <-.
  pose proof (create_output_directory_new_dirs s s1 H1) as Hnew.
  pose proof (create_output_directory_ancestors s s1 H1) as Hanc.
  pose proof (create_output_directory_frame s) as (Hself & Hfiles & _ & _).
  rewrite H1 in Hself, Hfiles. cbn in Hself, Hfiles.
  apply init_stage_return in H2 as (_ & Hs2 & Hd2 & Hf2).
  apply names_stage_return in H3 as (_ & _ & Hd3 & Hf3 & _).
  assert (Hout2 : output_dir (self s2) = output_dir (self s)).
  { destruct Hs2 as (_ & _ & -> & _). now rewrite Hself. }
  rewrite Hout2 in Hf3. rewrite Hself in Hf2.
  split; [|split; [exact Href|split]].
  - intros q Hq. rewrite Hrec in Hq.
    rewrite Hf3, Hf2, Hfiles.
    rewrite bool_decide_eq_false_2 by set_solver.
    unfold init_paths in Hq. destruct create_init; cbn [andb]; [|reflexivity].
    now rewrite bool_decide_eq_false_2 by set_solver.
  - intros d Hd. apply Hnew. now rewrite <- Hd2, <- Hd3.
  - intros d Hd. unfold is_dir. rewrite Hd3, Hd2. now apply Hanc.
Qed.

(** X9: a batch followed by [cleanup].  When a batch returned and the
    system lets every recorded file be removed, [cleanup] leaves the
    record empty, none of the recorded paths is a file any more, and
    every other file is as it was before the batch; so when the paths
    were free before the batch, the files of the disk are back to what
    they were. *)
Theorem batch_then_cleanup_files (filenames : option (list string))
    (count : option Z) (create_init : bool) (base_filename : string)
    (s s1 : State) (l : list Path) :
  generate_multiple_files filenames count create_init base_filename s
    = (Return l, s1) ->
  (forall p, p ∈ l -> refuses (world s) OpUnlink p = false) ->
  created_files (self (cleanup s1).2) = []
  /\ (forall q, files (world (cleanup s1).2) !! q =
        if bool_decide (q ∈ l) then None else files (world s) !! q)
  /\ ((forall p, p ∈ l -> files (world s) !! p = None) ->
      files (world (cleanup s1).2) = files (world s)).
Proof.
  intros H Hok.
  pose proof (generate_multiple_files_return _ _ _ _ _ _ _ H) as (El & _).
  destruct (generate_multiple_files_frame _ _ _ _ _ _ _ H)
    as (Hother & Href & _).
  destruct (cleanup_eq s1) as (w2 & E & Hf2 & _).
  rewrite E. cbn [snd self world created_files].
  assert (Hq : forall q, files w2 !! q =
            if bool_decide (q ∈ l) then None else files (world s) !! q).
  { intros q. rewrite Hf2. unfold after_file_removal.
    rewrite files_unlink_all, <- El, Href.
    destruct (decide (q ∈ l)) as [Hin|Hin].
    - rewrite (bool_decide_eq_true_2 _ Hin), (Hok q Hin). reflexivity.
    - rewrite (bool_decide_eq_false_2 _ Hin). cbn [andb]. now apply Hother. }
  split; [reflexivity|]. split; [exact Hq|].
  intros Hfree. apply map_eq. intros q. rewrite Hq.
  destruct (decide (q ∈ l)) as [Hin|Hin].
  - rewrite (bool_decide_eq_true_2 _ Hin). symmetry. now apply Hfree.
  - now rewrite (bool_decide_eq_false_2 _ Hin).
Qed.

Lemma batch_then_cleanup_files_witness :
  generate_multiple_files None (Some 3%Z) true "langtrace_sampler"
    Sample.stamped
  = (Return Sample.stamped_paths, Sample.stamped_batch.2)
  /\ (forall p, p ∈ Sample.stamped_paths ->
        refuses (world Sample.stamped) OpUnlink p = false)
  /\ created_files (self (cleanup Sample.stamped_batch.2).2) = []
  /\ (forall q, files (world (cleanup Sample.stamped_batch.2).2) !! q =
        if bool_decide (q ∈ Sample.stamped_paths) then None
        else files (world Sample.stamped) !! q)
  /\ ((forall p, p ∈ Sample.stamped_paths ->
         files (world Sample.stamped) !! p = None) ->
      files (world (cleanup Sample.stamped_batch.2).2)
      = files (world Sample.stamped)).
Proof.
  assert (H : generate_multiple_files None (Some 3%Z) true "langtrace_sampler"
                Sample.stamped
              = (Return Sample.stamped_paths, Sample.stamped_batch.2))
    by (vm_compute; reflexivity).
  assert (Hok : forall p, p ∈ Sample.stamped_paths ->
            refuses (world Sample.stamped) OpUnlink p = false)
    by (intros p _; reflexivity).
  split; [exact H|]. split; [exact Hok|].
  exact (batch_then_cleanup_files _ _ _ _ _ _ _ H Hok).
Defined.

Lemma has_entry_intro (w : World) (p q : Path) :
  q ∈ dom (files w) ∪ dirs w -> parent q = p -> q <> [] ->
  has_entry w p = true.
Proof.
  intros Hq Hp Hne. unfold has_entry. apply bool_decide_eq_true.
  now exists q.
Qed.

Lemma has_entry_inv (w : World) (p : Path) :
  has_entry w p = true ->
  exists q, q ∈ dom (files w) ∪ dirs w /\ parent q = p /\ q <> [].
Proof. unfold has_entry. now intros H%bool_decide_eq_true. Qed.

Lemma ancestors_and_self_inv (p q : Path) :
  q ∈ ancestors_and_self p ->
  1 <= length q <= length p /\ q = take (length q) p.
Proof.
  unfold ancestors_and_self. intros H.
  apply list_elem_of_In, in_map_iff in H as (k & <- & Hk%in_seq).
  rewrite length_take. split; [lia|]. f_equal. lia.
Qed.

Lemma length_parent (q : Path) : length (parent q) = length q - 1.
Proof.
  unfold parent. induction q as [|a [|b q] IH]; [reflexivity..|].
  change (length (a :: removelast (b :: q)) = length (a :: b :: q) - 1).
  cbn [length] in *. lia.
Qed.

Lemma base_in_ancestors (base : Path) (name : string) :
  base <> [] -> base ∈ ancestors_and_self (base ++ [name]).
Proof.
  intros Hne. unfold ancestors_and_self.
  apply list_elem_of_In, in_map_iff. exists (length base). split.
  - now rewrite take_app_length.
  - apply in_seq. rewrite length_app. destruct base; [done|]. cbn. lia.
Qed.

(** After the loop of [cleanup] a directory that had no entry before the
    batch has none: the batch made no directory in it, and its files
    went. *)
Lemma no_entry_after_round_trip (filenames : option (list string))
    (count : option Z) (create_init : bool) (base_filename : string)
    (s s1 : State) (l : list Path) (d : Path) (gone : gset Path) :
  generate_multiple_files filenames count create_init base_filename s
    = (Return l, s1) ->
  (forall p, p ∈ l -> refuses (world s) OpUnlink p = false) ->
  has_entry (world s) d = false ->
  (forall q, q ∈ ancestors_and_self (output_dir (self s)) ->
     parent q = d -> q ∈ gone) ->
  has_entry (with_dirs (fun ds => ds ∖ gone) (after_file_removal s1)) d = false.
Proof.
  intros H Hok Hno Hanc.
  pose proof (generate_multiple_files_return _ _ _ _ _ _ _ H) as (El & _).
  destruct (generate_multiple_files_frame _ _ _ _ _ _ _ H)
    as (Hother & Href & Hnew & _).
  destruct (has_entry (with_dirs _ _) d) eqn:E; [exfalso|reflexivity].
  apply has_entry_inv in E as (q & Hq & Hpar & Hne).
  assert (Hfalse : q ∈ dom (files (world s)) ∪ dirs (world s) -> False).
  { intros Hin. now rewrite (has_entry_intro _ _ _ Hin Hpar Hne) in Hno. }
  cbn in Hq. unfold after_file_removal in Hq.
  destruct (unlink_all_frame (created_files (self s1)) (world s1))
    as (Hd & _ & _).
  rewrite Hd in Hq. apply elem_of_union in Hq as [Hq|Hq].
  - apply elem_of_dom in Hq as [c Hc]. rewrite files_unlink_all in Hc.
    rewrite <- El, Href in Hc.
    destruct (decide (q ∈ l)) as [Hin|Hin].
    + rewrite (bool_decide_eq_true_2 _ Hin), (Hok q Hin) in Hc. discriminate.
    + rewrite (bool_decide_eq_false_2 _ Hin) in Hc. cbn [andb] in Hc.
      rewrite (Hother q Hin) in Hc. apply Hfalse.
      apply elem_of_union_l, elem_of_dom. now exists c.
  - apply elem_of_difference in Hq as [Hq Hgone].
    apply Hnew in Hq as [Hq|Hq]; [apply Hfalse; set_solver|].
    now apply Hgone, Hanc.
Qed.

(** X10: the directories after a batch and [cleanup].  Take an output
    directory that is not the current directory, has no [..] among its
    components and had no entry before the batch.  When the batch
    returned and the system refuses nothing, [cleanup] removes the output
    directory; in timestamp mode, where the output directory is a child
    of the base directory, it also removes the base directory, provided
    that is not the current directory and had no entry before the batch
    either. *)
Theorem batch_then_cleanup_directories (filenames : option (list string))
    (count : option Z) (create_init : bool) (base_filename : string)
    (s s1 : State) (l : list Path) :
  generate_multiple_files filenames count create_init base_filename s
    = (Return l, s1) ->
  (forall op p, refuses (world s) op p = false) ->
  output_dir (self s) <> [] ->
  ".." ∉ output_dir (self s) ->
  has_entry (world s) (output_dir (self s)) = false ->
  (output_dir (self s) ∉ dirs (world (cleanup s1).2))
  /\ (forall name,
        use_timestamp (self s) = true ->
        output_dir (self s) = base_output_dir (self s) ++ [name] ->
        base_output_dir (self s) <> [] ->
        has_entry (world s) (base_output_dir (self s)) = false ->
        base_output_dir (self s) ∉ dirs (world (cleanup s1).2)).
Proof.
  intros H Hperm Hne _ Hno.
  pose proof (generate_multiple_files_return _ _ _ _ _ _ _ H)
    as (El & _ & (Hbase & Hts & Hout & Href) & _).
  destruct (generate_multiple_files_frame _ _ _ _ _ _ _ H)
    as (_ & _ & _ & Hanc).
  destruct (cleanup_eq s1) as (w2 & E & _ & _ & Hd & _).
  rewrite E. cbn [snd world].
  unfold dirs_after_cleanup in Hd. rewrite Hout, Hbase, Hts in Hd.
  set (out := output_dir (self s)) in *.
  set (base := base_output_dir (self s)) in *.
  set (w1 := after_file_removal s1) in *.
  assert (Hdirs1 : dirs w1 = dirs (world s1) /\ refuses w1 = refuses (world s)).
  { unfold w1, after_file_removal.
    destruct (unlink_all_frame (created_files (self s1)) (world s1))
      as (-> & -> & _). now rewrite Href. }
  destruct Hdirs1 as [Hdirs1 Href1].
  assert (Hin : forall d, d <> [] -> d ∈ ancestors_and_self out ->
            d ∈ dirs w1).
  { intros d Hd0 Hd1. rewrite Hdirs1. apply Hanc in Hd1.
    unfold is_dir in Hd1. apply orb_true_iff in Hd1 as [Hd1|Hd1].
    - now apply bool_decide_eq_true in Hd1.
    - now apply bool_decide_eq_true in Hd1. }
  assert (R1 : removable w1 out = true).
  { apply removable_true. rewrite Href1, !Hperm.
    split; [|split; [reflexivity|split; [|reflexivity]]].
    - apply Hin; [exact Hne|]. now apply elem_of_ancestors_and_self.
    - pose proof (no_entry_after_round_trip _ _ _ _ _ _ _ out ∅ H
                    (fun p _ => Hperm OpUnlink p) Hno) as Hn.
      assert (Hw : with_dirs (fun ds => ds ∖ ∅) w1 = with_dirs (fun ds => ds) w1).
      { unfold with_dirs. f_equal. set_solver. }
      unfold w1 in Hw. rewrite Hw in Hn.
      assert (Hid : forall w, has_entry (with_dirs (fun ds => ds) w) out
                              = has_entry w out) by reflexivity.
      rewrite Hid in Hn. apply Hn.
      intros q Hq Hpar. exfalso.
      apply ancestors_and_self_inv in Hq as [Hlen _].
      apply (f_equal length) in Hpar. rewrite length_parent in Hpar.
      fold out in Hlen. lia. }
  rewrite R1 in Hd. split.
  - rewrite Hd. destruct (_ && _); set_solver.
  - intros name Hts1 Hjoin Hbne Hnob. rewrite Hts1 in Hd. cbn [andb] in Hd.
    assert (R2 : removable (without_dir out w1) base = true).
    { apply removable_true. cbn [refuses without_dir with_dirs].
      rewrite Href1, !Hperm.
      split; [|split; [reflexivity|split; [|reflexivity]]].
      - cbn. apply elem_of_difference. split.
        + apply Hin; [exact Hbne|]. rewrite Hjoin.
          now apply base_in_ancestors.
        + intros Heq%elem_of_singleton. apply (f_equal length) in Heq.
          rewrite Hjoin in Heq.
          rewrite length_app in Heq. cbn in Heq. lia.
      - apply (no_entry_after_round_trip _ _ _ _ _ _ _ base {[out]} H
                 (fun p _ => Hperm OpUnlink p) Hnob).
        intros q Hq Hpar. apply elem_of_singleton.
        apply ancestors_and_self_inv in Hq as [Hlen Hq].
        apply (f_equal length) in Hpar. rewrite length_parent in Hpar.
        fold out in Hlen, Hq.
        assert (Hlo : length out = S (length base)).
        { rewrite Hjoin. rewrite length_app. cbn. lia. }
        rewrite Hq. apply take_ge. lia. }
    rewrite R2 in Hd. rewrite Hd. set_solver.
Qed.

Lemma batch_then_cleanup_directories_witness :
  generate_multiple_files None (Some 3%Z) true "langtrace_sampler"
    Sample.stamped
  = (Return Sample.stamped_paths, Sample.stamped_batch.2)
  /\ (forall op p, refuses (world Sample.stamped) op p = false)
  /\ output_dir (self Sample.stamped) <> []
  /\ (".." ∉ output_dir (self Sample.stamped))
  /\ has_entry (world Sample.stamped) (output_dir (self Sample.stamped)) = false
  /\ (output_dir (self Sample.stamped)
        ∉ dirs (world (cleanup Sample.stamped_batch.2).2))
  /\ (forall name,
        use_timestamp (self Sample.stamped) = true ->
        output_dir (self Sample.stamped)
        = base_output_dir (self Sample.stamped) ++ [name] ->
        base_output_dir (self Sample.stamped) <> [] ->
        has_entry (world Sample.stamped) (base_output_dir (self Sample.stamped))
        = false ->
        base_output_dir (self Sample.stamped)
          ∉ dirs (world (cleanup Sample.stamped_batch.2).2)).
Proof.
  assert (H : generate_multiple_files None (Some 3%Z) true "langtrace_sampler"
                Sample.stamped
              = (Return Sample.stamped_paths, Sample.stamped_batch.2))
    by (vm_compute; reflexivity).
  assert (Hperm : forall op p, refuses (world Sample.stamped) op p = false)
    by (intros op p; reflexivity).
  assert (Hne : output_dir (self Sample.stamped) <> []) by discriminate.
  assert (Hup : ".." ∉ output_dir (self Sample.stamped)).
  { apply (bool_decide_eq_false_1 (".." ∈ output_dir (self Sample.stamped))).
    vm_compute. reflexivity. }
  assert (Hno : has_entry (world Sample.stamped)
                  (output_dir (self Sample.stamped)) = false)
    by (vm_compute; reflexivity).
  split; [exact H|]. split; [exact Hperm|]. split; [exact Hne|].
  split; [exact Hup|]. split; [exact Hno|].
  exact (batch_then_cleanup_directories _ _ _ _ _ _ _ H Hperm Hne Hup Hno).
Defined.

(** The whole round on [Sample.stamped]: both directories are gone. *)
Example batch_then_cleanup_directories_stamped :
  dirs (world Sample.stamped_batch.2)
  = {[ ["out"]; ["out"; "langtrace_20250703_115949"] ]}
  /\ dirs (world (cleanup Sample.stamped_batch.2).2) = ∅.
Proof. vm_compute. split; reflexivity. Qed.

(** ** Running cleanup again *)

Lemma has_entry_ext (w w' : World) (d : Path) :
  files w' = files w -> dirs w' = dirs w -> has_entry w' d = has_entry w d.
Proof. unfold has_entry. now intros -> ->. Qed.

Lemma removable_ext (w w' : World) (d : Path) :
  files w' = files w -> dirs w' = dirs w -> refuses w' = refuses w ->
  removable w' d = removable w d.
Proof.
  intros Hf Hd Hr. unfold removable.
  now rewrite (has_entry_ext w w' d Hf Hd), Hd, Hr.
Qed.

(** X11: [cleanup] is idempotent.  A second [cleanup] right after a first
    returns as well and changes neither files nor directories nor the
    object: the record is already empty, and a directory the first run
    could not remove is not removable now either. *)
Theorem cleanup_twice (s : State) :
  (cleanup (cleanup s).2).1 = Return tt
  /\ self (cleanup (cleanup s).2).2 = self (cleanup s).2
  /\ created_files (self (cleanup s).2) = []
  /\ files (world (cleanup (cleanup s).2).2) = files (world (cleanup s).2)
  /\ dirs (world (cleanup (cleanup s).2).2) = dirs (world (cleanup s).2).
Proof.
  destruct (cleanup_eq s) as (w1 & E1 & Hf1 & Hr1 & Hd1 & _).
  rewrite E1. cbn [snd].
  match goal with |- context [cleanup ?st] => set (s1 := st) end.
  destruct (cleanup_eq s1) as (w2 & E2 & Hf2 & _ & Hd2 & _).
  rewrite E2. cbn [fst snd self world created_files].
  assert (Hw : after_file_removal s1 = w1) by reflexivity.
  rewrite Hw in Hf2, Hd2. clear Hw.
  split; [reflexivity|]. split; [reflexivity|]. split; [reflexivity|].
  split; [exact Hf2|]. rewrite Hd2.
  unfold dirs_after_cleanup in *. cbn [self output_dir base_output_dir
    use_timestamp s1] in *.
  set (w0 := after_file_removal s) in *.
  assert (Hr0 : refuses w0 = refuses (world s)).
  { unfold w0, after_file_removal.
    now destruct (unlink_all_frame (created_files (self s)) (world s))
      as (_ & -> & _). }
  assert (R : removable w1 (output_dir (self s)) = false);
    [|now rewrite R].
  destruct (removable w0 (output_dir (self s))) eqn:R0.
  - destruct (removable w1 (output_dir (self s))) eqn:R1; [|reflexivity].
    apply removable_true in R1 as (Hin & _). rewrite Hd1 in Hin.
    destruct (_ && _); set_solver.
  - rewrite <- R0. apply removable_ext; congruence.
Qed.

(** ** The order of the generated names *)

Lemma ascii_compare_refl (c : ascii) : Ascii.compare c c = Eq.
Proof. unfold Ascii.compare. apply N.compare_refl. Qed.

Lemma compare_app_l (p s t : string) :
  String.compare (p +:+ s) (p +:+ t) = String.compare s t.
Proof.
  induction p as [|c p IH]; [reflexivity|].
  rewrite !app_String. cbn [String.compare]. now rewrite ascii_compare_refl.
Qed.

Lemma compare_app_r (s t u : string) :
  len s = len t -> String.compare s t = Lt ->
  String.compare (s +:+ u) (t +:+ u) = Lt.
Proof.
  revert t. induction s as [|c s IH]; intros [|c' t] Hl H;
    try discriminate.
  rewrite !app_String. cbn [String.compare] in *.
  destruct (Ascii.compare c c'); [|reflexivity|discriminate].
  apply IH; [|exact H]. unfold len in *. cbn in Hl. lia.
Qed.

Lemma value_from_shift (a : Z) (s : string) :
  value_from a s = (a * 10 ^ Z.of_nat (len s) + value_from 0 s)%Z.
Proof.
  revert a. induction s as [|c s IH]; intros a.
  - cbn. lia.
  - cbn [value_from]. rewrite IH, (IH (10 * 0 + _)%Z).
    unfold len. cbn [String.length]. rewrite Nat2Z.inj_succ, Z.pow_succ_r by lia.
    fold (len s). lia.
Qed.

Lemma is_digit_value (c : ascii) :
  is_digit c = true -> (0 <= Z.of_nat (nat_of_ascii c) - 48 < 10)%Z.
Proof.
  unfold is_digit. intros [H1 H2]%andb_true_iff.
  apply Nat.leb_le in H1, H2. lia.
Qed.

Lemma value_digits_bound (s : string) :
  all_digits s = true -> (0 <= value s < 10 ^ Z.of_nat (len s))%Z.
Proof.
  unfold value. induction s as [|c s IH]; intros H.
  - cbn. lia.
  - cbn [all_digits] in H. apply andb_true_iff in H as [Hc Hs].
    cbn [value_from]. rewrite value_from_shift.
    specialize (IH Hs). apply is_digit_value in Hc.
    unfold len in *. cbn [String.length].
    rewrite Nat2Z.inj_succ, Z.pow_succ_r by lia. nia.
Qed.

Lemma ascii_compare_lt (c c' : ascii) :
  nat_of_ascii c < nat_of_ascii c' -> Ascii.compare c c' = Lt.
Proof.
  unfold Ascii.compare, nat_of_ascii. intros H.
  apply N.compare_lt_iff. lia.
Qed.

Lemma nat_of_ascii_inj (c c' : ascii) :
  nat_of_ascii c = nat_of_ascii c' -> c = c'.
Proof.
  intros H. rewrite <- (ascii_nat_embedding c), <- (ascii_nat_embedding c').
  now rewrite H.
Qed.

(** Digit strings of one length are ordered as the numbers they print. *)
Lemma compare_digits (s t : string) :
  all_digits s = true -> all_digits t = true -> len s = len t ->
  (value s < value t)%Z -> String.compare s t = Lt.
Proof.
  revert t. induction s as [|c s IH]; intros [|c' t] Hs Ht Hl Hv;
    try (unfold len in Hl; discriminate).
  cbn [all_digits] in Hs, Ht.
  apply andb_true_iff in Hs as [Hc Hs], Ht as [Hc' Ht].
  assert (Hl' : len s = len t) by (unfold len in *; cbn in Hl; lia).
  pose proof (value_digits_bound s Hs) as Bs.
  pose proof (value_digits_bound t Ht) as Bt.
  pose proof (is_digit_value c Hc) as Dc.
  pose proof (is_digit_value c' Hc') as Dc'.
  unfold value in *. cbn [value_from] in Hv.
  rewrite (value_from_shift _ s), (value_from_shift _ t) in Hv.
  rewrite <- Hl' in Hv, Bt.
  cbn [String.compare].
  destruct (Nat.lt_trichotomy (nat_of_ascii c) (nat_of_ascii c'))
    as [Hlt|[Heq|Hgt]].
  - now rewrite ascii_compare_lt.
  - apply nat_of_ascii_inj in Heq as ->. rewrite ascii_compare_refl.
    apply IH; try assumption. unfold value. nia.
  - exfalso. nia.
Qed.

(** X12: zero-padding makes the names sort in the order of their
    numbers.  Within a batch by count, for indices [i < j] the name of
    [i] comes before the name of [j] in the order Python compares strings
    by, with and without the extension, and the two names have the same
    length. *)
Theorem auto_filename_sorted (count : Z) (base : string) (i j : Z) :
  (1 <= i)%Z -> (i < j)%Z -> (j <= count)%Z ->
  str_lt (auto_filename count base i) (auto_filename count base j)
  /\ str_lt (with_py (auto_filename count base i))
            (with_py (auto_filename count base j))
  /\ len (auto_filename count base i) = len (auto_filename count base j).
Proof.
  intros Hi Hij Hj.
  assert (Hc : count <> 1%Z) by lia.
  assert (Hlen : len (zfill (len (str count)) (str i))
                 = len (zfill (len (str count)) (str j)))
    by (rewrite !len_zfill_str by lia; reflexivity).
  assert (Hlt : str_lt (auto_filename count base i)
                       (auto_filename count base j)).
  { unfold str_lt, auto_filename.
    destruct (count =? 1)%Z eqn:E; [apply Z.eqb_eq in E; contradiction|].
    rewrite !compare_app_l. apply compare_digits.
    - apply all_digits_zfill_str. lia.
    - apply all_digits_zfill_str. lia.
    - exact Hlen.
    - rewrite !value_zfill_str by lia. exact Hij. }
  assert (Hl : len (auto_filename count base i)
               = len (auto_filename count base j)).
  { unfold auto_filename.
    destruct (count =? 1)%Z; [reflexivity|]. rewrite !len_app. lia. }
  split; [exact Hlt|]. split; [|exact Hl].
  rewrite !with_py_auto_filename by lia. unfold str_lt.
  apply compare_app_r; [exact Hl|exact Hlt].
Qed.

Lemma auto_filename_sorted_witness :
  (1 <= 9)%Z /\ (9 < 10)%Z /\ (10 <= 10)%Z
  /\ str_lt (auto_filename 10 "langtrace_sampler" 9)
            (auto_filename 10 "langtrace_sampler" 10)
  /\ str_lt (with_py (auto_filename 10 "langtrace_sampler" 9))
            (with_py (auto_filename 10 "langtrace_sampler" 10))
  /\ len (auto_filename 10 "langtrace_sampler" 9)
     = len (auto_filename 10 "langtrace_sampler" 10).
Proof.
  split; [lia|]. split; [lia|]. split; [lia|].
  apply (auto_filename_sorted 10 "langtrace_sampler" 9 10); lia.
Defined.

(** ** The command line *)

(** X13: flags [main] ignores.  With a count that is not zero,
    [--filenames] has no effect at all: the batch is by count and the
    error for giving both is never reached.  Without such a count and
    with names, [--base-name] has no effect: the names are used as
    given. *)
Theorem main_ignored_flags (args : Args) (timestamp : string) (w : World) :
  (truthy_int (arg_count args) = true ->
   forall names,
     main args timestamp w
     = main {| arg_count := arg_count args;
               arg_filenames := names;
               arg_output_dir := arg_output_dir args;
               arg_base_name := arg_base_name args;
               arg_no_init := arg_no_init args;
               arg_no_timestamp := arg_no_timestamp args |} timestamp w)
  /\ (truthy_int (arg_count args) = false ->
      truthy_list (arg_filenames args) = true ->
      forall base,
        main args timestamp w
        = main {| arg_count := arg_count args;
                  arg_filenames := arg_filenames args;
                  arg_output_dir := arg_output_dir args;
                  arg_base_name := base;
                  arg_no_init := arg_no_init args;
                  arg_no_timestamp := arg_no_timestamp args |} timestamp w).
Proof.
  split.
  - intros Hc names. unfold main, effective_count. cbn [arg_count
      arg_filenames arg_output_dir arg_base_name arg_no_init arg_no_timestamp].
    rewrite !Hc. cbn [negb andb]. rewrite !Hc. reflexivity.
  - intros Hc Hn base. unfold main, effective_count. cbn [arg_count
      arg_filenames arg_output_dir arg_base_name arg_no_init arg_no_timestamp].
    rewrite Hc, Hn. cbn [negb andb]. rewrite Hc. reflexivity.
Qed.

(** X14: the default of [main].  When the count is absent or zero and no
    name is given, [main] runs the batch by count with a count of five,
    after logging that it does so: outcome and final state are those of
    [--count 5], and the log is that of [--count 5] behind the one line
    about the default. *)
Theorem main_default_count (args : Args) (timestamp : string) (w : World) :
  truthy_int (arg_count args) = false ->
  truthy_list (arg_filenames args) = false ->
  let five := main {| arg_count := Some 5%Z;
                      arg_filenames := None;
                      arg_output_dir := arg_output_dir args;
                      arg_base_name := arg_base_name args;
                      arg_no_init := arg_no_init args;
                      arg_no_timestamp := arg_no_timestamp args |}
                   timestamp w in
  main args timestamp w
  = (five.1, MainLine INFO NoCountOrFilenames :: five.2)
  /\ five.1
     = ((let run :=
           generate_multiple_files None (Some 5%Z) (negb (arg_no_init args))
             (arg_base_name args)
             (fresh (arg_output_dir args) (negb (arg_no_timestamp args))
                    timestamp w) in
         match run.1 with
         | Return _ => Return tt
         | Raise e => Raise e
         end),
        (generate_multiple_files None (Some 5%Z) (negb (arg_no_init args))
           (arg_base_name args)
           (fresh (arg_output_dir args) (negb (arg_no_timestamp args))
                  timestamp w)).2).
Proof.
  intros Hc Hn five. unfold five, main, effective_count, fresh.
  cbn [arg_count arg_filenames arg_output_dir arg_base_name arg_no_init
       arg_no_timestamp truthy_int truthy_list negb andb Z.eqb].
  rewrite Hc, Hn. cbn [negb andb truthy_int Z.eqb].
  split.
  - now destruct (generate_multiple_files _ _ _ _ _) as [[l|e] s1].
  - now destruct (generate_multiple_files _ _ _ _ _) as [[l|e] s1].
Qed.

Lemma main_default_count_witness :
  truthy_int (arg_count
    {| arg_count := Some 0%Z; arg_filenames := None;
       arg_output_dir := ["langtrace_samplers"];
       arg_base_name := "langtrace_sampler";
       arg_no_init := false; arg_no_timestamp := false |}) = false
  /\ truthy_list (arg_filenames
       {| arg_count := Some 0%Z; arg_filenames := None;
          arg_output_dir := ["langtrace_samplers"];
          arg_base_name := "langtrace_sampler";
          arg_no_init := false; arg_no_timestamp := false |}) = false
  /\ (main {| arg_count := Some 0%Z; arg_filenames := None;
              arg_output_dir := ["langtrace_samplers"];
              arg_base_name := "langtrace_sampler";
              arg_no_init := false; arg_no_timestamp := false |}
           "20250703_115949" empty_world).1.1 = Return tt.
Proof.
  split; [reflexivity|]. split; [reflexivity|].
  rewrite (proj1 (main_default_count
                    {| arg_count := Some 0%Z; arg_filenames := None;
                       arg_output_dir := ["langtrace_samplers"];
                       arg_base_name := "langtrace_sampler";
                       arg_no_init := false; arg_no_timestamp := false |}
                    "20250703_115949" empty_world eq_refl eq_refl)).
  vm_compute. reflexivity.
Defined.

Lemma main_ignored_flags_witness :
  truthy_int (Some 2%Z) = true
  /\ main {| arg_count := Some 2%Z; arg_filenames := Some ["a"; "b"; "c"];
             arg_output_dir := ["out"]; arg_base_name := "s";
             arg_no_init := true; arg_no_timestamp := true |}
          "" empty_world
     = main {| arg_count := Some 2%Z; arg_filenames := None;
               arg_output_dir := ["out"]; arg_base_name := "s";
               arg_no_init := true; arg_no_timestamp := true |}
            "" empty_world.
Proof.
  split; [reflexivity|].
  exact (proj1 (main_ignored_flags
                  {| arg_count := Some 2%Z;
                     arg_filenames := Some ["a"; "b"; "c"];
                     arg_output_dir := ["out"]; arg_base_name := "s";
                     arg_no_init := true; arg_no_timestamp := true |}
                  "" empty_world) eq_refl None).
Defined.

Lemma truthy_list_inv {A : Type} (o : option (list A)) :
  truthy_list o = true -> exists x l, o = Some (x :: l).
Proof. destruct o as [[|x l]|]; try discriminate. now exists x, l. Qed.

Lemma truthy_int_inv (o : option Z) :
  truthy_int o = true -> exists c, o = Some c /\ c <> 0%Z.
Proof.
  destruct o as [c|]; [|discriminate]. cbn.
  intros H%negb_true_iff%Z.eqb_neq. now exists c.
Qed.

(** X15: the errors of [main].  The only [ValueError] [main] can raise is
    the one about the count, and it raises it only for a negative
    [--count]; the two errors about the selector cannot be reached from
    the command line.  With a negative count [main] never returns, and
    whenever it raises the last line it logs is the error. *)
Theorem main_errors (args : Args) (timestamp : string) (w : World) :
  (forall msg,
     (main args timestamp w).1.1 = Raise (ValueError msg) ->
     msg = "Count must be a positive integer"
     /\ exists c, arg_count args = Some c /\ (c < 0)%Z)
  /\ (forall c, arg_count args = Some c -> (c < 0)%Z ->
        exists e, (main args timestamp w).1.1 = Raise e)
  /\ (forall e, (main args timestamp w).1.1 = Raise e ->
        last (main args timestamp w).2
        = Some (MainLine ERROR (FileGenerationFailed e))).
Proof.
  split; [|split].
  - intros msg H. unfold main in H.
    destruct (truthy_int (effective_count args)) eqn:Et.
    + apply truthy_int_inv in Et as (c & Ec & Hc0). rewrite Ec in H.
      match type of H with
      | context [generate_multiple_files None (Some c) ?ci ?b ?s0] =>
          destruct (generate_multiple_files None (Some c) ci b s0)
            as [[l|e] s1] eqn:E; cbn in H; [discriminate|];
          injection H as ->;
          destruct (batch_body_errors None (Some c) ci b s0
                      (ValueError msg)) as [(?&?&?)|(Hm & c' & Hc' & Hle)];
            [change ((generate_multiple_files None (Some c) ci b s0).1
                     = Raise (ValueError msg)); now rewrite E
            |discriminate|]
      end.
      injection Hm as ->. injection Hc' as <-. split; [reflexivity|].
      exists c. split; [|lia].
      unfold effective_count in Ec.
      destruct (negb _ && negb _); [injection Ec as <-; lia|exact Ec].
    + assert (Hn : truthy_list (arg_filenames args) = true).
      { unfold effective_count in Et.
        destruct (truthy_int (arg_count args)) eqn:E1; cbn in Et;
          [congruence|].
        destruct (truthy_list (arg_filenames args)); [reflexivity|].
        cbn in Et. discriminate. }
      apply truthy_list_inv in Hn as (x & l & En). rewrite En in H.
      match type of H with
      | context [generate_multiple_files (Some ?ns) None ?ci ?b ?s0] =>
          destruct (generate_multiple_files (Some ns) None ci b s0)
            as [[l'|e] s1] eqn:E; cbn in H; [discriminate|];
          injection H as ->;
          destruct (batch_body_errors (Some ns) None ci b s0
                      (ValueError msg)) as [(?&?&?)|(_ & c' & Hc' & _)];
            [change ((generate_multiple_files (Some ns) None ci b s0).1
                     = Raise (ValueError msg)); now rewrite E
            |discriminate|discriminate]
      end.
  - intros c Hc Hneg. unfold main.
    assert (Ee : effective_count args = Some c).
    { unfold effective_count. rewrite Hc. cbn.
      destruct (c =? 0)%Z eqn:E; [apply Z.eqb_eq in E; lia|reflexivity]. }
    rewrite Ee. cbn [truthy_int].
    destruct (c =? 0)%Z eqn:E; [apply Z.eqb_eq in E; lia|]. cbn [negb].
    match goal with
    | |- context [generate_multiple_files None (Some c) ?ci ?b ?s0] =>
        destruct (nonpositive_count_outcome c ci b s0 ltac:(lia))
          as (e & s' & Hr & _); rewrite Hr
    end.
    cbn. now exists e.
  - intros e H. unfold main in *.
    destruct (if truthy_int (effective_count args) then _ else _)
      as [[l|e0] s1]; cbn in *; [discriminate|].
    injection H as ->. rewrite !app_assoc. apply last_snoc.
Qed.

Lemma main_errors_witness :
  arg_count {| arg_count := Some (-3)%Z; arg_filenames := None;
               arg_output_dir := ["out"]; arg_base_name := "s";
               arg_no_init := false; arg_no_timestamp := false |}
  = Some (-3)%Z
  /\ (-3 < 0)%Z
  /\ exists e,
       (main {| arg_count := Some (-3)%Z; arg_filenames := None;
                arg_output_dir := ["out"]; arg_base_name := "s";
                arg_no_init := false; arg_no_timestamp := false |}
             "20250703_115949" empty_world).1.1 = Raise e.
Proof.
  split; [reflexivity|]. split; [lia|].
  exact (proj1 (proj2 (main_errors
           {| arg_count := Some (-3)%Z; arg_filenames := None;
              arg_output_dir := ["out"]; arg_base_name := "s";
              arg_no_init := false; arg_no_timestamp := false |}
           "20250703_115949" empty_world)) (-3)%Z eq_refl ltac:(lia)).
Defined.

(** ** The generated sampler *)

Lemma foldl_add_methods (acc : gset string) (methods : list string)
    (m : string) :
  m ∈ foldl (fun acc' method => acc' ∪ {[method]}) acc methods
  <-> m ∈ acc \/ m ∈ methods.
Proof.
  revert acc. induction methods as [|x methods IH]; intros acc; cbn.
  - set_solver.
  - rewrite IH. set_solver.
Qed.

Lemma foldl_add_items (acc : gset string)
    (items : list (string * list string)) (m : string) :
  m ∈ foldl (fun acc kv =>
               foldl (fun acc' method => acc' ∪ {[method]}) acc kv.2)
            acc items
  <-> m ∈ acc \/ exists kv, kv ∈ items /\ m ∈ kv.2.
Proof.
  revert acc. induction items as [|kv items IH]; intros acc; cbn [foldl].
  - split; [now left|]. intros [H|(kv & Hkv & _)]; [exact H|].
    now apply elem_of_nil in Hkv.
  - rewrite IH, foldl_add_methods. split.
    + intros [[H|H]|(kv' & Hkv & H)].
      * now left.
      * right. exists kv. split; [left|exact H].
      * right. exists kv'. split; [now right|exact H].
    + intros [H|(kv' & Hkv & H)]; [now left; left|].
      apply elem_of_cons in Hkv as [->|Hkv].
      * left. now right.
      * right. now exists kv'.
Qed.

(** The names an instance holds are the methods the configuration lists
    under some component. *)
Lemma disabled_names_spec (config : option (list (string * list string)))
    (m : string) :
  m ∈ Sampler._disabled_methods_names (Sampler.new config)
  <-> exists items kv, config = Some items /\ kv ∈ items /\ m ∈ kv.2.
Proof.
  unfold Sampler.new. cbn [Sampler._disabled_methods_names].
  destruct config as [[|item items]|].
  - split; [set_solver|]. intros (? & kv & [= <-] & Hkv & _).
    now apply elem_of_nil in Hkv.
  - rewrite foldl_add_items. split.
    + intros [H|(kv & Hkv & H)]; [set_solver|]. now exists (item :: items), kv.
    + intros (? & kv & [= <-] & Hkv & H). right. now exists kv.
  - split; [set_solver|]. now intros (? & ? & ? & _).
Qed.

(** X16: the sampler by its configuration.  Call a method listed when
    the configuration has it under some component.  A sampler built from
    a configuration that lists nothing (none at all, an empty one, or one
    with empty lists only) samples every span, whatever its parent.
    Otherwise a span named after a listed method is dropped, a span under
    a valid parent that is not sampled is dropped when a parent context
    is given, and every other span is sampled. *)
Theorem should_sample_by_config
    (config : option (list (string * list string)))
    (parent_context : bool) (parent : Sampler.SpanContext) (name : string) :
  let listed m :=
    exists items kv, config = Some items /\ kv ∈ items /\ m ∈ kv.2 in
  let decision :=
    Sampler.should_sample (Sampler.new config) parent_context parent name in
  ((forall m, ~ listed m) -> decision = Sampler.RECORD_AND_SAMPLE)
  /\ (listed name -> decision = Sampler.DROP)
  /\ ((exists m, listed m) -> parent_context = true ->
      Sampler.span_id parent <> 0%Z ->
      Sampler.trace_flags parent <> Sampler.SAMPLED ->
      decision = Sampler.DROP)
  /\ (~ listed name ->
      parent_context = false \/ Sampler.span_id parent = 0%Z
      \/ Sampler.trace_flags parent = Sampler.SAMPLED ->
      decision = Sampler.RECORD_AND_SAMPLE).
Proof.
  intros listed decision. unfold decision, Sampler.should_sample.
  pose proof (disabled_names_spec config) as Hspec. fold listed in Hspec.
  set (names := Sampler._disabled_methods_names (Sampler.new config)) in *.
  split; [|split; [|split]].
  - intros Hnone. rewrite bool_decide_eq_true_2; [reflexivity|].
    apply set_eq. intros m. rewrite Hspec. split; [|set_solver].
    intros H. now apply Hnone in H.
  - intros Hl. apply Hspec in Hl.
    rewrite bool_decide_eq_false_2 by set_solver.
    destruct (_ && _ && _); [reflexivity|].
    now rewrite bool_decide_eq_true_2.
  - intros (m & Hm) -> Hid Hfl. apply Hspec in Hm.
    rewrite bool_decide_eq_false_2 by set_solver.
    apply Z.eqb_neq in Hid, Hfl. now rewrite Hid, Hfl.
  - intros Hnl Hparent.
    destruct (bool_decide (names = ∅)); [reflexivity|].
    assert (E : parent_context
                && negb (Sampler.span_id parent =? 0)%Z
                && negb (Sampler.trace_flags parent =? Sampler.SAMPLED)%Z
                = false).
    { destruct Hparent as [->|[->| ->]]; [reflexivity| |].
      - now rewrite andb_false_r.
      - rewrite Z.eqb_refl. apply andb_false_r. }
    rewrite E. rewrite bool_decide_eq_false_2; [reflexivity|].
    now rewrite Hspec.
Qed.

(** ** When a batch returns *)






(** A name that points into a directory that is not there makes the
    batch raise, on the same disk. *)
Example generate_multiple_files_missing_subdirectory :
  (generate_multiple_files (Some ["sub/x"]) None false "langtrace_sampler"
     Sample.plain).1
  = Raise (OSError OpOpen ["out"; "sub"; "x.py"]).
Proof. vm_compute. reflexivity. Qed.
